(** * Auckland Transport real-time departure boards

    A shallow embedding of the departure extraction, the stop lookup and the
    rendering of [ATRTDB.py] (the rotating master board) and of the
    per-location scripts [RTDB_downtown.py], [RTDB_Britomart.py] and
    [RTDB_Waitemata.py], followed by their properties.

    Conventions of the embedding:
    - Python [int] is [Z]; the protobuf [int32]/[int64] fields are read as [Z].
    - A naive [datetime] is the number of microseconds on the local calendar,
      a [timedelta] a number of microseconds.
    - A Python [float] is the rational number it denotes, and a float
      operation is the exact operation followed by the rounding to the
      nearest binary64 number, ties to even ([Py.round]).  The exponent
      range of binary64 is not modelled: the quotients formed here from the
      difference of two datetimes lie between 1e-8 and 1e12 in absolute
      value, far from overflow and underflow.
    - The generated protobuf classes are records of the fields that the
      scripts read and that the messages have.  The message [TripDescriptor]
      of GTFS-realtime has no field [trip_headsign]: the scripts read it all
      the same, and the read raises [AttributeError].
    - What the process reads from outside (the HTTP reply, the clock, the
      local-time conversion of the platform, the random generator) is
      gathered in a [World] value that the functions take as an argument.
    - [print] is modelled by the list of lines a call writes. *)

From Stdlib Require Import ZArith List String Ascii Bool Lia.
From Stdlib Require Import QArith Qround DecimalString.
From Stdlib Require Import Permutation Sorted.
From Stdlib Require DecimalPos DecimalZ Floats.SpecFloat.
Import ListNotations.

Local Open Scope string_scope.
Local Open Scope list_scope.
Local Open Scope Z_scope.

(* ====================================================================== *)
(** ** Python runtime: the operations the scripts use *)
(* ====================================================================== *)

Module Py.

(** Exceptions that can escape the calls made by [get_departures]; all of
    them derive from [Exception]. *)
Inductive exn : Type :=
| DecodeError (msg : string)        (* protobuf: ParseFromString *)
| RequestException (msg : string)   (* requests: connection error, timeout *)
| ValueError (msg : string)         (* datetime.fromtimestamp: out of range *)
| AttributeError (msg : string).    (* a read of an attribute that is not there *)

(** [str(e)] *)
Definition str_exn (e : exn) : string :=
  match e with
  | DecodeError m => m
  | RequestException m => m
  | ValueError m => m
  | AttributeError m => m
  end.

(** The result of running a piece of Python: a value, or a raised
    exception. *)
Inductive outcome (A : Type) : Type :=
| Return (a : A)
| Raise (e : exn).
Arguments Return {A} a.
Arguments Raise {A} e.

Definition bind {A B : Type} (c : outcome A) (k : A -> outcome B) : outcome B :=
  match c with
  | Return a => k a
  | Raise e => Raise e
  end.


(** [for x in xs: body], the loop state being threaded through; a raising
    iteration aborts the loop. *)
Fixpoint for_each {A S : Type} (xs : list A) (body : A -> S -> outcome S)
    (s : S) : outcome S :=
  match xs with
  | [] => Return s
  | x :: xs' => bind (body x s) (for_each xs' body)
  end.

(** Truthiness of a list and of a string; [a or b] on strings. *)
Definition truthy {A : Type} (l : list A) : bool :=
  match l with
  | [] => false
  | _ :: _ => true
  end.

Definition str_or (a b : string) : string :=
  match a with
  | EmptyString => b
  | String _ _ => a
  end.

(** [s.startswith(p)], [any(...)], [x in l] for a list of strings. *)
Definition startswith (s p : string) : bool := String.prefix p s.

Definition any {A : Type} (f : A -> bool) (l : list A) : bool := existsb f l.

Definition contains (x : string) (l : list string) : bool :=
  existsb (String.eqb x) l.

(** [a // b] on integers is floor division, as [Z.div] is. *)
Definition floordiv (a b : Z) : Z := Z.div a b.

(** [str(n)] for an integer. *)
Definition str_int (n : Z) : string := NilZero.string_of_int (Z.to_int n).

(** [datetime] and [timedelta], in microseconds. *)
Definition datetime : Type := Z.
Definition timedelta : Type := Z.

Definition timedelta_minutes (m : Z) : timedelta := m * 60000000.
Definition dt_add (d : datetime) (t : timedelta) : datetime := d + t.
Definition dt_sub (a b : datetime) : timedelta := a - b.
Definition dt_gt (a b : datetime) : bool := b <? a.

(** *** Floats

    The rounding of a quotient [n / d] of positive integers to binary64:
    with [e = exponent n d] the quotient lies between [2^e] and [2^(e+1)];
    scaled by [2^(52-e)] it has the 53 bits of a significand before the
    point, and the nearest integer, ties to even, is the significand of
    the result.  [pow2 k] is [2^k] for a non-negative [k] and 1 for a
    negative one, so that the scaling by [2^k] multiplies the numerator by
    [pow2 k] and the denominator by [pow2 (- k)]. *)
Definition pow2 (k : Z) : Z := 2 ^ Z.max k 0.

Definition nearest_even (n d : Z) : Z :=
  let q := n / d in
  let r := n mod d in
  if 2 * r <? d then q
  else if d <? 2 * r then q + 1
  else if Z.even q then q else q + 1.

Definition exponent (n d : Z) : Z :=
  let e := Z.log2 n - Z.log2 d in
  if n * pow2 (- e) <? d * pow2 e then e - 1 else e.

Definition round_pos (n d : Z) : Q :=
  let t := 52 - exponent n d in
  let m := nearest_even (n * pow2 t) (d * pow2 (- t)) in
  (m * pow2 (- t)) # Z.to_pos (pow2 t).

(** The binary64 number nearest to [x]. *)
Definition round (x : Q) : Q :=
  match Qnum x with
  | 0 => 0%Q
  | Zpos p => round_pos (Zpos p) (Zpos (Qden x))
  | Zneg p => Qopp (round_pos (Zpos p) (Zpos (Qden x)))
  end.

(** [x / y] for a float [x] and a non-zero [y]; an [int] divisor is
    converted to a float first, which is exact for 60. *)
Definition fdiv (x y : Q) : Q := round (x / y).

(** [td.total_seconds()]: the microseconds divided by [10**6], a division
    of two integers that gives the nearest float. *)
Definition total_seconds (t : timedelta) : Q := round (t # 1000000).

(** [int(x)] truncates toward zero. *)
Definition int (x : Q) : Z := Z.quot (Qnum x) (Zpos (Qden x)).

(** [l.sort(key=key)]: the stable sort by [key], ascending.  Insertion
    before the first element whose key is not smaller keeps an element
    ahead of the equal-keyed elements that followed it in the input. *)
Fixpoint insert_by {A : Type} (key : A -> Z) (x : A) (l : list A) : list A :=
  match l with
  | [] => [x]
  | y :: l' => if key y <? key x then y :: insert_by key x l'
               else x :: y :: l'
  end.

Definition sort_by {A : Type} (key : A -> Z) (l : list A) : list A :=
  fold_right (insert_by key) [] l.

(** [l[:n]] for a non-negative [n]. *)
Definition slice_to {A : Type} (n : nat) (l : list A) : list A := firstn n l.

(** [random.randint(a, b)] and [random.choice(seq)], from one raw draw of
    the generator; [choice] is only called on non-empty lists. *)
Definition randint (a b : Z) (raw : nat) : Z :=
  a + Z.of_nat raw mod (b - a + 1).

Definition choice (seq : list string) (raw : nat) : string :=
  nth (Nat.modulo raw (List.length seq)) seq EmptyString.

End Py.

Notation "x <- c ;; k" := (Py.bind c (fun x => k))
  (at level 61, c at next level, right associativity).
Notation "a // b" := (Py.floordiv a b) (at level 40, left associativity).

(* ====================================================================== *)
(** ** The decoded feed, as the scripts read it *)
(* ====================================================================== *)

Module Gtfs.

(** Only the fields that are read are kept.  A field is an [option] where
    the code, or a property below, depends on its presence ([HasField]);
    reading an absent scalar gives the protobuf default. *)
Record StopTimeEvent : Type := {
  delay : option Z;
  time : option Z
}.

Record StopTimeUpdate : Type := {
  stop_id : string;
  departure : option StopTimeEvent
}.

(** The fields of [TripDescriptor] are trip_id, route_id, direction_id,
    start_time, start_date, schedule_relationship and modified_trip. *)
Record TripDescriptor : Type := {
  route_id : string
}.

Record TripUpdate : Type := {
  trip : TripDescriptor;
  stop_time_update : list StopTimeUpdate
}.

Record FeedEntity : Type := {
  trip_update : option TripUpdate
}.

Record FeedMessage : Type := {
  entity : list FeedEntity
}.

(** Field reads: [ev.delay], [ev.time]. *)
Definition get_delay (ev : StopTimeEvent) : Z :=
  match delay ev with Some d => d | None => 0 end.

Definition get_time (ev : StopTimeEvent) : Z :=
  match time ev with Some t => t | None => 0 end.

(** [trip.trip_headsign]: a message class raises [AttributeError] for a
    name that is no field of the message, and [TripDescriptor] has no
    field of this name.  The text of the error is the one of the upb and
    C++ runtimes of protobuf, the name of the attribute. *)
Definition no_trip_headsign : Py.exn := Py.AttributeError "trip_headsign".

Definition get_trip_headsign (t : TripDescriptor) : Py.outcome string :=
  Py.Raise no_trip_headsign.

(** [stu.departure] reads as an empty event when the field is absent. *)
Definition get_departure (stu : StopTimeUpdate) : StopTimeEvent :=
  match departure stu with
  | Some ev => ev
  | None => {| delay := None; time := None |}
  end.

(** [ev.HasField('delay')], [stu.HasField('departure')] *)
Definition has_delay (ev : StopTimeEvent) : bool :=
  match delay ev with Some _ => true | None => false end.

Definition has_departure (stu : StopTimeUpdate) : bool :=
  match departure stu with Some _ => true | None => false end.

(** The bytes of a reply are identified with what [ParseFromString] makes
    of them: a decoding error, or the decoded message. *)
Inductive payload : Type :=
| Malformed (msg : string)
| Decodes (feed : FeedMessage).

Definition ParseFromString (content : payload) : Py.outcome FeedMessage :=
  match content with
  | Malformed msg => Py.Raise (Py.DecodeError msg)
  | Decodes feed => Py.Return feed
  end.

End Gtfs.

(* ====================================================================== *)
(** ** What a call reads from outside *)
(* ====================================================================== *)

Module Env.

Record Response : Type := {
  status_code : Z;
  content : Gtfs.payload
}.

Record World : Type := {
  (** the outcome of [requests.get(REALTIME_URL, ...)] *)
  requests_get : Py.outcome Response;
  (** the value of [datetime.now()] *)
  now : Py.datetime;
  (** [datetime.fromtimestamp]: the platform's conversion of POSIX seconds
      to local time, which raises outside the supported range *)
  fromtimestamp : Z -> Py.outcome Py.datetime;
  (** the successive raw draws of the [random] module *)
  random_raw : nat -> nat
}.

End Env.

(* ====================================================================== *)
(** ** ATRTDB.py: the master board *)
(* ====================================================================== *)

Module ATRTDB.

Definition REALTIME_URL : string :=
  "https://api.at.govt.nz/v2/public/realtime/tripupdates".
Definition ROTATION_SECONDS : Z := 45.
Definition MAX_DEPARTURES : nat := 10.
Definition REFRESH_INTERVAL : Z := 30.

Definition COLOR_GREEN : string := String "027"%char "[92m".
Definition COLOR_RED : string := String "027"%char "[91m".
Definition COLOR_YELLOW : string := String "027"%char "[93m".
Definition COLOR_RESET : string := String "027"%char "[0m".

Inductive TransitMode : Type := TRAIN | BUS | FERRY.

(** [class Location]; [stop_ids] is filled in by [initialize_locations]. *)
Record Location : Type := {
  name : string;
  search_term : string;
  mode : TransitMode;
  route_prefixes : list string;
  stop_ids : list string
}.

(** [Location.__init__]: [route_prefixes or []], [stop_ids = []]. *)
Definition Location_init (name search_term : string) (mode : TransitMode)
    (route_prefixes : option (list string)) : Location :=
  {| name := name;
     search_term := search_term;
     mode := mode;
     route_prefixes := match route_prefixes with
                       | Some l => if Py.truthy l then l else []
                       | None => []
                       end;
     stop_ids := [] |}.

(** [location.stop_ids = stop_ids] *)
Definition set_stop_ids (location : Location) (ids : list string) : Location :=
  {| name := name location;
     search_term := search_term location;
     mode := mode location;
     route_prefixes := route_prefixes location;
     stop_ids := ids |}.

Definition Waitemata : Location :=
  Location_init "Waitemata Station" "Waitemata" TRAIN (Some []).

Definition Britomart : Location :=
  Location_init "Britomart Bus Hub" "Britomart" BUS
    (Some ["64-"; "65-"; "66-"; "67-"; "68-"; "18-"; "20-"; "22-";
           "24-"; "25-"; "27-"; "30-"; "70-"; "75-"; "295-"; "298-";
           "309-"; "321-"; "744-"; "747-"; "751-"; "755-"; "781-"; "782-"]).

Definition Downtown : Location :=
  Location_init "Downtown Ferry Terminal" "Downtown Ferry" FERRY
    (Some ["BAYS-"; "BIRK-"; "KPHS-"; "KPHM-"; "PINE-"; "RAK-";
           "RANG-"; "TIRI-"; "WSTH-"; "MTIA-"; "HMB-"]).

Definition LOCATIONS : list Location := [Waitemata; Britomart; Downtown].

(** The dict appended to [deps]. *)
Record Departure : Type := {
  route : string;
  headsign : string;
  time : Py.datetime;
  mins_until : Z;
  delay : Z;
  stop_id : string
}.

(** *** get_departures *)

(** Lines 160-162: [int((dep_time - now).total_seconds() / 60)], then
    [if mins_until < 0: mins_until = 0]. *)
Definition minutes_until (dep_time now : Py.datetime) : Z :=
  let mins_until :=
    Py.int (Py.fdiv (Py.total_seconds (Py.dt_sub dep_time now))
              (inject_Z 60)) in
  if mins_until <? 0 then 0 else mins_until.

(** Lines 152-171: the body of [for stu in ...stop_time_update]. *)
Definition stop_time_step (location : Location) (w : Env.World)
    (now : Py.datetime) (trip : Gtfs.TripDescriptor) (route_id : string)
    (stu : Gtfs.StopTimeUpdate) (deps : list Departure)
    : Py.outcome (list Departure) :=
  if Py.contains (Gtfs.stop_id stu) (stop_ids location)
     && Gtfs.has_departure stu
  then
    dep_time <- Env.fromtimestamp w (Gtfs.get_time (Gtfs.get_departure stu)) ;;
    (* Only future departures *)
    if Py.dt_gt dep_time now then
      let delay := if Gtfs.has_delay (Gtfs.get_departure stu)
                   then Gtfs.get_delay (Gtfs.get_departure stu) else 0 in
      trip_headsign <- Gtfs.get_trip_headsign trip ;;
      let headsign := Py.str_or trip_headsign "N/A" in
      let mins_until := minutes_until dep_time now in
      Py.Return (deps ++ [ {| route := route_id;
                              headsign := headsign;
                              time := dep_time;
                              mins_until := mins_until;
                              delay := delay;
                              stop_id := Gtfs.stop_id stu |} ])
    else Py.Return deps
  else Py.Return deps.

(** Lines 142-171: the body of [for entity in feed.entity]. *)
Definition entity_step (location : Location) (w : Env.World)
    (now : Py.datetime) (entity : Gtfs.FeedEntity) (deps : list Departure)
    : Py.outcome (list Departure) :=
  match Gtfs.trip_update entity with
  | Some tu =>
      let trip := Gtfs.trip tu in
      let route_id := Gtfs.route_id trip in
      (* Filter by route prefixes if specified *)
      if Py.truthy (route_prefixes location)
         && negb (Py.any (fun p => Py.startswith route_id p)
                         (route_prefixes location))
      then Py.Return deps
      else Py.for_each (Gtfs.stop_time_update tu)
                       (stop_time_step location w now trip route_id) deps
  | None => Py.Return deps
  end.

(** Lines 173-175: [deps.sort(key=lambda x: x['time'])] and
    [deps[:MAX_DEPARTURES]], the bound taken as an argument. *)
Definition sort_and_limit (deps : list Departure) (max_departures : nat)
    : list Departure :=
  Py.slice_to max_departures (Py.sort_by time deps).

(** Lines 130-175: the body of the [try]. *)
Definition fetch_departures (location : Location) (w : Env.World)
    : Py.outcome (list string * list Departure) :=
  resp <- Env.requests_get w ;;
  if negb (Env.status_code resp =? 200) then
    Py.Return
      ([("⚠️ Realtime feed failed: "
           ++ Py.str_int (Env.status_code resp))%string], [])
  else
    feed <- Gtfs.ParseFromString (Env.content resp) ;;
    let now := Env.now w in
    deps <- Py.for_each (Gtfs.entity feed) (entity_step location w now) [] ;;
    Py.Return ([], sort_and_limit deps MAX_DEPARTURES).

(** Lines 117-126: one iteration of the simulation loop; [k] is the index
    of the next raw draw. *)
Definition mock_headsigns : list string :=
  ["Glen Innes"; "Newmarket"; "Onehunga"; "Devonport"; "Waiheke"].

Definition mock_departure (location : Location) (now : Py.datetime)
    (g : nat -> nat) (k : nat) : Departure * nat :=
  let dep_time :=
    Py.dt_add now (Py.timedelta_minutes (Py.randint 1 60 (g k))) in
  let k := S k in
  let (r, k) := if Py.truthy (route_prefixes location)
                then (Py.choice (route_prefixes location) (g k), S k)
                else ("MOCK", k) in
  let h := Py.choice mock_headsigns (g k) in
  let k := S k in
  let m := Py.randint 1 60 (g k) in
  let k := S k in
  let d := Py.randint (-120) 300 (g k) in
  let k := S k in
  ({| route := r; headsign := h; time := dep_time; mins_until := m;
      delay := d; stop_id := "mock" |}, k).

Fixpoint mock_loop (n : nat) (location : Location) (now : Py.datetime)
    (g : nat -> nat) (k : nat) (mock_deps : list Departure)
    : list Departure :=
  match n with
  | O => mock_deps
  | S n' =>
      let (d, k') := mock_departure location now g k in
      mock_loop n' location now g k' (mock_deps ++ [d])
  end.

Section Configured.

(** [API_KEY] is the value a deployment edits; the source ships the
    placeholder, with which the board simulates. *)
Variable API_KEY : string.

Definition SIMULATION_MODE : bool := String.eqb API_KEY "YOUR_KEY_HERE".

(** The printed lines and the returned list. *)
Definition get_departures (location : Location) (w : Env.World)
    : list string * list Departure :=
  if SIMULATION_MODE then
    ([("🎭 Simulating departures for " ++ name location)%string],
     mock_loop MAX_DEPARTURES location (Env.now w) (Env.random_raw w) 0 [])
  else
    match fetch_departures location w with
    | Py.Return r => r
    | Py.Raise e =>
        ([("❌ Error fetching departures for " ++ name location
             ++ ": " ++ Py.str_exn e)%string], [])
    end.

End Configured.

Definition printed {A : Type} (r : list string * A) : list string := fst r.
Definition returned {A : Type} (r : list string * A) : A := snd r.

(** *** render_console_board: the status column (lines 229-239) *)

Inductive Status : Type := LATE | EARLY | ON_TIME.

Definition classify (delay : Z) : Status :=
  let delay_mins := delay // 60 in
  if delay_mins >? 2 then LATE
  else if delay_mins <? -2 then EARLY
  else ON_TIME.

(** The [status] and [marker] strings of a row. *)
Definition status_cell (dep : Departure) : string * string :=
  let delay_mins := delay dep // 60 in
  match classify (delay dep) with
  | LATE =>
      ((COLOR_RED ++ Py.str_int delay_mins ++ "m LATE" ++ COLOR_RESET)%string,
       "⚠️")
  | EARLY =>
      ((COLOR_YELLOW ++ Py.str_int (- delay_mins) ++ "m EARLY"
          ++ COLOR_RESET)%string,
       "⚡")
  | ON_TIME =>
      ((COLOR_GREEN ++ "ON TIME" ++ COLOR_RESET)%string, "✓")
  end.

End ATRTDB.

(* ====================================================================== *)
(** ** RTDB_downtown.py: the ferry terminal script *)
(* ====================================================================== *)

Module RTDB_downtown.

Definition FERRY_ROUTE_PREFIXES : list string :=
  ["BAYS-"; "BIRK-"; "KPHS-"; "KPHM-"; "PINE-"; "RAK-";
   "RANG-"; "TIRI-"; "WSTH-"; "MTIA-"; "HMB-"].

Record Departure : Type := {
  route : string;
  headsign : string;
  time : Py.datetime;
  delay : Z;
  stop_id : string
}.

(** Lines 62-73: the body of [for stu in ...stop_time_update]. *)
Definition stop_time_step (stop_ids : list string) (w : Env.World)
    (now : Py.datetime) (trip : Gtfs.TripDescriptor) (route_id : string)
    (stu : Gtfs.StopTimeUpdate) (deps : list Departure)
    : Py.outcome (list Departure) :=
  if Py.contains (Gtfs.stop_id stu) stop_ids && Gtfs.has_departure stu
  then
    dep_time <- Env.fromtimestamp w (Gtfs.get_time (Gtfs.get_departure stu)) ;;
    if Py.dt_gt dep_time now then
      let delay := Gtfs.get_delay (Gtfs.get_departure stu) in
      trip_headsign <- Gtfs.get_trip_headsign trip ;;
      let headsign := Py.str_or trip_headsign "N/A" in
      Py.Return (deps ++ [ {| route := route_id;
                              headsign := headsign;
                              time := dep_time;
                              delay := delay;
                              stop_id := Gtfs.stop_id stu |} ])
    else Py.Return deps
  else Py.Return deps.

(** Lines 56-73: the body of [for entity in feed.entity]. *)
Definition entity_step (stop_ids : list string) (w : Env.World)
    (now : Py.datetime) (entity : Gtfs.FeedEntity) (deps : list Departure)
    : Py.outcome (list Departure) :=
  match Gtfs.trip_update entity with
  | Some tu =>
      let trip := Gtfs.trip tu in
      let route_id := Gtfs.route_id trip in
      (* Filter for ferry routes *)
      if Py.any (fun prefix => Py.startswith route_id prefix)
                FERRY_ROUTE_PREFIXES
      then Py.for_each (Gtfs.stop_time_update tu)
                       (stop_time_step stop_ids w now trip route_id) deps
      else Py.Return deps
  | None => Py.Return deps
  end.

(** Nothing is caught: an exception leaves the function. *)
Definition get_departures (stop_ids : list string) (w : Env.World)
    : Py.outcome (list string * list Departure) :=
  resp <- Env.requests_get w ;;
  if negb (Env.status_code resp =? 200) then
    Py.Return
      ([("Realtime failed: " ++ Py.str_int (Env.status_code resp))%string],
       [])
  else
    feed <- Gtfs.ParseFromString (Env.content resp) ;;
    let now := Env.now w in
    deps <- Py.for_each (Gtfs.entity feed) (entity_step stop_ids w now) [] ;;
    Py.Return ([], Py.slice_to 15 (Py.sort_by time deps)).

(** [print_board]: the status column (lines 84-85). *)
Definition status (d : Departure) : string :=
  let mins := delay d // 60 in
  if mins >? 0 then (Py.str_int mins ++ "m late")%string
  else if mins <? 0 then (Py.str_int (- mins) ++ "m early")%string
  else "On time".

End RTDB_downtown.

(* ====================================================================== *)
(** ** RTDB_Britomart.py: the bus hub script *)
(* ====================================================================== *)

Module RTDB_Britomart.

Record Departure : Type := {
  route : string;
  headsign : string;
  time : Py.datetime;
  delay : Z;
  stop_id : string
}.

(** Lines 61-72: the body of [for stu in ...stop_time_update]. *)
Definition stop_time_step (stop_ids : list string) (w : Env.World)
    (now : Py.datetime) (trip : Gtfs.TripDescriptor) (route_id : string)
    (stu : Gtfs.StopTimeUpdate) (deps : list Departure)
    : Py.outcome (list Departure) :=
  if Py.contains (Gtfs.stop_id stu) stop_ids && Gtfs.has_departure stu
  then
    dep_time <- Env.fromtimestamp w (Gtfs.get_time (Gtfs.get_departure stu)) ;;
    if Py.dt_gt dep_time now then
      let delay := Gtfs.get_delay (Gtfs.get_departure stu) in
      trip_headsign <- Gtfs.get_trip_headsign trip ;;
      let headsign := Py.str_or trip_headsign "N/A" in
      Py.Return (deps ++ [ {| route := route_id;
                              headsign := headsign;
                              time := dep_time;
                              delay := delay;
                              stop_id := Gtfs.stop_id stu |} ])
    else Py.Return deps
  else Py.Return deps.

(** Lines 56-72: the body of [for entity in feed.entity]; the route filter
    of this script is commented out in the source. *)
Definition entity_step (stop_ids : list string) (w : Env.World)
    (now : Py.datetime) (entity : Gtfs.FeedEntity) (deps : list Departure)
    : Py.outcome (list Departure) :=
  match Gtfs.trip_update entity with
  | Some tu =>
      let trip := Gtfs.trip tu in
      let route_id := Gtfs.route_id trip in
      Py.for_each (Gtfs.stop_time_update tu)
                  (stop_time_step stop_ids w now trip route_id) deps
  | None => Py.Return deps
  end.

Definition get_departures (stop_ids : list string) (w : Env.World)
    : Py.outcome (list string * list Departure) :=
  resp <- Env.requests_get w ;;
  if negb (Env.status_code resp =? 200) then
    Py.Return
      ([("Realtime failed: " ++ Py.str_int (Env.status_code resp))%string],
       [])
  else
    feed <- Gtfs.ParseFromString (Env.content resp) ;;
    let now := Env.now w in
    deps <- Py.for_each (Gtfs.entity feed) (entity_step stop_ids w now) [] ;;
    Py.Return ([], Py.slice_to 15 (Py.sort_by time deps)).

(** [print_board]: the status column (lines 83-84). *)
Definition status (d : Departure) : string :=
  let mins := delay d // 60 in
  if mins >? 0 then (Py.str_int mins ++ "m late")%string
  else if mins <? 0 then (Py.str_int (- mins) ++ "m early")%string
  else "On time".

End RTDB_Britomart.

(* ====================================================================== *)
(** ** The extraction as the specification words it *)
(* ====================================================================== *)

(** These definitions follow the specification (sections 4.2 to 4.4), not
    the code; the theorems below compare the code with them. *)
Module Spec.

(** 4.2: a non-empty allowlist must have a prefix of the route, and the
    stop must be one of the resolved stops. *)
Definition route_allowed (location : ATRTDB.Location) (route_id : string)
    : Prop :=
  ATRTDB.route_prefixes location = []
  \/ exists p, In p (ATRTDB.route_prefixes location)
               /\ String.prefix p route_id = true.

Definition accepts (location : ATRTDB.Location) (trip : Gtfs.TripDescriptor)
    (stu : Gtfs.StopTimeUpdate) : Prop :=
  route_allowed location (Gtfs.route_id trip)
  /\ In (Gtfs.stop_id stu) (ATRTDB.stop_ids location).

(** 4.3, step 2: the floor of the seconds from [now] to the departure
    divided by 60, clamped at 0, in exact arithmetic. *)
Definition minutes_until (dep_time now : Py.datetime) : Z :=
  Z.max 0 (Qfloor (Qdiv ((dep_time - now) # 1000000) (inject_Z 60))).

(** 4.3, step 3: the delay field, or 0. *)
Definition delay_seconds (ev : Gtfs.StopTimeEvent) : Z :=
  match Gtfs.delay ev with
  | Some d => d
  | None => 0
  end.

(** 4.3, step 1: the event [stu] carries the departure [ev], which converts
    to the instant [dep_time], later than [now]. *)
Definition upcoming (w : Env.World) (now : Py.datetime)
    (stu : Gtfs.StopTimeUpdate) (ev : Gtfs.StopTimeEvent)
    (dep_time : Py.datetime) : Prop :=
  Gtfs.departure stu = Some ev
  /\ Env.fromtimestamp w (Gtfs.get_time ev) = Py.Return dep_time
  /\ now < dep_time.

(** The feed holds an upcoming event that the filter accepts. *)
Definition due (location : ATRTDB.Location) (w : Env.World)
    (now : Py.datetime) (feed : Gtfs.FeedMessage) : Prop :=
  exists ent tu stu ev dep_time,
    In ent (Gtfs.entity feed)
    /\ Gtfs.trip_update ent = Some tu
    /\ In stu (Gtfs.stop_time_update tu)
    /\ upcoming w now stu ev dep_time
    /\ accepts location (Gtfs.trip tu) stu.

(** No timestamp of the feed makes the conversion raise. *)
Definition converts (w : Env.World) (feed : Gtfs.FeedMessage) : Prop :=
  forall ent tu stu ev,
    In ent (Gtfs.entity feed) ->
    Gtfs.trip_update ent = Some tu ->
    In stu (Gtfs.stop_time_update tu) ->
    Gtfs.departure stu = Some ev ->
    exists dep_time,
      Env.fromtimestamp w (Gtfs.get_time ev) = Py.Return dep_time.

(** The line that the handler of [get_departures] prints for [e]. *)
Definition error_line (location : ATRTDB.Location) (e : Py.exn) : string :=
  ("❌ Error fetching departures for " ++ ATRTDB.name location ++ ": "
     ++ Py.str_exn e)%string.



(** The fields that the master board and the scripts have in common. *)
Definition fields : Type := (string * string * Py.datetime * Z * string)%type.

Definition of_master (d : ATRTDB.Departure) : fields :=
  (ATRTDB.route d, ATRTDB.headsign d, ATRTDB.time d, ATRTDB.delay d,
   ATRTDB.stop_id d).






(** Ascending keys, as [Sorted] on the key order. *)
Definition ascending {A : Type} (key : A -> Z) (l : list A) : Prop :=
  StronglySorted (fun a b => key a <= key b) l.

(** The sublist of the elements whose key is [k], in order. *)
Definition with_key {A : Type} (key : A -> Z) (k : Z) (l : list A) : list A :=
  filter (fun a => key a =? k) l.

(** The binary64 division of the standard library's IEEE 754
    specification, on two positive integers, as a rational. *)
Definition ieee_div (n d : positive) : Q :=
  match SpecFloat.SFdiv 53 1024 (SpecFloat.S754_finite false n 0)
          (SpecFloat.S754_finite false d 0) with
  | SpecFloat.S754_finite false m e =>
      (Zpos m * Py.pow2 e) # Z.to_pos (Py.pow2 (- e))
  | _ => 0%Q
  end.

End Spec.

(* ====================================================================== *)
(** ** Sample inputs *)
(* ====================================================================== *)

Module Sample.

(** Local time twelve hours ahead of UTC, without a range limit. *)
Definition plus12 (t : Z) : Py.outcome Py.datetime :=
  Py.Return ((t + 43200) * 1000000).

Definition world (reply : Py.outcome Env.Response) (now : Py.datetime)
    : Env.World :=
  {| Env.requests_get := reply;
     Env.now := now;
     Env.fromtimestamp := plus12;
     Env.random_raw := fun n => n |}.

Definition ok (feed : Gtfs.FeedMessage) : Py.outcome Env.Response :=
  Py.Return {| Env.status_code := 200; Env.content := Gtfs.Decodes feed |}.

(** The same conversion, raising past the last second of the year 9999. *)
Definition plus12_bounded (t : Z) : Py.outcome Py.datetime :=
  if t <=? 253402257599 then Py.Return ((t + 43200) * 1000000)
  else Py.Raise (Py.ValueError "year 10000 is out of range").

(** The reference instant: POSIX second 1000, on the local calendar. *)
Definition now0 : Py.datetime := (1000 + 43200) * 1000000.

Definition event (t : Z) (d : option Z) : Gtfs.StopTimeEvent :=
  {| Gtfs.delay := d; Gtfs.time := Some t |}.

Definition at_stop (s : string) (t : Z) (d : option Z) : Gtfs.StopTimeUpdate :=
  {| Gtfs.stop_id := s; Gtfs.departure := Some (event t d) |}.

Definition trip_of (r : string) (stus : list Gtfs.StopTimeUpdate)
    : Gtfs.FeedEntity :=
  {| Gtfs.trip_update :=
       Some {| Gtfs.trip := {| Gtfs.route_id := r |};
               Gtfs.stop_time_update := stus |} |}.

Definition feed_of (l : list Gtfs.FeedEntity) : Gtfs.FeedMessage :=
  {| Gtfs.entity := l |}.

(** A reply that does not decode. *)
Definition garbled : Py.outcome Env.Response :=
  Py.Return {| Env.status_code := 200;
               Env.content := Gtfs.Malformed "Error parsing message" |}.

(** A location with stops A and B and the allowlist ["64-"]. *)
Definition loc64 : ATRTDB.Location :=
  ATRTDB.set_stop_ids
    (ATRTDB.Location_init "Test" "Test" ATRTDB.BUS (Some ["64-"]))
    ["A"; "B"].

(** The end-to-end scenario of the specification: one 64-X trip, leaving
    stop A in ten minutes, 200 seconds late. *)
Definition feed_e2e : Gtfs.FeedMessage :=
  feed_of [trip_of "64-X" [at_stop "A" 1600 (Some 200)]].

Definition world_e2e : Env.World := world (ok feed_e2e) now0.

Definition trip64 : Gtfs.TripDescriptor := {| Gtfs.route_id := "64-X" |}.

(** The entry that the scenario expects of the extraction. *)
Definition entry_e2e : ATRTDB.Departure :=
  {| ATRTDB.route := "64-X";
     ATRTDB.headsign := "Britomart";
     ATRTDB.time := (1600 + 43200) * 1000000;
     ATRTDB.mins_until := 10;
     ATRTDB.delay := 200;
     ATRTDB.stop_id := "A" |}.




(** A ferry to Bayswater, at pier 1. *)
Definition feed_ferry : Gtfs.FeedMessage :=
  feed_of [trip_of "BAYS-1" [at_stop "P1" 1600 None]].

Definition world_ferry : Env.World := world (ok feed_ferry) now0.


(** Two entries of one departure instant. *)
Definition tie (r : string) : ATRTDB.Departure :=
  {| ATRTDB.route := r; ATRTDB.headsign := "N/A"; ATRTDB.time := 20;
     ATRTDB.mins_until := 1; ATRTDB.delay := 0; ATRTDB.stop_id := "A" |}.


End Sample.

(* ====================================================================== *)
(** ** Python strings as sequences of code points *)
(* ====================================================================== *)

(** A [string] holds the UTF-8 bytes of a Python [str]; a code point starts
    at every byte that is not a continuation byte (10xxxxxx). *)
Module PyStr.

Definition is_continuation (c : ascii) : bool :=
  (128 <=? nat_of_ascii c)%nat && (nat_of_ascii c <? 192)%nat.

(** [len(s)] *)
Fixpoint len (s : string) : nat :=
  match s with
  | EmptyString => O
  | String c s' => if is_continuation c then len s' else S (len s')
  end.

(** [s[:n]] *)
Fixpoint take (n : nat) (s : string) : string :=
  match s with
  | EmptyString => EmptyString
  | String c s' =>
      if is_continuation c then String c (take n s')
      else match n with
           | O => EmptyString
           | S n' => String c (take n' s')
           end
  end.

(** [c * n] for a one-character string [c] *)
Fixpoint times (c : string) (n : nat) : string :=
  match n with
  | O => EmptyString
  | S n' => (c ++ times c n')%string
  end.

(** [f"{s:<n}"] and [f"{s:>n}"] *)
Definition ljust (n : nat) (s : string) : string :=
  (s ++ times " " (n - len s))%string.

Definition rjust (n : nat) (s : string) : string :=
  (times " " (n - len s) ++ s)%string.

(** The characters of [s], as [for c in s] yields them. *)
Fixpoint chars (s : string) : list string :=
  match s with
  | EmptyString => []
  | String c s' =>
      match s' with
      | EmptyString => [String c EmptyString]
      | String c' _ =>
          if is_continuation c' then
            match chars s' with
            | h :: t => String c h :: t
            | [] => [String c EmptyString]
            end
          else String c EmptyString :: chars s'
      end
  end.

(** [p in s] for two strings: [p] occurs in [s]. *)
Definition occurs (p s : string) : bool :=
  match String.index 0 p s with
  | Some _ => true
  | None => false
  end.

End PyStr.

(* ====================================================================== *)
(** ** The values of [resp.json()] *)
(* ====================================================================== *)

Module Dyn.

(** A Python float, as far as its comparison with 0 goes. *)
Inductive pyfloat : Type :=
| Finite (q : Q)
| Infinite
| NaN.

(** What [json.loads] builds: [None], [bool], [int], [float], [str], [list]
    and [dict] (the items in insertion order, the keys distinct). *)
#[warnings="-register-all"]
Inductive value : Type :=
| VNone
| VBool (b : bool)
| VInt (n : Z)
| VFloat (f : pyfloat)
| VStr (s : string)
| VList (l : list value)
| VDict (items : list (string * value)).

(** The exceptions of the stop lookups, by class. *)
Inductive error : Type :=
| KeyError
| TypeError
| AttributeError
| IndexError
| JSONDecodeError
| RequestError.

Inductive res (A : Type) : Type :=
| Ok (a : A)
| Err (e : error).
Arguments Ok {A} a.
Arguments Err {A} e.

(** Lookup of a key among the items of a dict. *)
Fixpoint lookup (k : string) (items : list (string * value)) : option value :=
  match items with
  | [] => None
  | (k', v) :: rest => if String.eqb k k' then Some v else lookup k rest
  end.

(** [k in v] for a string [k] *)
Definition contains (k : string) (v : value) : res bool :=
  match v with
  | VDict items =>
      Ok (match lookup k items with Some _ => true | None => false end)
  | VList l =>
      Ok (existsb (fun x => match x with
                            | VStr s => String.eqb k s
                            | _ => false
                            end) l)
  | VStr s => Ok (PyStr.occurs k s)
  | _ => Err TypeError
  end.

(** [v[k]] for a string [k] *)
Definition getitem (v : value) (k : string) : res value :=
  match v with
  | VDict items =>
      match lookup k items with
      | Some x => Ok x
      | None => Err KeyError
      end
  | _ => Err TypeError
  end.

(** [v[0]] *)
Definition getitem0 (v : value) : res value :=
  match v with
  | VList (x :: _) => Ok x
  | VList [] => Err IndexError
  | VStr s =>
      match PyStr.chars s with
      | c :: _ => Ok (VStr c)
      | [] => Err IndexError
      end
  | VDict _ => Err KeyError
  | _ => Err TypeError
  end.

(** [v.get(k, default)] *)
Definition get (v : value) (k : string) (default : value) : res value :=
  match v with
  | VDict items =>
      Ok (match lookup k items with Some x => x | None => default end)
  | _ => Err AttributeError
  end.

(** The elements that [for x in v] visits. *)
Definition iter (v : value) : res (list value) :=
  match v with
  | VList l => Ok l
  | VDict items => Ok (map (fun kv => VStr (fst kv)) items)
  | VStr s => Ok (map VStr (PyStr.chars s))
  | _ => Err TypeError
  end.

(** [v == 0] *)
Definition eq_zero (v : value) : bool :=
  match v with
  | VInt n => n =? 0
  | VBool b => negb b
  | VFloat (Finite q) => Qnum q =? 0
  | _ => false
  end.

(** Truthiness. *)
Definition truthy (v : value) : bool :=
  match v with
  | VNone => false
  | VBool b => b
  | VInt n => negb (n =? 0)
  | VFloat (Finite q) => negb (Qnum q =? 0)
  | VFloat _ => true
  | VStr s => negb (String.eqb s EmptyString)
  | VList l => match l with [] => false | _ :: _ => true end
  | VDict items => match items with [] => false | _ :: _ => true end
  end.

(** [s == v] for a string [s] *)
Definition str_eq (s : string) (v : value) : bool :=
  match v with
  | VStr t => String.eqb s t
  | _ => false
  end.

(** A printed line.  The text of a line that shows values of the reply is
    kept as its parts. *)
Inductive line : Type :=
| Text (s : string)
| Found (prefix : string) (stop_name id : value)
| Failed (prefix : string) (e : error).

(** A computation that prints and may raise: the lines printed so far
    remain when it raises. *)
Definition M (A : Type) : Type := (list line * res A)%type.

Definition ret {A : Type} (a : A) : M A := ([], Ok a).

Definition bind {A B : Type} (c : M A) (k : A -> M B) : M B :=
  match c with
  | (out, Ok a) => let (out', r) := k a in (out ++ out', r)
  | (out, Err e) => (out, Err e)
  end.

Definition lift {A : Type} (r : res A) : M A := ([], r).

Definition print (l : line) : M unit := ([l], Ok tt).

Fixpoint for_each {A S : Type} (xs : list A) (body : A -> S -> M S) (s : S)
    : M S :=
  match xs with
  | [] => ret s
  | x :: xs' => bind (body x s) (for_each xs' body)
  end.

(** The reply of the stop directory. *)
Record Response : Type := {
  status_code : Z;
  text : string;
  json : res value
}.

(** [requests.get(url, params={'search': term})] *)
Record Directory : Type := {
  requests_get : string -> string -> res Response
}.

End Dyn.

Notation "x <~ c ;; k" := (Dyn.bind c (fun x => k))
  (at level 61, c at next level, right associativity).

(* ====================================================================== *)
(** ** ATRTDB.py: the stop lookup and the start-up *)
(* ====================================================================== *)

Module Lookup.

Definition GTFS_BASE : string := "https://api.at.govt.nz/gtfs/v3/stops".

(** Lines 100-105: the body of [for item in data['data']]. *)
Definition item_step (item : Dyn.value) (stop_ids : list Dyn.value)
    : Dyn.M (list Dyn.value) :=
  attrs <~ Dyn.lift (Dyn.get item "attributes" (Dyn.VDict [])) ;;
  location_type <~ Dyn.lift (Dyn.get attrs "location_type" Dyn.VNone) ;;
  (* Location type 0 = platform/child stop *)
  if Dyn.eq_zero location_type then
    id <~ Dyn.lift (Dyn.getitem item "id") ;;
    let stop_ids := stop_ids ++ [id] in
    stop_name <~ Dyn.lift (Dyn.get attrs "stop_name" Dyn.VNone) ;;
    id' <~ Dyn.lift (Dyn.getitem item "id") ;;
    _ <~ Dyn.print (Dyn.Found "✓ Found: " stop_name id') ;;
    Dyn.ret stop_ids
  else Dyn.ret stop_ids.

(** Lines 92-107: the body of the [try]. *)
Definition lookup_stop_ids (location : ATRTDB.Location) (d : Dyn.Directory)
    : Dyn.M (list Dyn.value) :=
  resp <~ Dyn.lift (Dyn.requests_get d GTFS_BASE
                      (ATRTDB.search_term location)) ;;
  if negb (Dyn.status_code resp =? 200) then
    _ <~ Dyn.print
           (Dyn.Text ("⚠️ Stop lookup failed for " ++ ATRTDB.name location
                        ++ ": " ++ Py.str_int (Dyn.status_code resp))%string) ;;
    Dyn.ret []
  else
    data <~ Dyn.lift (Dyn.json resp) ;;
    has_data <~ Dyn.lift (Dyn.contains "data" data) ;;
    if has_data then
      items <~ Dyn.lift (Dyn.getitem data "data") ;;
      xs <~ Dyn.lift (Dyn.iter items) ;;
      Dyn.for_each xs item_step []
    else Dyn.ret [].

(** The printed lines and the returned list. *)
Definition find_stop_ids (API_KEY : string) (location : ATRTDB.Location)
    (d : Dyn.Directory) : list Dyn.line * list Dyn.value :=
  if ATRTDB.SIMULATION_MODE API_KEY then
    ([Dyn.Text ("🎭 Simulation: Mocking 3 stops for "
                  ++ ATRTDB.name location)%string],
     map (fun i => Dyn.VStr ("mock_" ++ Py.str_int i)%string) [0; 1; 2])
  else
    match lookup_stop_ids location d with
    | (out, Dyn.Ok stop_ids) => (out, stop_ids)
    | (out, Dyn.Err e) =>
        (out ++ [Dyn.Failed ("❌ Error finding stops for "
                               ++ ATRTDB.name location ++ ": ")%string e],
         [])
    end.

End Lookup.

(* ====================================================================== *)
(** ** The stop lookups of the scripts *)
(* ====================================================================== *)

(** [find_bus_stop_ids] of RTDB_Britomart.py and [find_ferry_stop_ids] of
    RTDB_downtown.py differ in the text of their last line only. *)
Module ScriptLookup.

Definition GTFS_BASE : string := "https://api.at.govt.nz/gtfs/stops".

(** Lines 35-39: the body of [for item in data['data']]. *)
Definition item_step (item : Dyn.value) (stop_ids : list Dyn.value)
    : Dyn.M (list Dyn.value) :=
  attrs <~ Dyn.lift (Dyn.get item "attributes" (Dyn.VDict [])) ;;
  location_type <~ Dyn.lift (Dyn.get attrs "location_type" Dyn.VNone) ;;
  if Dyn.eq_zero location_type then
    id <~ Dyn.lift (Dyn.getitem item "id") ;;
    let stop_ids := stop_ids ++ [id] in
    stop_name <~ Dyn.lift (Dyn.get attrs "stop_name" Dyn.VNone) ;;
    id' <~ Dyn.lift (Dyn.getitem item "id") ;;
    _ <~ Dyn.print (Dyn.Found "Found stop: " stop_name id') ;;
    Dyn.ret stop_ids
  else Dyn.ret stop_ids.

Definition find_stop_ids (none_found : string) (name : string)
    (d : Dyn.Directory) : Dyn.M (list Dyn.value) :=
  resp <~ Dyn.lift (Dyn.requests_get d GTFS_BASE name) ;;
  if negb (Dyn.status_code resp =? 200) then
    _ <~ Dyn.print
           (Dyn.Text ("Stops lookup failed: "
                        ++ Py.str_int (Dyn.status_code resp) ++ " - "
                        ++ Dyn.text resp)%string) ;;
    Dyn.ret []
  else
    data <~ Dyn.lift (Dyn.json resp) ;;
    has_data <~ Dyn.lift (Dyn.contains "data" data) ;;
    stop_ids <~ (if has_data then
                   items <~ Dyn.lift (Dyn.getitem data "data") ;;
                   xs <~ Dyn.lift (Dyn.iter items) ;;
                   Dyn.for_each xs item_step []
                 else Dyn.ret []) ;;
    _ <~ (match stop_ids with
          | [] => Dyn.print (Dyn.Text none_found)
          | _ :: _ => Dyn.ret tt
          end) ;;
    Dyn.ret stop_ids.

Definition find_bus_stop_ids
    : string -> Dyn.Directory -> Dyn.M (list Dyn.value) :=
  find_stop_ids "No stops found—try 'Lower Albert' or check portal.".

Definition find_ferry_stop_ids
    : string -> Dyn.Directory -> Dyn.M (list Dyn.value) :=
  find_stop_ids
    "No child stops found—try tweaking SEARCH_TERM or check portal.".

End ScriptLookup.

(* ====================================================================== *)
(** ** RTDB_Waitemata.py: the train station script *)
(* ====================================================================== *)

Module RTDB_Waitemata.

Definition GTFS_BASE : string := "https://api.at.govt.nz/gtfs/stops".

(** The first match of the search, whatever its location type; [None] when
    the lookup fails or matches nothing. *)
Definition find_stop_id_by_name (name : string) (d : Dyn.Directory)
    : Dyn.M Dyn.value :=
  resp <~ Dyn.lift (Dyn.requests_get d GTFS_BASE name) ;;
  if negb (Dyn.status_code resp =? 200) then
    _ <~ Dyn.print
           (Dyn.Text ("Stops lookup failed: "
                        ++ Py.str_int (Dyn.status_code resp) ++ " - "
                        ++ Dyn.text resp)%string) ;;
    Dyn.ret Dyn.VNone
  else
    data <~ Dyn.lift (Dyn.json resp) ;;
    has_data <~ Dyn.lift (Dyn.contains "data" data) ;;
    matches <~ (if has_data then
                  items <~ Dyn.lift (Dyn.getitem data "data") ;;
                  Dyn.ret (Dyn.truthy items)
                else Dyn.ret false) ;;
    if matches then
      items <~ Dyn.lift (Dyn.getitem data "data") ;;
      first_match <~ Dyn.lift (Dyn.getitem0 items) ;;
      stop_id <~ Dyn.lift (Dyn.getitem first_match "id") ;;
      attrs <~ Dyn.lift (Dyn.get first_match "attributes" (Dyn.VDict [])) ;;
      stop_name <~ Dyn.lift (Dyn.get attrs "stop_name" (Dyn.VStr "Unknown")) ;;
      _ <~ Dyn.print (Dyn.Found "Found stop: " stop_name stop_id) ;;
      Dyn.ret stop_id
    else
      _ <~ Dyn.print
             (Dyn.Text "No matches found—check name or try 'Britomart'") ;;
      Dyn.ret Dyn.VNone.

Record Departure : Type := {
  route : string;
  headsign : string;
  time : Py.datetime;
  delay : Z
}.

(** Lines 54-65: the body of [for stu in ...stop_time_update]. *)
Definition stop_time_step (stop_id : Dyn.value) (w : Env.World)
    (now : Py.datetime) (trip : Gtfs.TripDescriptor)
    (stu : Gtfs.StopTimeUpdate) (deps : list Departure)
    : Py.outcome (list Departure) :=
  if Dyn.str_eq (Gtfs.stop_id stu) stop_id && Gtfs.has_departure stu
  then
    dep_time <- Env.fromtimestamp w (Gtfs.get_time (Gtfs.get_departure stu)) ;;
    if Py.dt_gt dep_time now then
      let delay := Gtfs.get_delay (Gtfs.get_departure stu) in
      trip_headsign <- Gtfs.get_trip_headsign trip ;;
      let headsign := Py.str_or trip_headsign "N/A" in
      let route := Gtfs.route_id trip in
      Py.Return (deps ++ [ {| route := route;
                              headsign := headsign;
                              time := dep_time;
                              delay := delay |} ])
    else Py.Return deps
  else Py.Return deps.

(** Lines 51-65: the body of [for entity in feed.entity]. *)
Definition entity_step (stop_id : Dyn.value) (w : Env.World)
    (now : Py.datetime) (entity : Gtfs.FeedEntity) (deps : list Departure)
    : Py.outcome (list Departure) :=
  match Gtfs.trip_update entity with
  | Some tu =>
      let trip := Gtfs.trip tu in
      Py.for_each (Gtfs.stop_time_update tu)
                  (stop_time_step stop_id w now trip) deps
  | None => Py.Return deps
  end.

Definition get_departures (stop_id : Dyn.value) (w : Env.World)
    : Py.outcome (list string * list Departure) :=
  resp <- Env.requests_get w ;;
  if negb (Env.status_code resp =? 200) then
    Py.Return
      ([("Realtime failed: " ++ Py.str_int (Env.status_code resp))%string],
       [])
  else
    feed <- Gtfs.ParseFromString (Env.content resp) ;;
    let now := Env.now w in
    deps <- Py.for_each (Gtfs.entity feed) (entity_step stop_id w now) [] ;;
    Py.Return ([], Py.slice_to 8 (Py.sort_by time deps)).

(** [print_board]: the status column (lines 76-77). *)
Definition status (d : Departure) : string :=
  let mins := delay d // 60 in
  if mins >? 0 then (Py.str_int mins ++ " min late")%string
  else if mins <? 0 then (Py.str_int (- mins) ++ " min early")%string
  else "On time".

End RTDB_Waitemata.

(* ====================================================================== *)
(** ** ATRTDB.py: the rendering of a board *)
(* ====================================================================== *)

Module Board.

(** What reaches the terminal: a shell command, or a printed string. *)
Inductive out : Type :=
| System (cmd : string)
| Print (s : string).

(** [icons.get(mode, "🚏")] *)
Definition icons : list (ATRTDB.TransitMode * string) :=
  [(ATRTDB.TRAIN, "🚆"); (ATRTDB.BUS, "🚌"); (ATRTDB.FERRY, "⛴️")].

Definition mode_eqb (a b : ATRTDB.TransitMode) : bool :=
  match a, b with
  | ATRTDB.TRAIN, ATRTDB.TRAIN => true
  | ATRTDB.BUS, ATRTDB.BUS => true
  | ATRTDB.FERRY, ATRTDB.FERRY => true
  | _, _ => false
  end.

Fixpoint dict_get (mode : ATRTDB.TransitMode)
    (d : list (ATRTDB.TransitMode * string)) (default : string) : string :=
  match d with
  | [] => default
  | (k, v) :: rest => if mode_eqb mode k then v else dict_get mode rest default
  end.

Definition get_mode_icon (mode : ATRTDB.TransitMode) : string :=
  dict_get mode icons "🚏".

(** [os.system('clear' if os.name != 'nt' else 'cls')] *)
Definition clear_screen (os_name : string) : out :=
  System (if negb (String.eqb os_name "nt") then "clear" else "cls").

(** [strftime]: the hour, minute and second of a naive datetime, each on
    two digits. *)
Definition digit (n : Z) : ascii :=
  match n with
  | 0 => "0" | 1 => "1" | 2 => "2" | 3 => "3" | 4 => "4"
  | 5 => "5" | 6 => "6" | 7 => "7" | 8 => "8" | _ => "9"
  end%char.

Definition two_digits (n : Z) : string :=
  String (digit (n / 10)) (String (digit (n mod 10)) EmptyString).

Definition hour (d : Py.datetime) : Z := (d / 3600000000) mod 24.
Definition minute (d : Py.datetime) : Z := (d / 60000000) mod 60.
Definition second (d : Py.datetime) : Z := (d / 1000000) mod 60.

Definition strftime_HM (d : Py.datetime) : string :=
  (two_digits (hour d) ++ ":" ++ two_digits (minute d))%string.

Definition strftime_HMS (d : Py.datetime) : string :=
  (two_digits (hour d) ++ ":" ++ two_digits (minute d) ++ ":"
     ++ two_digits (second d))%string.

(** Lines 219-227: the "In" column. *)
Definition mins_str (mins : Z) : string :=
  if mins =? 0 then "NOW"
  else if mins <? 60 then (Py.str_int mins ++ "m")%string
  else
    let hrs := mins // 60 in
    let m := mins mod 60 in
    (Py.str_int hrs ++ "h" ++ Py.str_int m ++ "m")%string.

(** Lines 214-241: the line of one departure. *)
Definition row (dep : ATRTDB.Departure) : string :=
  let route := PyStr.take 7 (ATRTDB.route dep) in
  let headsign := PyStr.take 22 (ATRTDB.headsign dep) in
  let time_str := strftime_HM (ATRTDB.time dep) in
  let mins_str := mins_str (ATRTDB.mins_until dep) in
  let status := fst (ATRTDB.status_cell dep) in
  let marker := snd (ATRTDB.status_cell dep) in
  ("║ " ++ PyStr.ljust 7 route ++ "│ " ++ PyStr.ljust 22 headsign ++ "│ "
     ++ PyStr.ljust 8 time_str ++ "│ " ++ PyStr.ljust 5 mins_str ++ "│ "
     ++ marker ++ " " ++ PyStr.ljust 10 status ++ " ║")%string.

Definition location_line (location : ATRTDB.Location) (now : Py.datetime)
    : string :=
  ("║ " ++ PyStr.ljust 50 (ATRTDB.name location) ++ " "
     ++ PyStr.rjust 25 (strftime_HMS now) ++ " ║")%string.

Definition render_console_board (os_name : string)
    (location : ATRTDB.Location) (departures : list ATRTDB.Departure)
    (now : Py.datetime) : list out :=
  let icon := get_mode_icon (ATRTDB.mode location) in
  [clear_screen os_name;
   Print ("╔" ++ PyStr.times "═" 78 ++ "╗")%string;
   Print ("║ " ++ icon ++ " AUCKLAND TRANSPORT - REAL-TIME DEPARTURES"
            ++ PyStr.times " " 30 ++ "║")%string;
   Print (location_line location now);
   Print ("╠" ++ PyStr.times "═" 78 ++ "╣")%string;
   Print "║ Route │ Destination │ Departs │ In │ Status ║";
   Print ("╠" ++ PyStr.times "═" 78 ++ "╣")%string]
  ++ (match departures with
      | [] => [Print ("║" ++ PyStr.times " " 25 ++ "No departures found"
                        ++ PyStr.times " " 34 ++ "║")%string]
      | _ :: _ => map (fun dep => Print (row dep)) departures
      end)
  ++ [Print ("╚" ++ PyStr.times "═" 78 ++ "╝")%string;
      Print (String "010"%char
               ("Refreshing in " ++ Py.str_int ATRTDB.REFRESH_INTERVAL
                  ++ "s | Rotating boards every "
                  ++ Py.str_int ATRTDB.ROTATION_SECONDS ++ "s"))%string].

End Board.

(* ====================================================================== *)
(** ** Invariants, documents and rows *)
(* ====================================================================== *)

Module Mock.

(** What holds of every simulated departure. *)
Definition invariant (location : ATRTDB.Location) (now : Py.datetime)
    (d : ATRTDB.Departure) : Prop :=
  now < ATRTDB.time d <= now + 3600000000
  /\ 1 <= ATRTDB.mins_until d <= 60
  /\ -120 <= ATRTDB.delay d <= 300
  /\ ATRTDB.stop_id d = "mock"
  /\ In (ATRTDB.headsign d) ATRTDB.mock_headsigns
  /\ (ATRTDB.route_prefixes location = [] -> ATRTDB.route d = "MOCK")
  /\ (ATRTDB.route_prefixes location <> [] ->
      In (ATRTDB.route d) (ATRTDB.route_prefixes location))
  /\ ATRTDB.classify (ATRTDB.delay d) <> ATRTDB.EARLY.

End Mock.

(** The reply of the stop directory, read as a document. *)
Module Doc.

(** The [attributes] of an item, and whether they make it a platform
    ([location_type == 0]). *)
Definition attributes (kvs : list (string * Dyn.value)) : Dyn.value :=
  match Dyn.lookup "attributes" kvs with
  | Some a => a
  | None => Dyn.VDict []
  end.

Definition is_platform (akvs : list (string * Dyn.value)) : bool :=
  Dyn.eq_zero (match Dyn.lookup "location_type" akvs with
               | Some v => v
               | None => Dyn.VNone
               end).

(** An item is sound when it is an object whose attributes, if any, are an
    object, and which has an id if it is a platform. *)
Definition sound (item : Dyn.value) : bool :=
  match item with
  | Dyn.VDict kvs =>
      match attributes kvs with
      | Dyn.VDict akvs =>
          if is_platform akvs
          then match Dyn.lookup "id" kvs with
               | Some _ => true
               | None => false
               end
          else true
      | _ => false
      end
  | _ => false
  end.

(** The ids of the platforms among the items, in order. *)
Definition platform_id (item : Dyn.value) : list Dyn.value :=
  match item with
  | Dyn.VDict kvs =>
      match attributes kvs with
      | Dyn.VDict akvs =>
          if is_platform akvs
          then match Dyn.lookup "id" kvs with
               | Some id => [id]
               | None => []
               end
          else []
      | _ => []
      end
  | _ => []
  end.

Definition platform_ids (items : list Dyn.value) : list Dyn.value :=
  flat_map platform_id items.

(** The reply with status 200 whose document has the items [items] under
    the key "data". *)
Definition lists (resp : Dyn.Response) (items : list Dyn.value) : Prop :=
  Dyn.status_code resp = 200
  /\ exists top,
       Dyn.json resp = Dyn.Ok (Dyn.VDict top)
       /\ Dyn.lookup "data" top = Some (Dyn.VList items).

End Doc.

(** The train script next to the master board. *)
Module Train.

Definition fields : Type := (string * string * Py.datetime * Z)%type.

Definition of_master (d : ATRTDB.Departure) : fields :=
  (ATRTDB.route d, ATRTDB.headsign d, ATRTDB.time d, ATRTDB.delay d).


End Train.

(* ====================================================================== *)
(** ** More sample inputs *)
(* ====================================================================== *)

Module Cases.

(** Two events of one trip, the first past and the second beyond the year
    9999. *)
Definition feed_far : Gtfs.FeedMessage :=
  Sample.feed_of
    [Sample.trip_of "64-X"
       [Sample.at_stop "A" 900 None;
        Sample.at_stop "B" 253402257600 None]].

Definition world_far : Env.World :=
  {| Env.requests_get := Sample.ok feed_far;
     Env.now := Sample.now0;
     Env.fromtimestamp := Sample.plus12_bounded;
     Env.random_raw := fun n => n |}.

(** An entry of route [r] that leaves at [t]. *)
Definition dep (r : string) (t : Z) : ATRTDB.Departure :=
  {| ATRTDB.route := r; ATRTDB.headsign := "N/A"; ATRTDB.time := t;
     ATRTDB.mins_until := 1; ATRTDB.delay := 0; ATRTDB.stop_id := "A" |}.

(** An entry of the master board and a row of each script with the delay
    [d]. *)
Definition late_by (d : Z) : ATRTDB.Departure :=
  {| ATRTDB.route := "64-X"; ATRTDB.headsign := "N/A"; ATRTDB.time := 0;
     ATRTDB.mins_until := 1; ATRTDB.delay := d; ATRTDB.stop_id := "A" |}.

Definition bus_row (d : Z) : RTDB_Britomart.Departure :=
  {| RTDB_Britomart.route := "64-X"; RTDB_Britomart.headsign := "N/A";
     RTDB_Britomart.time := 0; RTDB_Britomart.delay := d;
     RTDB_Britomart.stop_id := "A" |}.

Definition ferry_row (d : Z) : RTDB_downtown.Departure :=
  {| RTDB_downtown.route := "BAYS-1"; RTDB_downtown.headsign := "N/A";
     RTDB_downtown.time := 0; RTDB_downtown.delay := d;
     RTDB_downtown.stop_id := "A" |}.

Definition train_row (d : Z) : RTDB_Waitemata.Departure :=
  {| RTDB_Waitemata.route := "EAST"; RTDB_Waitemata.headsign := "N/A";
     RTDB_Waitemata.time := 0; RTDB_Waitemata.delay := d |}.

(** A reply of the stop directory: a parent station and its two
    platforms. *)
Definition stop_item (id name : string) (location_type : Dyn.value)
    : Dyn.value :=
  Dyn.VDict
    [("id", Dyn.VStr id);
     ("attributes",
      Dyn.VDict [("stop_name", Dyn.VStr name);
                 ("location_type", location_type)])].

Definition station : list Dyn.value :=
  [stop_item "133" "Waitemata Station" (Dyn.VInt 1);
   stop_item "9100" "Waitemata Platform 1" (Dyn.VInt 0);
   stop_item "9101" "Waitemata Platform 2" (Dyn.VInt 0)].

Definition reply_of (items : list Dyn.value) : Dyn.Response :=
  {| Dyn.status_code := 200;
     Dyn.text := EmptyString;
     Dyn.json := Dyn.Ok (Dyn.VDict [("data", Dyn.VList items)]) |}.

Definition directory_of (items : list Dyn.value) : Dyn.Directory :=
  {| Dyn.requests_get := fun _ _ => Dyn.Ok (reply_of items) |}.

(** The same station, the second platform without its id. *)
Definition station_broken : list Dyn.value :=
  [stop_item "9100" "Waitemata Platform 1" (Dyn.VInt 0);
   Dyn.VDict [("attributes", Dyn.VDict [("location_type", Dyn.VInt 0)])]].

End Cases.

(* ====================================================================== *)
(** ** The stable sort *)
(* ====================================================================== *)

Section SortFacts.

Context {A : Type} (key : A -> Z).

Lemma insert_by_perm (x : A) (l : list A) :
  Permutation (x :: l) (Py.insert_by key x l).
Proof.
  induction l as [|y l IH]; simpl.
  - apply Permutation_refl.
  - destruct (key y <? key x).
    + apply perm_trans with (y :: x :: l).
      * apply perm_swap.
      * apply perm_skip, IH.
    + apply Permutation_refl.
Qed.

Lemma sort_by_perm (l : list A) : Permutation l (Py.sort_by key l).
Proof.
  induction l as [|x l IH]; simpl.
  - apply perm_nil.
  - apply perm_trans with (x :: Py.sort_by key l).
    + apply perm_skip, IH.
    + apply insert_by_perm.
Qed.

Lemma sort_by_length (l : list A) :
  List.length (Py.sort_by key l) = List.length l.
Proof. symmetry. apply Permutation_length, sort_by_perm. Qed.

Lemma insert_by_ascending (x : A) (l : list A) :
  Spec.ascending key l -> Spec.ascending key (Py.insert_by key x l).
Proof.
  unfold Spec.ascending.
  induction l as [|y l IH]; intro Hs; simpl.
  - constructor; constructor.
  - inversion Hs as [|? ? Hl Hy]; subst.
    destruct (key y <? key x) eqn:E.
    + apply Z.ltb_lt in E.
      constructor.
      * apply IH, Hl.
      * eapply Permutation_Forall; [apply insert_by_perm|].
        constructor; [lia | exact Hy].
    + apply Z.ltb_ge in E.
      constructor; [exact Hs|].
      constructor; [exact E|].
      eapply Forall_impl; [|exact Hy].
      simpl; intros; lia.
Qed.

Lemma sort_by_ascending (l : list A) : Spec.ascending key (Py.sort_by key l).
Proof.
  induction l as [|x l IH]; simpl.
  - constructor.
  - apply insert_by_ascending, IH.
Qed.

Lemma with_key_insert_by (k : Z) (x : A) (l : list A) :
  Spec.with_key key k (Py.insert_by key x l)
  = Spec.with_key key k (x :: l).
Proof.
  unfold Spec.with_key.
  induction l as [|y l IH]; simpl.
  - reflexivity.
  - destruct (key y <? key x) eqn:E.
    + apply Z.ltb_lt in E. simpl. rewrite IH. simpl.
      destruct (key y =? k) eqn:Ey; destruct (key x =? k) eqn:Ex;
        try reflexivity.
      apply Z.eqb_eq in Ey, Ex. lia.
    + reflexivity.
Qed.

(** Stability: the elements of each key keep their input order. *)
Lemma sort_by_stable (k : Z) (l : list A) :
  Spec.with_key key k (Py.sort_by key l) = Spec.with_key key k l.
Proof.
  induction l as [|x l IH]; simpl.
  - reflexivity.
  - rewrite with_key_insert_by. unfold Spec.with_key in *. simpl.
    rewrite IH. reflexivity.
Qed.

Lemma with_key_head (x : A) (l : list A) :
  Spec.with_key key (key x) (x :: l) = x :: Spec.with_key key (key x) l.
Proof. unfold Spec.with_key. simpl. rewrite Z.eqb_refl. reflexivity. Qed.

Lemma with_key_In (k : Z) (l : list A) (a : A) :
  In a (Spec.with_key key k l) <-> In a l /\ key a = k.
Proof.
  unfold Spec.with_key. rewrite filter_In, Z.eqb_eq. reflexivity.
Qed.

(** An ascending list is determined by its key classes: there is one
    stable sort. *)
Lemma ascending_classes_eq (l1 l2 : list A) :
  Spec.ascending key l1 -> Spec.ascending key l2 ->
  (forall k, Spec.with_key key k l1 = Spec.with_key key k l2) ->
  l1 = l2.
Proof.
  revert l2.
  induction l1 as [|x l1 IH]; intros l2 H1 H2 Hc.
  - destruct l2 as [|y l2]; [reflexivity|].
    specialize (Hc (key y)). rewrite with_key_head in Hc. discriminate.
  - destruct l2 as [|y l2].
    + specialize (Hc (key x)). rewrite with_key_head in Hc. discriminate.
    + inversion H1 as [|? ? Hs1 Hx]; subst.
      inversion H2 as [|? ? Hs2 Hy]; subst.
      assert (Hxy : key x = key y).
      { assert (Hx2 : In x (y :: l2)).
        { apply (with_key_In (key x)). rewrite <- Hc, with_key_head.
          left; reflexivity. }
        assert (Hy1 : In y (x :: l1)).
        { apply (with_key_In (key y)). rewrite Hc, with_key_head.
          left; reflexivity. }
        rewrite Forall_forall in Hx, Hy.
        destruct Hx2 as [->|Hx2]; [reflexivity|].
        destruct Hy1 as [->|Hy1]; [reflexivity|].
        apply Hy in Hx2. apply Hx in Hy1. lia. }
      assert (Hh := Hc (key x)).
      rewrite with_key_head in Hh. rewrite Hxy in Hh at 2.
      rewrite with_key_head in Hh.
      injection Hh as Hhd Htl. subst y.
      f_equal. apply IH; [exact Hs1 | exact Hs2 |].
      intro k. specialize (Hc k).
      unfold Spec.with_key in *. simpl in Hc.
      destruct (key x =? k).
      * injection Hc as Hc. exact Hc.
      * exact Hc.
Qed.

Lemma stable_sort_unique (l s : list A) :
  Spec.ascending key s ->
  (forall k, Spec.with_key key k s = Spec.with_key key k l) ->
  s = Py.sort_by key l.
Proof.
  intros Hs Hc. apply ascending_classes_eq.
  - exact Hs.
  - apply sort_by_ascending.
  - intro k. rewrite Hc, sort_by_stable. reflexivity.
Qed.

Lemma sort_by_sorted_id (l : list A) :
  Spec.ascending key l -> Py.sort_by key l = l.
Proof.
  intro Hs. symmetry. apply stable_sort_unique; [exact Hs | reflexivity].
Qed.

End SortFacts.

(* ====================================================================== *)
(** ** Binary64 rounding *)
(* ====================================================================== *)

Lemma pow2_pos (k : Z) : 0 < Py.pow2 k.
Proof. unfold Py.pow2. apply Z.pow_pos_nonneg; lia. Qed.

Lemma pow2_nonneg (k : Z) : 0 <= k -> Py.pow2 k = 2 ^ k.
Proof. intro H. unfold Py.pow2. rewrite Z.max_l by lia. reflexivity. Qed.

Lemma pow2_nonpos (k : Z) : k <= 0 -> Py.pow2 k = 1.
Proof. intro H. unfold Py.pow2. rewrite Z.max_r by lia. reflexivity. Qed.

Lemma nearest_even_le (n d k : Z) :
  0 < d -> n <= k * d -> Py.nearest_even n d <= k.
Proof.
  intros Hd H. unfold Py.nearest_even. cbv zeta.
  assert (Hdiv := Z.div_mod n d ltac:(lia)).
  assert (Hmod := Z.mod_pos_bound n d Hd).
  assert (Hq : n / d <= k) by (apply Z.div_le_upper_bound; lia).
  destruct (2 * (n mod d) <? d) eqn:E1; [exact Hq|].
  apply Z.ltb_ge in E1.
  assert (Hlt : n / d < k) by nia.
  destruct (d <? 2 * (n mod d)); [lia|]. destruct (Z.even (n / d)); lia.
Qed.

Lemma nearest_even_ge (n d k : Z) :
  0 < d -> k * d <= n -> k <= Py.nearest_even n d.
Proof.
  intros Hd H. unfold Py.nearest_even. cbv zeta.
  assert (Hq : k <= n / d) by (apply Z.div_le_lower_bound; lia).
  destruct (2 * (n mod d) <? d); [exact Hq|].
  destruct (d <? 2 * (n mod d)); [lia|]. destruct (Z.even (n / d)); lia.
Qed.

Lemma exponent_spec (n d : Z) :
  0 < n -> 0 < d ->
  d * Py.pow2 (Py.exponent n d) <= n * Py.pow2 (- Py.exponent n d)
  /\ n * Py.pow2 (- Py.exponent n d) < 2 * (d * Py.pow2 (Py.exponent n d)).
Proof.
  intros Hn Hd. unfold Py.exponent. cbv zeta.
  assert (Hln := Z.log2_spec n Hn). assert (Hld := Z.log2_spec d Hd).
  assert (H0n := Z.log2_nonneg n). assert (H0d := Z.log2_nonneg d).
  rewrite !Z.pow_succ_r in Hln, Hld by assumption.
  set (ln := Z.log2 n) in *. set (ld := Z.log2 d) in *.
  set (a := 2 ^ ln) in *. set (b := 2 ^ ld) in *.
  destruct (n * Py.pow2 (- (ln - ld)) <? d * Py.pow2 (ln - ld)) eqn:E;
    [apply Z.ltb_lt in E | apply Z.ltb_ge in E];
    (destruct (Z_le_gt_dec 0 (ln - ld)) as [He|He];
     [ assert (Hab : a = b * 2 ^ (ln - ld))
         by (unfold a, b; rewrite <- Z.pow_add_r by lia; f_equal; lia);
       assert (Hc : 0 < 2 ^ (ln - ld)) by (apply Z.pow_pos_nonneg; lia);
       rewrite (pow2_nonneg (ln - ld)) in * by lia;
       rewrite (pow2_nonpos (- (ln - ld))) in * by lia
     | assert (Hab : b = a * 2 ^ (ld - ln))
         by (unfold a, b; rewrite <- Z.pow_add_r by lia; f_equal; lia);
       assert (Hc : 0 < 2 ^ (ld - ln)) by (apply Z.pow_pos_nonneg; lia);
       rewrite (pow2_nonpos (ln - ld)) in * by lia;
       rewrite (pow2_nonneg (- (ln - ld))) in * by lia;
       replace (- (ln - ld)) with (ld - ln) in * by lia ]).
  - destruct (Z.eq_dec (ln - ld) 0) as [Hz|Hz].
    + rewrite (pow2_nonpos (ln - ld - 1)) by lia.
      replace (- (ln - ld - 1)) with 1 by lia.
      change (Py.pow2 1) with 2.
      rewrite Hz in *. change (2 ^ 0) with 1 in *.
      clearbody a b. lia.
    + rewrite (pow2_nonneg (ln - ld - 1)) by lia.
      rewrite (pow2_nonpos (- (ln - ld - 1))) by lia.
      assert (Hc' : 2 ^ (ln - ld) = 2 * 2 ^ (ln - ld - 1)).
      { rewrite <- Z.pow_succ_r by lia. f_equal; lia. }
      assert (0 < 2 ^ (ln - ld - 1)) by (apply Z.pow_pos_nonneg; lia).
      rewrite Hc' in *. clearbody a b. subst a.
      assert (d * 2 ^ (ln - ld - 1) < 2 * b * 2 ^ (ln - ld - 1))
        by (apply Z.mul_lt_mono_pos_r; lia).
      lia.
  - rewrite (pow2_nonpos (ln - ld - 1)) by lia.
    rewrite (pow2_nonneg (- (ln - ld - 1))) by lia.
    replace (- (ln - ld - 1)) with (Z.succ (ld - ln)) by lia.
    rewrite Z.pow_succ_r by lia. clearbody a b. subst b.
    assert (a * 2 ^ (ld - ln) <= n * 2 ^ (ld - ln))
      by (apply Z.mul_le_mono_nonneg_r; lia).
    lia.
  - clearbody a b. subst a.
    assert (b * 2 ^ (ln - ld) <= d * 2 ^ (ln - ld))
      by (apply Z.mul_le_mono_nonneg_r; lia).
    lia.
  - clearbody a b. subst b.
    assert (n * 2 ^ (ld - ln) < 2 * a * 2 ^ (ld - ln))
      by (apply Z.mul_lt_mono_pos_r; lia).
    lia.
Qed.

(** The scaled quotient has 53 bits. *)
Lemma scaled_bounds (n d : Z) :
  0 < n -> 0 < d ->
  let t := 52 - Py.exponent n d in
  2 ^ 52 * (d * Py.pow2 (- t)) <= n * Py.pow2 t
  /\ n * Py.pow2 t < 2 ^ 53 * (d * Py.pow2 (- t)).
Proof.
  intros Hn Hd t. subst t.
  destruct (exponent_spec n d Hn Hd) as [Hlo Hhi].
  set (e := Py.exponent n d) in *.
  change (2 ^ 53) with (2 * 2 ^ 52).
  destruct (Z_le_gt_dec 0 e) as [He|He].
  - rewrite (pow2_nonneg e) in * by lia.
    rewrite (pow2_nonpos (- e)) in * by lia.
    destruct (Z_le_gt_dec e 52) as [Ht|Ht].
    + rewrite (pow2_nonneg (52 - e)) by lia.
      rewrite (pow2_nonpos (- (52 - e))) by lia.
      assert (Hxy : 2 ^ 52 = 2 ^ e * 2 ^ (52 - e)).
      { rewrite <- Z.pow_add_r by lia. f_equal; lia. }
      assert (0 < 2 ^ e) by (apply Z.pow_pos_nonneg; lia).
      assert (0 < 2 ^ (52 - e)) by (apply Z.pow_pos_nonneg; lia).
      rewrite Hxy. nia.
    + rewrite (pow2_nonpos (52 - e)) by lia.
      rewrite (pow2_nonneg (- (52 - e))) by lia.
      assert (Hxy : 2 ^ e = 2 ^ 52 * 2 ^ (- (52 - e))).
      { rewrite <- Z.pow_add_r by lia. f_equal; lia. }
      rewrite Hxy in *. lia.
  - rewrite (pow2_nonpos e) in * by lia.
    rewrite (pow2_nonneg (- e)) in * by lia.
    rewrite (pow2_nonneg (52 - e)) by lia.
    rewrite (pow2_nonpos (- (52 - e))) by lia.
    assert (Hxy : 2 ^ (52 - e) = 2 ^ 52 * 2 ^ (- e)).
    { rewrite <- Z.pow_add_r by lia. f_equal; lia. }
    rewrite Hxy. lia.
Qed.

Lemma round_pos_mantissa (n d : Z) :
  0 < n -> 0 < d ->
  let t := 52 - Py.exponent n d in
  2 ^ 52 <= Py.nearest_even (n * Py.pow2 t) (d * Py.pow2 (- t)).
Proof.
  intros Hn Hd t. apply nearest_even_ge.
  - assert (H := pow2_pos (- t)). nia.
  - apply (scaled_bounds n d Hn Hd).
Qed.

Lemma pow2_split (s t : Z) : 0 <= s <= t -> 2 ^ t = 2 ^ s * 2 ^ (t - s).
Proof. intro H. rewrite <- Z.pow_add_r by lia. f_equal; lia. Qed.

(** Rounding does not cross a binary64 number: a quotient that is at most
    [a / 2^s], with [a] below [2^53], is rounded to at most [a / 2^s], and
    the same from below. *)
Lemma round_pos_le (n d a s : Z) :
  0 < n -> 0 < d -> 0 < a < 2 ^ 53 -> 0 <= s ->
  n * 2 ^ s <= a * d ->
  Qnum (Py.round_pos n d) * 2 ^ s <= a * Zpos (Qden (Py.round_pos n d)).
Proof.
  intros Hn Hd Ha Hs H. unfold Py.round_pos. cbv zeta. cbn [Qnum Qden].
  rewrite Z2Pos.id by apply pow2_pos.
  destruct (scaled_bounds n d Hn Hd) as [Hlo Hhi].
  set (t := 52 - Py.exponent n d) in *.
  assert (Hs1 : 1 <= 2 ^ s) by (apply (Z.pow_le_mono_r 2 0 s); lia).
  change (2 ^ 53) with (2 * 2 ^ 52) in *.
  destruct (Z_le_gt_dec 0 t) as [Ht|Ht].
  - rewrite (pow2_nonneg t) in * by lia.
    rewrite (pow2_nonpos (- t)) in * by lia.
    assert (Hpt : 0 < 2 ^ t) by (apply Z.pow_pos_nonneg; lia).
    destruct (Z_le_gt_dec s t) as [Hst|Hst].
    + rewrite (pow2_split s t) in * by lia.
      assert (Hj : 0 < 2 ^ (t - s)) by (apply Z.pow_pos_nonneg; lia).
      assert (Hm : Py.nearest_even (n * (2 ^ s * 2 ^ (t - s))) (d * 1)
                   <= a * 2 ^ (t - s)).
      { apply nearest_even_le; [lia|].
        assert (n * 2 ^ s * 2 ^ (t - s) <= a * d * 2 ^ (t - s))
          by (apply Z.mul_le_mono_nonneg_r; lia).
        lia. }
      assert (Py.nearest_even (n * (2 ^ s * 2 ^ (t - s))) (d * 1) * 2 ^ s
              <= a * 2 ^ (t - s) * 2 ^ s)
        by (apply Z.mul_le_mono_nonneg_r; lia).
      lia.
    + exfalso.
      assert (Hsplit : 2 ^ s = 2 ^ t * 2 ^ (s - t)) by (apply pow2_split; lia).
      assert (Hj : 2 <= 2 ^ (s - t)) by (apply (Z.pow_le_mono_r 2 1); lia).
      assert (n * 2 ^ t * 2 <= n * 2 ^ t * 2 ^ (s - t))
        by (apply Z.mul_le_mono_nonneg_l; lia).
      assert (a * d < 2 * 2 ^ 52 * d) by (apply Z.mul_lt_mono_pos_r; lia).
      rewrite Hsplit in H. lia.
  - exfalso.
    rewrite (pow2_nonpos t) in * by lia.
    rewrite (pow2_nonneg (- t)) in * by lia.
    assert (Hj : 2 <= 2 ^ (- t)) by (apply (Z.pow_le_mono_r 2 1); lia).
    assert (n * 1 <= n * 2 ^ s) by (apply Z.mul_le_mono_nonneg_l; lia).
    assert (a * d < 2 * 2 ^ 52 * d) by (apply Z.mul_lt_mono_pos_r; lia).
    assert (d * 2 <= d * 2 ^ (- t)) by (apply Z.mul_le_mono_nonneg_l; lia).
    lia.
Qed.

Lemma round_pos_ge (n d a s : Z) :
  0 < n -> 0 < d -> 0 <= a < 2 ^ 53 -> 0 <= s ->
  a * d <= n * 2 ^ s ->
  a * Zpos (Qden (Py.round_pos n d)) <= Qnum (Py.round_pos n d) * 2 ^ s.
Proof.
  intros Hn Hd Ha Hs H.
  assert (Hm := round_pos_mantissa n d Hn Hd).
  unfold Py.round_pos. cbv zeta in *. cbn [Qnum Qden].
  rewrite Z2Pos.id by apply pow2_pos.
  destruct (scaled_bounds n d Hn Hd) as [Hlo Hhi].
  set (t := 52 - Py.exponent n d) in *.
  assert (Hs1 : 1 <= 2 ^ s) by (apply (Z.pow_le_mono_r 2 0 s); lia).
  change (2 ^ 53) with (2 * 2 ^ 52) in *.
  set (m := Py.nearest_even (n * Py.pow2 t) (d * Py.pow2 (- t))) in *.
  destruct (Z_le_gt_dec 0 t) as [Ht|Ht].
  - assert (Hpt : 0 < 2 ^ t) by (apply Z.pow_pos_nonneg; lia).
    destruct (Z_le_gt_dec s t) as [Hst|Hst].
    + assert (Hj : 0 < 2 ^ (t - s)) by (apply Z.pow_pos_nonneg; lia).
      assert (Hk : a * 2 ^ (t - s) <= m).
      { unfold m. apply nearest_even_ge.
        - assert (Hp := pow2_pos (- t)). nia.
        - rewrite (pow2_nonneg t) by lia. rewrite (pow2_nonpos (- t)) by lia.
          rewrite (pow2_split s t) by lia.
          assert (a * d * 2 ^ (t - s) <= n * 2 ^ s * 2 ^ (t - s))
            by (apply Z.mul_le_mono_nonneg_r; lia).
          lia. }
      rewrite (pow2_nonneg t) by lia. rewrite (pow2_nonpos (- t)) by lia.
      rewrite (pow2_split s t) by lia.
      assert (a * 2 ^ (t - s) * 2 ^ s <= m * 2 ^ s)
        by (apply Z.mul_le_mono_nonneg_r; lia).
      lia.
    + rewrite (pow2_nonneg t) by lia. rewrite (pow2_nonpos (- t)) by lia.
      rewrite (pow2_split t s) by lia.
      assert (Hj : 2 <= 2 ^ (s - t)) by (apply (Z.pow_le_mono_r 2 1); lia).
      assert (a * 2 ^ t <= m * 2 * 2 ^ t)
        by (apply Z.mul_le_mono_nonneg_r; lia).
      assert (m * 2 ^ t * 2 <= m * 2 ^ t * 2 ^ (s - t))
        by (apply Z.mul_le_mono_nonneg_l; nia).
      lia.
  - rewrite (pow2_nonpos t) by lia. rewrite (pow2_nonneg (- t)) by lia.
    assert (Hj : 2 <= 2 ^ (- t)) by (apply (Z.pow_le_mono_r 2 1); lia).
    assert (m * 2 <= m * 2 ^ (- t)) by (apply Z.mul_le_mono_nonneg_l; lia).
    assert (m * 2 ^ (- t) * 1 <= m * 2 ^ (- t) * 2 ^ s)
      by (apply Z.mul_le_mono_nonneg_l; lia).
    lia.
Qed.

Lemma round_pos_positive (n d : Z) :
  0 < n -> 0 < d -> 0 < Qnum (Py.round_pos n d).
Proof.
  intros Hn Hd. assert (Hm := round_pos_mantissa n d Hn Hd).
  unfold Py.round_pos. cbv zeta in *. cbn [Qnum].
  assert (Hp := pow2_pos (- (52 - Py.exponent n d))).
  assert (0 < 2 ^ 52) by reflexivity. nia.
Qed.

Lemma round_le (x : Q) (a s : Z) :
  0 < a < 2 ^ 53 -> 0 <= s ->
  Qnum x * 2 ^ s <= a * Zpos (Qden x) ->
  Qnum (Py.round x) * 2 ^ s <= a * Zpos (Qden (Py.round x)).
Proof.
  intros Ha Hs H. unfold Py.round.
  assert (Hs1 : 0 < 2 ^ s) by (apply Z.pow_pos_nonneg; lia).
  destruct (Qnum x) as [|p|p] eqn:E.
  - simpl. lia.
  - apply round_pos_le; try assumption; reflexivity.
  - cbn [Qopp Qnum Qden].
    assert (Hp := round_pos_positive (Zpos p) (Zpos (Qden x)) eq_refl eq_refl).
    nia.
Qed.

Lemma round_ge (x : Q) (a s : Z) :
  0 <= a < 2 ^ 53 -> 0 <= s ->
  a * Zpos (Qden x) <= Qnum x * 2 ^ s ->
  a * Zpos (Qden (Py.round x)) <= Qnum (Py.round x) * 2 ^ s.
Proof.
  intros Ha Hs H. unfold Py.round.
  assert (Hs1 : 0 < 2 ^ s) by (apply Z.pow_pos_nonneg; lia).
  destruct (Qnum x) as [|p|p] eqn:E.
  - simpl. nia.
  - apply round_pos_ge; try assumption; reflexivity.
  - exfalso. assert (Z.neg p * 2 ^ s < 0) by nia. nia.
Qed.

Lemma round_nonpos (x : Q) : Qnum x <= 0 -> Qnum (Py.round x) <= 0.
Proof.
  intro H. unfold Py.round. destruct (Qnum x) as [|p|p]; try lia.
  - simpl. lia.
  - cbn [Qopp Qnum].
    assert (Hp := round_pos_positive (Zpos p) (Zpos (Qden x)) eq_refl eq_refl).
    lia.
Qed.

(** The minutes before the clamp, for a span of [u] microseconds. *)
Lemma minutes_raw_ge (u k : Z) :
  0 <= k -> 60 * k < 2 ^ 53 -> 60000000 * k <= u ->
  k <= Py.int (Py.fdiv (Py.total_seconds u) (inject_Z 60)).
Proof.
  intros Hk Hb Hu. unfold Py.fdiv, Py.total_seconds.
  assert (H1 := round_ge (u # 1000000) (60 * k) 0 ltac:(lia) ltac:(lia)).
  cbn [Qnum Qden] in H1. specialize (H1 ltac:(lia)).
  set (s1 := Py.round (u # 1000000)) in *.
  assert (H2 := round_ge (s1 / inject_Z 60) k 0 ltac:(lia) ltac:(lia)).
  cbn [Qdiv Qmult Qinv inject_Z Qnum Qden] in H2.
  rewrite Pos2Z.inj_mul in H2. specialize (H2 ltac:(lia)).
  set (r := Py.round (s1 / inject_Z 60)) in *.
  unfold Py.int.
  assert (Hd : 0 < Zpos (Qden r)) by reflexivity.
  revert H2. generalize (Zpos (Qden r)) (Qnum r) Hd. clear.
  intros den num Hd H. Z.to_euclidean_division_equations. nia.
Qed.

Lemma minutes_raw_le (u k : Z) :
  0 <= k -> k + 1 <= 134217728 -> u < 60000000 * (k + 1) ->
  Py.int (Py.fdiv (Py.total_seconds u) (inject_Z 60)) <= k.
Proof.
  intros Hk Hb Hu. unfold Py.fdiv, Py.total_seconds.
  assert (H1 := round_le (u # 1000000) (60 * (k + 1) * 2 ^ 20 - 1) 20).
  change (2 ^ 20) with 1048576 in H1.
  change (2 ^ 53) with 9007199254740992 in H1.
  cbn [Qnum Qden] in H1.
  specialize (H1 ltac:(lia) ltac:(lia) ltac:(lia)).
  set (s1 := Py.round (u # 1000000)) in *.
  assert (H2 := round_le (s1 / inject_Z 60) ((k + 1) * 2 ^ 26 - 1) 26).
  change (2 ^ 26) with 67108864 in H2.
  change (2 ^ 53) with 9007199254740992 in H2.
  cbn [Qdiv Qmult Qinv inject_Z Qnum Qden] in H2.
  rewrite Pos2Z.inj_mul in H2.
  specialize (H2 ltac:(lia) ltac:(lia) ltac:(lia)).
  set (r := Py.round (s1 / inject_Z 60)) in *.
  unfold Py.int.
  assert (Hd : 0 < Zpos (Qden r)) by reflexivity.
  revert H2. generalize (Zpos (Qden r)) (Qnum r) Hd. clear - Hk.
  intros den num Hd H. Z.to_euclidean_division_equations. nia.
Qed.

(** Below 2^27 minutes the two roundings do not carry the quotient across
    a whole minute. *)
Lemma minutes_raw_floor (u : Z) :
  0 <= u < 134217728 * 60000000 ->
  Py.int (Py.fdiv (Py.total_seconds u) (inject_Z 60)) = u / 60000000.
Proof.
  intro H.
  assert (Hq : 0 <= u / 60000000 < 134217728).
  { split; [apply Z.div_pos; lia | apply Z.div_lt_upper_bound; lia]. }
  assert (Hm := Z.div_mod u 60000000 ltac:(lia)).
  assert (Hr := Z.mod_pos_bound u 60000000 ltac:(lia)).
  apply Z.le_antisymm.
  - apply minutes_raw_le; lia.
  - apply minutes_raw_ge;
      [lia | change (2 ^ 53) with 9007199254740992; lia | lia].
Qed.

Lemma minutes_raw_nonpos (u : Z) :
  u <= 0 -> Py.int (Py.fdiv (Py.total_seconds u) (inject_Z 60)) <= 0.
Proof.
  intro H. unfold Py.fdiv, Py.total_seconds.
  assert (H1 : Qnum (Py.round (u # 1000000)) <= 0)
    by (apply round_nonpos; exact H).
  set (s1 := Py.round (u # 1000000)) in *.
  assert (H2 : Qnum (Py.round (s1 / inject_Z 60)) <= 0).
  { apply round_nonpos. cbn [Qdiv Qmult Qinv inject_Z Qnum Qden]. lia. }
  set (r := Py.round (s1 / inject_Z 60)) in *.
  unfold Py.int.
  assert (Hd : 0 < Zpos (Qden r)) by reflexivity.
  revert H2. generalize (Zpos (Qden r)) (Qnum r) Hd. clear.
  intros den num Hd H. Z.to_euclidean_division_equations. nia.
Qed.

(** The code's minutes and the specification's. *)
Lemma spec_minutes (dep_time now : Py.datetime) :
  Spec.minutes_until dep_time now = Z.max 0 ((dep_time - now) / 60000000).
Proof.
  unfold Spec.minutes_until, Qfloor.
  cbn [Qdiv Qmult Qinv inject_Z Qnum Qden].
  change (Z.pos (1000000 * 60)) with 60000000.
  rewrite Z.mul_1_r. reflexivity.
Qed.


Lemma minutes_until_past (dep_time now : Py.datetime) :
  dep_time <= now -> ATRTDB.minutes_until dep_time now = 0.
Proof.
  intro H. unfold ATRTDB.minutes_until, Py.dt_sub. cbv zeta.
  assert (Hr := minutes_raw_nonpos (dep_time - now) ltac:(lia)).
  destruct (Py.int (Py.fdiv (Py.total_seconds (dep_time - now))
                      (inject_Z 60)) <? 0) eqn:E.
  - reflexivity.
  - apply Z.ltb_ge in E. lia.
Qed.

Lemma minutes_until_spec (dep_time now : Py.datetime) :
  dep_time - now < 134217728 * 60000000 ->
  ATRTDB.minutes_until dep_time now = Spec.minutes_until dep_time now.
Proof.
  intro H. rewrite spec_minutes.
  destruct (Z_le_gt_dec dep_time now) as [Hp|Hp].
  - rewrite (minutes_until_past _ _ Hp).
    assert ((dep_time - now) / 60000000 <= 0).
    { apply Z.div_le_upper_bound; lia. }
    lia.
  - unfold ATRTDB.minutes_until, Py.dt_sub. cbv zeta.
    rewrite minutes_raw_floor by lia.
    assert (0 <= (dep_time - now) / 60000000) by (apply Z.div_pos; lia).
    destruct ((dep_time - now) / 60000000 <? 0) eqn:E.
    + apply Z.ltb_lt in E. lia.
    + lia.
Qed.

(** A departure is less than a minute away exactly when its minutes are
    0, whatever the span. *)
Lemma minutes_until_zero (dep_time now : Py.datetime) :
  ATRTDB.minutes_until dep_time now = 0 <-> dep_time - now < 60000000.
Proof.
  split; intro H.
  - destruct (Z_lt_ge_dec (dep_time - now) 60000000) as [Hlt|Hge];
      [exact Hlt|].
    exfalso. revert H. unfold ATRTDB.minutes_until, Py.dt_sub. cbv zeta.
    assert (Hr := minutes_raw_ge (dep_time - now) 1 ltac:(lia)
                    ltac:(reflexivity) ltac:(lia)).
    destruct (Py.int (Py.fdiv (Py.total_seconds (dep_time - now))
                        (inject_Z 60)) <? 0) eqn:E.
    + apply Z.ltb_lt in E. lia.
    + lia.
  - rewrite minutes_until_spec by lia. rewrite spec_minutes.
    destruct (Z_le_gt_dec dep_time now) as [Hp|Hp].
    + assert ((dep_time - now) / 60000000 <= 0).
      { apply Z.div_le_upper_bound; lia. }
      lia.
    + rewrite Z.div_small by lia. reflexivity.
Qed.

(** The rounding agrees with the division of the standard library's
    IEEE 754 specification, here on quotients with many or few bits, ties
    between two numbers and the total seconds of the sample span. *)
Example round_agrees_with_ieee_div :
  forallb
    (fun nd => Qeq_bool (Py.round (Zpos (fst nd) # snd nd))
                 (Spec.ieee_div (fst nd) (snd nd)))
    [(1, 10); (1, 3); (2, 3); (5, 1000000); (1, 60000000);
     (9007199254740993, 1); (9007199254740995, 1);
     (18014398509481985, 2); (123456789123456789, 7);
     (17999999999999999, 1000000); (18000000000, 60)]%positive
  = true.
Proof. vm_compute. reflexivity. Qed.

Example one_tenth :
  Qred (Py.round (1 # 10)) = 3602879701896397 # 36028797018963968.
Proof. vm_compute. reflexivity. Qed.

(* ====================================================================== *)
(** ** Loops *)
(* ====================================================================== *)

Lemma bind_Return {A B : Type} (c : Py.outcome A) (k : A -> Py.outcome B)
    (b : B) :
  Py.bind c k = Py.Return b -> exists a, c = Py.Return a /\ k a = Py.Return b.
Proof.
  destruct c as [a|e]; simpl; intro H.
  - exists a. split; [reflexivity | exact H].
  - discriminate.
Qed.

(** A loop whose iterations, when they return, return the state they got,
    returns the state it got. *)
Lemma for_each_unchanged {A S : Type} (body : A -> S -> Py.outcome S)
    (xs : list A) :
  (forall x s s', In x xs -> body x s = Py.Return s' -> s' = s) ->
  forall s s', Py.for_each xs body s = Py.Return s' -> s' = s.
Proof.
  induction xs as [|x xs IH]; intros Hb s s' Hrun; simpl in Hrun.
  - injection Hrun as <-. reflexivity.
  - apply bind_Return in Hrun. destruct Hrun as [s1 [Hx Hrest]].
    apply (Hb x s s1 (or_introl eq_refl)) in Hx. subst s1.
    apply IH in Hrest; [exact Hrest|].
    intros y t t' Hy. apply Hb. right. exact Hy.
Qed.

(** The exception of a loop is the exception of one of its iterations. *)
Lemma for_each_raise_from {A S : Type} (body : A -> S -> Py.outcome S)
    (xs : list A) :
  forall s e, Py.for_each xs body s = Py.Raise e ->
    exists x s', In x xs /\ body x s' = Py.Raise e.
Proof.
  induction xs as [|x xs IH]; intros s e Hrun; simpl in Hrun;
    [discriminate|].
  destruct (body x s) as [s1|e1] eqn:Hx; simpl in Hrun.
  - destruct (IH s1 e Hrun) as [y [s' [Hy Hb]]].
    exists y, s'. split; [right; exact Hy | exact Hb].
  - injection Hrun as <-. exists x, s.
    split; [left; reflexivity | exact Hx].
Qed.

(** A loop raises as soon as one of its elements raises in every state. *)
Lemma for_each_raises {A S : Type} (body : A -> S -> Py.outcome S)
    (x0 : A) (xs : list A) :
  In x0 xs ->
  (forall s, exists e, body x0 s = Py.Raise e) ->
  forall s, exists e, Py.for_each xs body s = Py.Raise e.
Proof.
  intros Hin Hx0. induction xs as [|x xs IH]; intro s; [destruct Hin|].
  simpl. destruct (body x s) as [s'|e] eqn:Hx; simpl.
  - destruct Hin as [-> | Hin].
    + destruct (Hx0 s) as [e He]. congruence.
    + apply IH, Hin.
  - exists e. reflexivity.
Qed.

(* ====================================================================== *)
(** ** The guards of the extraction *)
(* ====================================================================== *)

Lemma contains_In (x : string) (l : list string) :
  Py.contains x l = true <-> In x l.
Proof.
  unfold Py.contains. rewrite existsb_exists. split.
  - intros [y [Hy E]]. apply String.eqb_eq in E. subst y. exact Hy.
  - intro H. exists x. split; [exact H | apply String.eqb_refl].
Qed.

Lemma truthy_false {A : Type} (l : list A) : Py.truthy l = false <-> l = [].
Proof. destruct l; simpl; split; congruence. Qed.

(** The trip is not skipped by the route filter exactly when the
    specification allows its route. *)
Lemma route_guard (location : ATRTDB.Location) (route_id : string) :
  Py.truthy (ATRTDB.route_prefixes location)
  && negb (Py.any (fun p => Py.startswith route_id p)
                  (ATRTDB.route_prefixes location)) = false
  <-> Spec.route_allowed location route_id.
Proof.
  unfold Spec.route_allowed, Py.any, Py.startswith.
  rewrite andb_false_iff, negb_false_iff, truthy_false, existsb_exists.
  reflexivity.
Qed.

Lemma delay_spec (ev : Gtfs.StopTimeEvent) :
  (if Gtfs.has_delay ev then Gtfs.get_delay ev else 0) = Spec.delay_seconds ev.
Proof.
  unfold Gtfs.has_delay, Gtfs.get_delay, Spec.delay_seconds.
  destruct (Gtfs.delay ev); reflexivity.
Qed.

(* ====================================================================== *)
(** ** The extraction loop of the master board *)
(* ====================================================================== *)

Section Extraction.

Variable location : ATRTDB.Location.
Variable w : Env.World.
Variable now : Py.datetime.

(** What one event does: nothing when it is rejected or past, and an
    exception when it is accepted and its time does not convert, or
    converts to an upcoming instant: the read of the headsign then raises
    before an entry is made. *)
Lemma stop_time_step_eq (trip : Gtfs.TripDescriptor) (route_id : string)
    (stu : Gtfs.StopTimeUpdate) (deps : list ATRTDB.Departure) :
  ATRTDB.stop_time_step location w now trip route_id stu deps
  = if Py.contains (Gtfs.stop_id stu) (ATRTDB.stop_ids location)
       && Gtfs.has_departure stu
    then match Env.fromtimestamp w
                 (Gtfs.get_time (Gtfs.get_departure stu)) with
         | Py.Return dep_time =>
             if Py.dt_gt dep_time now then Py.Raise Gtfs.no_trip_headsign
             else Py.Return deps
         | Py.Raise e => Py.Raise e
         end
    else Py.Return deps.
Proof.
  unfold ATRTDB.stop_time_step.
  destruct (Py.contains (Gtfs.stop_id stu) (ATRTDB.stop_ids location)
            && Gtfs.has_departure stu); [|reflexivity].
  destruct (Env.fromtimestamp w (Gtfs.get_time (Gtfs.get_departure stu)))
    as [dep_time|e]; [|reflexivity].
  cbn [Py.bind]. destruct (Py.dt_gt dep_time now); reflexivity.
Qed.

Lemma stop_time_step_Return (trip : Gtfs.TripDescriptor) (route_id : string)
    (stu : Gtfs.StopTimeUpdate) (deps deps' : list ATRTDB.Departure) :
  ATRTDB.stop_time_step location w now trip route_id stu deps
    = Py.Return deps' ->
  deps' = deps.
Proof.
  rewrite stop_time_step_eq.
  destruct (Py.contains (Gtfs.stop_id stu) (ATRTDB.stop_ids location)
            && Gtfs.has_departure stu).
  2:{ intro H. injection H as <-. reflexivity. }
  destruct (Env.fromtimestamp w (Gtfs.get_time (Gtfs.get_departure stu)))
    as [dep_time|e]; [|discriminate].
  destruct (Py.dt_gt dep_time now); [discriminate|].
  intro H. injection H as <-. reflexivity.
Qed.

Lemma stop_time_step_upcoming (trip : Gtfs.TripDescriptor)
    (route_id : string) (stu : Gtfs.StopTimeUpdate)
    (ev : Gtfs.StopTimeEvent) (dep_time : Py.datetime)
    (deps : list ATRTDB.Departure) :
  In (Gtfs.stop_id stu) (ATRTDB.stop_ids location) ->
  Spec.upcoming w now stu ev dep_time ->
  ATRTDB.stop_time_step location w now trip route_id stu deps
  = Py.Raise Gtfs.no_trip_headsign.
Proof.
  intros Hstop [Hev [Hts Hlt]]. rewrite stop_time_step_eq.
  apply contains_In in Hstop. rewrite Hstop.
  unfold Gtfs.has_departure, Gtfs.get_departure. rewrite Hev.
  cbn [andb]. rewrite Hts. unfold Py.dt_gt.
  apply Z.ltb_lt in Hlt. rewrite Hlt. reflexivity.
Qed.

Lemma stop_time_step_rejects (trip : Gtfs.TripDescriptor)
    (route_id : string) (stu : Gtfs.StopTimeUpdate)
    (deps : list ATRTDB.Departure) :
  ~ In (Gtfs.stop_id stu) (ATRTDB.stop_ids location) ->
  ATRTDB.stop_time_step location w now trip route_id stu deps
  = Py.Return deps.
Proof.
  intro Hstop. rewrite stop_time_step_eq.
  destruct (Py.contains (Gtfs.stop_id stu) (ATRTDB.stop_ids location))
    eqn:Hc; [|reflexivity].
  apply contains_In in Hc. contradiction.
Qed.

Lemma stop_time_step_Raise (trip : Gtfs.TripDescriptor) (route_id : string)
    (stu : Gtfs.StopTimeUpdate) (deps : list ATRTDB.Departure) (e : Py.exn) :
  ATRTDB.stop_time_step location w now trip route_id stu deps = Py.Raise e ->
  exists ev,
    Gtfs.departure stu = Some ev
    /\ In (Gtfs.stop_id stu) (ATRTDB.stop_ids location)
    /\ (Env.fromtimestamp w (Gtfs.get_time ev) = Py.Raise e
        \/ exists dep_time,
             Spec.upcoming w now stu ev dep_time
             /\ e = Gtfs.no_trip_headsign).
Proof.
  rewrite stop_time_step_eq.
  destruct (Py.contains (Gtfs.stop_id stu) (ATRTDB.stop_ids location))
    eqn:Hc; [|discriminate].
  apply contains_In in Hc.
  unfold Gtfs.has_departure, Gtfs.get_departure.
  destruct (Gtfs.departure stu) as [ev|] eqn:Hev; [|discriminate].
  cbn [andb].
  destruct (Env.fromtimestamp w (Gtfs.get_time ev)) as [dep_time|x] eqn:Hts.
  - unfold Py.dt_gt. destruct (now <? dep_time) eqn:Hlt; [|discriminate].
    intro H. injection H as <-. apply Z.ltb_lt in Hlt.
    exists ev. split; [reflexivity|]. split; [exact Hc|].
    right. exists dep_time. split; [|reflexivity].
    split; [exact Hev|]. split; assumption.
  - intro H. injection H as <-.
    exists ev. split; [reflexivity|]. split; [exact Hc|].
    left. exact Hts.
Qed.

(** What one entity does: the route filter skips the whole trip, or lets
    all its events through to the stop test. *)
Lemma entity_step_allowed (ent : Gtfs.FeedEntity) (tu : Gtfs.TripUpdate)
    (deps : list ATRTDB.Departure) :
  Gtfs.trip_update ent = Some tu ->
  Spec.route_allowed location (Gtfs.route_id (Gtfs.trip tu)) ->
  ATRTDB.entity_step location w now ent deps
  = Py.for_each (Gtfs.stop_time_update tu)
      (ATRTDB.stop_time_step location w now (Gtfs.trip tu)
         (Gtfs.route_id (Gtfs.trip tu))) deps.
Proof.
  intros Htu Hr. unfold ATRTDB.entity_step. rewrite Htu. cbv zeta.
  apply route_guard in Hr. rewrite Hr. reflexivity.
Qed.

Lemma entity_step_skips (ent : Gtfs.FeedEntity) (tu : Gtfs.TripUpdate)
    (deps : list ATRTDB.Departure) :
  Gtfs.trip_update ent = Some tu ->
  ~ Spec.route_allowed location (Gtfs.route_id (Gtfs.trip tu)) ->
  ATRTDB.entity_step location w now ent deps = Py.Return deps.
Proof.
  intros Htu Hr. unfold ATRTDB.entity_step. rewrite Htu. cbv zeta.
  destruct (Py.truthy (ATRTDB.route_prefixes location)
            && negb (Py.any (fun p => Py.startswith
                                        (Gtfs.route_id (Gtfs.trip tu)) p)
                            (ATRTDB.route_prefixes location))) eqn:Hg;
    [reflexivity|].
  apply route_guard in Hg. contradiction.
Qed.

Lemma entity_step_Return (ent : Gtfs.FeedEntity)
    (deps deps' : list ATRTDB.Departure) :
  ATRTDB.entity_step location w now ent deps = Py.Return deps' ->
  deps' = deps.
Proof.
  unfold ATRTDB.entity_step.
  destruct (Gtfs.trip_update ent) as [tu|].
  2:{ intro H. injection H as <-. reflexivity. }
  cbv zeta.
  destruct (Py.truthy (ATRTDB.route_prefixes location)
            && negb (Py.any (fun p => Py.startswith
                                        (Gtfs.route_id (Gtfs.trip tu)) p)
                            (ATRTDB.route_prefixes location))).
  - intro H. injection H as <-. reflexivity.
  - apply for_each_unchanged. intros stu s s' _. apply stop_time_step_Return.
Qed.

Lemma entity_step_Raise (ent : Gtfs.FeedEntity)
    (deps : list ATRTDB.Departure) (e : Py.exn) :
  ATRTDB.entity_step location w now ent deps = Py.Raise e ->
  exists tu stu ev,
    Gtfs.trip_update ent = Some tu
    /\ In stu (Gtfs.stop_time_update tu)
    /\ Gtfs.departure stu = Some ev
    /\ Spec.accepts location (Gtfs.trip tu) stu
    /\ (Env.fromtimestamp w (Gtfs.get_time ev) = Py.Raise e
        \/ exists dep_time,
             Spec.upcoming w now stu ev dep_time
             /\ e = Gtfs.no_trip_headsign).
Proof.
  unfold ATRTDB.entity_step.
  destruct (Gtfs.trip_update ent) as [tu|]; [|discriminate].
  cbv zeta.
  destruct (Py.truthy (ATRTDB.route_prefixes location)
            && negb (Py.any (fun p => Py.startswith
                                        (Gtfs.route_id (Gtfs.trip tu)) p)
                            (ATRTDB.route_prefixes location))) eqn:Hg;
    [discriminate|].
  apply route_guard in Hg. intro H.
  apply for_each_raise_from in H. destruct H as [stu [s' [Hin Hstep]]].
  apply stop_time_step_Raise in Hstep.
  destruct Hstep as [ev [Hev [Hstop Hwhy]]].
  exists tu, stu, ev. split; [reflexivity|]. split; [exact Hin|].
  split; [exact Hev|]. split; [|exact Hwhy]. split; assumption.
Qed.

Lemma entity_step_due (ent : Gtfs.FeedEntity) (tu : Gtfs.TripUpdate)
    (stu : Gtfs.StopTimeUpdate) (ev : Gtfs.StopTimeEvent)
    (dep_time : Py.datetime) (deps : list ATRTDB.Departure) :
  Gtfs.trip_update ent = Some tu ->
  In stu (Gtfs.stop_time_update tu) ->
  Spec.upcoming w now stu ev dep_time ->
  Spec.accepts location (Gtfs.trip tu) stu ->
  exists e, ATRTDB.entity_step location w now ent deps = Py.Raise e.
Proof.
  intros Htu Hin Hup [Hr Hstop].
  rewrite (entity_step_allowed ent tu deps Htu Hr).
  apply (for_each_raises _ stu); [exact Hin|].
  intro s. exists Gtfs.no_trip_headsign.
  apply (stop_time_step_upcoming _ _ _ ev dep_time); assumption.
Qed.

(** The loop over the feed never appends: when it returns, [deps] is as
    empty as it was. *)
Lemma extraction_Return (feed : Gtfs.FeedMessage)
    (deps deps' : list ATRTDB.Departure) :
  Py.for_each (Gtfs.entity feed) (ATRTDB.entity_step location w now) deps
    = Py.Return deps' ->
  deps' = deps.
Proof.
  apply for_each_unchanged. intros ent s s' _. apply entity_step_Return.
Qed.

(** When every time of the feed converts, the loop raises the error of the
    headsign read if an accepted upcoming event is in the feed, and
    returns otherwise. *)
Lemma extraction_outcome (feed : Gtfs.FeedMessage) :
  Spec.converts w feed ->
  (Spec.due location w now feed
   /\ Py.for_each (Gtfs.entity feed) (ATRTDB.entity_step location w now) []
      = Py.Raise Gtfs.no_trip_headsign)
  \/ (~ Spec.due location w now feed
      /\ Py.for_each (Gtfs.entity feed) (ATRTDB.entity_step location w now) []
         = Py.Return []).
Proof.
  intro Hconv.
  destruct (Py.for_each (Gtfs.entity feed)
              (ATRTDB.entity_step location w now) []) as [deps|e] eqn:Hrun.
  - right. split.
    + intros [ent [tu [stu [ev [dep_time [Hent [Htu [Hstu [Hup Hacc]]]]]]]]].
      destruct (for_each_raises (ATRTDB.entity_step location w now) ent
                  (Gtfs.entity feed) Hent
                  (fun s => entity_step_due ent tu stu ev dep_time s
                              Htu Hstu Hup Hacc) []) as [e He].
      congruence.
    + apply extraction_Return in Hrun. subst deps. reflexivity.
  - left. apply for_each_raise_from in Hrun.
    destruct Hrun as [ent [s' [Hent Hstep]]].
    apply entity_step_Raise in Hstep.
    destruct Hstep as [tu [stu [ev [Htu [Hstu [Hev [Hacc Hwhy]]]]]]].
    destruct Hwhy as [Hts | [dep_time [Hup ->]]].
    + destruct (Hconv ent tu stu ev Hent Htu Hstu Hev) as [t Ht].
      congruence.
    + split; [|reflexivity].
      exists ent, tu, stu, ev, dep_time. repeat split; try assumption;
        apply Hup || apply Hacc.
Qed.

End Extraction.

(* ====================================================================== *)
(** ** get_departures of the master board *)
(* ====================================================================== *)

(** The two ways in which the body of the [try] returns. *)
Lemma fetch_departures_Return (location : ATRTDB.Location) (w : Env.World)
    (r : list string * list ATRTDB.Departure) :
  ATRTDB.fetch_departures location w = Py.Return r ->
  (exists resp,
     Env.requests_get w = Py.Return resp
     /\ Env.status_code resp <> 200
     /\ snd r = [])
  \/ (exists resp feed deps,
        Env.requests_get w = Py.Return resp
        /\ Env.status_code resp = 200
        /\ Env.content resp = Gtfs.Decodes feed
        /\ Py.for_each (Gtfs.entity feed)
             (ATRTDB.entity_step location w (Env.now w)) [] = Py.Return deps
        /\ r = ([], ATRTDB.sort_and_limit deps ATRTDB.MAX_DEPARTURES)).
Proof.
  unfold ATRTDB.fetch_departures. intro H.
  apply bind_Return in H. destruct H as [resp [Hget H]].
  destruct (Env.status_code resp =? 200) eqn:Hs; simpl in H.
  - apply Z.eqb_eq in Hs.
    apply bind_Return in H. destruct H as [feed [Hparse H]].
    apply bind_Return in H. destruct H as [deps [Hloop H]].
    injection H as <-. right. exists resp, feed, deps.
    repeat split; try assumption.
    destruct (Env.content resp) as [msg|feed']; simpl in Hparse.
    + discriminate.
    + injection Hparse as <-. reflexivity.
  - apply Z.eqb_neq in Hs. injection H as <-. left. exists resp.
    repeat split; assumption.
Qed.

(** The three ways in which the body of the [try] can go. *)
Lemma fetch_departures_cases (location : ATRTDB.Location) (w : Env.World) :
  (exists e, ATRTDB.fetch_departures location w = Py.Raise e)
  \/ (exists resp,
        Env.requests_get w = Py.Return resp
        /\ Env.status_code resp <> 200
        /\ ATRTDB.fetch_departures location w
           = Py.Return ([("⚠️ Realtime feed failed: "
                            ++ Py.str_int (Env.status_code resp))%string], []))
  \/ (exists resp feed deps,
        Env.requests_get w = Py.Return resp
        /\ Env.status_code resp = 200
        /\ Env.content resp = Gtfs.Decodes feed
        /\ Py.for_each (Gtfs.entity feed)
             (ATRTDB.entity_step location w (Env.now w)) [] = Py.Return deps
        /\ ATRTDB.fetch_departures location w
           = Py.Return ([], ATRTDB.sort_and_limit deps ATRTDB.MAX_DEPARTURES)).
Proof.
  unfold ATRTDB.fetch_departures.
  destruct (Env.requests_get w) as [resp|e]; cbn [Py.bind].
  2:{ left. exists e. reflexivity. }
  destruct (Env.status_code resp =? 200) eqn:Hs; cbn [negb].
  2:{ right. left. exists resp. apply Z.eqb_neq in Hs.
      repeat split; [exact Hs]. }
  apply Z.eqb_eq in Hs.
  destruct (Env.content resp) as [msg|feed] eqn:Hc;
    cbn [Gtfs.ParseFromString Py.bind].
  { left. eexists. reflexivity. }
  destruct (Py.for_each (Gtfs.entity feed)
              (ATRTDB.entity_step location w (Env.now w)) [])
    as [deps|e] eqn:Hl; cbn [Py.bind].
  - right. right. exists resp, feed, deps. repeat split; assumption.
  - left. exists e. reflexivity.
Qed.

(** On a reply that decodes, [get_departures] is the loop over the feed
    under the handler. *)
Lemma get_departures_decoded (API_KEY : string) (location : ATRTDB.Location)
    (w : Env.World) (resp : Env.Response) (feed : Gtfs.FeedMessage) :
  ATRTDB.SIMULATION_MODE API_KEY = false ->
  Env.requests_get w = Py.Return resp ->
  Env.status_code resp = 200 ->
  Env.content resp = Gtfs.Decodes feed ->
  ATRTDB.get_departures API_KEY location w
  = match Py.for_each (Gtfs.entity feed)
            (ATRTDB.entity_step location w (Env.now w)) [] with
    | Py.Return deps =>
        ([], ATRTDB.sort_and_limit deps ATRTDB.MAX_DEPARTURES)
    | Py.Raise e => ([Spec.error_line location e], [])
    end.
Proof.
  intros Hmode Hget Hs Hc. unfold ATRTDB.get_departures. rewrite Hmode.
  unfold ATRTDB.fetch_departures. rewrite Hget. cbn [Py.bind].
  rewrite Hs. change (negb (200 =? 200)) with false. cbv iota.
  rewrite Hc. cbn [Gtfs.ParseFromString Py.bind].
  destruct (Py.for_each (Gtfs.entity feed)
              (ATRTDB.entity_step location w (Env.now w)) []);
    reflexivity.
Qed.

(** Outside the simulation the returned list is empty: the loop appends
    nothing, and the other ways out return the empty list. *)
Lemma live_board_empty (API_KEY : string) (location : ATRTDB.Location)
    (w : Env.World) :
  ATRTDB.SIMULATION_MODE API_KEY = false ->
  ATRTDB.returned (ATRTDB.get_departures API_KEY location w) = [].
Proof.
  intro Hmode. unfold ATRTDB.get_departures, ATRTDB.returned. rewrite Hmode.
  destruct (ATRTDB.fetch_departures location w) as [r|e] eqn:Hf;
    [|reflexivity].
  apply fetch_departures_Return in Hf.
  destruct Hf as [[resp [_ [_ Hnil]]]
                 | [resp [feed [deps [_ [_ [_ [Hl ->]]]]]]]].
  - exact Hnil.
  - apply extraction_Return in Hl. subst deps. reflexivity.
Qed.

(** The simulation. *)
Lemma randint_bounds (a b : Z) (raw : nat) :
  a <= b -> a <= Py.randint a b raw <= b.
Proof.
  intro Hab. unfold Py.randint.
  assert (H := Z.mod_pos_bound (Z.of_nat raw) (b - a + 1)). lia.
Qed.

Lemma mock_loop_Forall (P : ATRTDB.Departure -> Prop)
    (location : ATRTDB.Location) (now : Py.datetime) (g : nat -> nat) :
  (forall k, P (fst (ATRTDB.mock_departure location now g k))) ->
  forall n k acc, Forall P acc ->
    Forall P (ATRTDB.mock_loop n location now g k acc).
Proof.
  intros Hp n. induction n as [|n IH]; intros k acc Hacc; simpl.
  - exact Hacc.
  - specialize (Hp k).
    destruct (ATRTDB.mock_departure location now g k) as [d k'].
    apply IH. apply Forall_app. split; [exact Hacc|].
    constructor; [exact Hp | constructor].
Qed.

Lemma mock_loop_length (location : ATRTDB.Location) (now : Py.datetime)
    (g : nat -> nat) (n k : nat) (acc : list ATRTDB.Departure) :
  List.length (ATRTDB.mock_loop n location now g k acc)
  = (List.length acc + n)%nat.
Proof.
  revert k acc. induction n as [|n IH]; intros k acc; simpl.
  - lia.
  - destruct (ATRTDB.mock_departure location now g k) as [d k'].
    rewrite IH, length_app. simpl. lia.
Qed.

Lemma mock_departure_fields (location : ATRTDB.Location) (now : Py.datetime)
    (g : nat -> nat) (k : nat) :
  let d := fst (ATRTDB.mock_departure location now g k) in
  now < ATRTDB.time d /\ 1 <= ATRTDB.mins_until d <= 60.
Proof.
  assert (Hr : forall raw, 1 <= Py.randint 1 60 raw <= 60).
  { intro raw. apply randint_bounds. lia. }
  unfold ATRTDB.mock_departure.
  destruct (Py.truthy (ATRTDB.route_prefixes location));
    cbn [fst ATRTDB.time ATRTDB.mins_until];
    unfold Py.dt_add, Py.timedelta_minutes.
  - assert (H1 := Hr (g k)). assert (H2 := Hr (g (S (S (S k))))). lia.
  - assert (H1 := Hr (g k)). assert (H2 := Hr (g (S (S k)))). lia.
Qed.

(* ====================================================================== *)
(** ** Properties of the extraction *)
(* ====================================================================== *)

(** With the placeholder key of the source, the board simulates: ten mock
    departures, whatever the reply. *)
Example placeholder_key_simulates :
  ATRTDB.SIMULATION_MODE "YOUR_KEY_HERE" = true
  /\ ATRTDB.printed
       (ATRTDB.get_departures "YOUR_KEY_HERE" Sample.loc64 Sample.world_e2e)
     = ["🎭 Simulating departures for Test"]
  /\ List.length
       (ATRTDB.returned
          (ATRTDB.get_departures "YOUR_KEY_HERE" Sample.loc64
             Sample.world_e2e))
     = 10%nat.
Proof. repeat split; reflexivity. Qed.

(** A timestamp that the platform cannot convert, at stop B, after a past
    departure at stop A: the master board catches the error and returns
    nothing; the bus script lets the error out. *)
Example unconvertible_timestamp :
  let w :=
    {| Env.requests_get :=
         Sample.ok
           (Sample.feed_of
              [Sample.trip_of "64-X"
                 [Sample.at_stop "A" 900 None;
                  Sample.at_stop "B" 253402257600 None]]);
       Env.now := Sample.now0;
       Env.fromtimestamp := Sample.plus12_bounded;
       Env.random_raw := fun n => n |} in
  ATRTDB.get_departures "k" Sample.loc64 w
    = (["❌ Error fetching departures for Test: year 10000 is out of range"],
       [])
  /\ RTDB_Britomart.get_departures ["A"; "B"] w
     = Py.Raise (Py.ValueError "year 10000 is out of range").
Proof. split; reflexivity. Qed.

(** C1: every entry that [get_departures] returns has a departure instant
    strictly later than the reference instant [now], and a stop-time event
    whose departure instant is not later than [now] appends no entry. *)
Theorem departures_strictly_future :
  forall (API_KEY : string) (location : ATRTDB.Location) (w : Env.World),
    Forall (fun d => Env.now w < ATRTDB.time d)
      (ATRTDB.returned (ATRTDB.get_departures API_KEY location w))
    /\ (forall trip route_id stu dep_time deps,
          Env.fromtimestamp w (Gtfs.get_time (Gtfs.get_departure stu))
            = Py.Return dep_time ->
          dep_time <= Env.now w ->
          ATRTDB.stop_time_step location w (Env.now w) trip route_id stu deps
            = Py.Return deps).
Proof.
  intros API_KEY location w. split.
  - destruct (ATRTDB.SIMULATION_MODE API_KEY) eqn:Hmode.
    + unfold ATRTDB.get_departures, ATRTDB.returned. rewrite Hmode.
      cbn [snd]. apply mock_loop_Forall; [|constructor].
      intro k. apply mock_departure_fields.
    + rewrite (live_board_empty _ _ _ Hmode). constructor.
  - intros trip route_id stu dep_time deps Hts Hle.
    rewrite stop_time_step_eq.
    destruct (Py.contains (Gtfs.stop_id stu) (ATRTDB.stop_ids location)
              && Gtfs.has_departure stu); [|reflexivity].
    rewrite Hts. unfold Py.dt_gt.
    destruct (Env.now w <? dep_time) eqn:E; [|reflexivity].
    apply Z.ltb_lt in E. lia.
Qed.

Lemma departures_strictly_future_witness :
  Env.fromtimestamp Sample.world_e2e
    (Gtfs.get_time (Gtfs.get_departure (Sample.at_stop "A" 1000 None)))
    = Py.Return Sample.now0
  /\ Sample.now0 <= Env.now Sample.world_e2e
  /\ ATRTDB.stop_time_step Sample.loc64 Sample.world_e2e
       (Env.now Sample.world_e2e) Sample.trip64 "64-X"
       (Sample.at_stop "A" 1000 None) []
     = Py.Return [].
Proof.
  split; [reflexivity|]. split; [apply Z.le_refl|].
  apply (proj2 (departures_strictly_future "k" Sample.loc64 Sample.world_e2e)
           Sample.trip64 "64-X" (Sample.at_stop "A" 1000 None) Sample.now0 []).
  - reflexivity.
  - apply Z.le_refl.
Defined.




(** C8: the defaults of lines 157 and 158 do not reach an entry.  On the
    end-to-end scenario of the specification (route 64-X at the resolved
    stop A, leaving in ten minutes, with the delay field 200) the delay is
    read as 200, and the read of the headsign then raises: the event step
    raises, [get_departures] prints the error and returns the empty list,
    and the scripts let the error out. *)
Theorem headsign_read_raises :
  (if Gtfs.has_delay (Sample.event 1600 (Some 200))
   then Gtfs.get_delay (Sample.event 1600 (Some 200)) else 0) = 200
  /\ Gtfs.get_trip_headsign Sample.trip64 = Py.Raise Gtfs.no_trip_headsign
  /\ ATRTDB.stop_time_step Sample.loc64 Sample.world_e2e Sample.now0
       Sample.trip64 "64-X" (Sample.at_stop "A" 1600 (Some 200)) []
     = Py.Raise Gtfs.no_trip_headsign
  /\ ATRTDB.get_departures "k" Sample.loc64 Sample.world_e2e
     = ([Spec.error_line Sample.loc64 Gtfs.no_trip_headsign], [])
  /\ RTDB_Britomart.get_departures ["A"; "B"] Sample.world_e2e
     = Py.Raise Gtfs.no_trip_headsign
  /\ RTDB_Waitemata.get_departures (Dyn.VStr "A") Sample.world_e2e
     = Py.Raise Gtfs.no_trip_headsign
  /\ RTDB_downtown.get_departures ["P1"] Sample.world_ferry
     = Py.Raise Gtfs.no_trip_headsign.
Proof. repeat split; reflexivity. Qed.

(* ====================================================================== *)
(** ** Delay classification *)
(* ====================================================================== *)

Lemma classify_cases (delay : Z) :
  (2 < delay / 60 /\ ATRTDB.classify delay = ATRTDB.LATE)
  \/ (delay / 60 < -2 /\ ATRTDB.classify delay = ATRTDB.EARLY)
  \/ (-2 <= delay / 60 <= 2 /\ ATRTDB.classify delay = ATRTDB.ON_TIME).
Proof.
  unfold ATRTDB.classify, Py.floordiv. cbv zeta.
  destruct (delay / 60 >? 2) eqn:E1.
  - left. split; [lia | reflexivity].
  - destruct (delay / 60 <? -2) eqn:E2.
    + right. left. split; [lia | reflexivity].
    + right. right. split; [lia | reflexivity].
Qed.

(** The status column of the scripts has no band around zero: a minute is
    late, and so is a minute and a half. *)
Example script_status_has_no_band :
  let row (d : Z) :=
    {| RTDB_Britomart.route := "64-X"; RTDB_Britomart.headsign := "N/A";
       RTDB_Britomart.time := 0; RTDB_Britomart.delay := d;
       RTDB_Britomart.stop_id := "A" |} in
  map (fun d => RTDB_Britomart.status (row d)) [181; 90; 59; 0; -1; -90; -181]
  = ["3m late"; "1m late"; "On time"; "On time"; "1m early"; "2m early";
     "4m early"].
Proof. reflexivity. Qed.

(** C2: the status of a row depends on its delay in seconds alone: with
    delay-minutes the floor of delay-seconds divided by 60, it is LATE when
    delay-minutes > 2, EARLY when delay-minutes < -2 and ON_TIME otherwise;
    181 is LATE, -181 is EARLY, and 90 and -90 are ON_TIME. *)
Theorem delay_classification :
  forall (dep : ATRTDB.Departure),
    let delay_mins := ATRTDB.delay dep / 60 in
    (delay_mins > 2 ->
       ATRTDB.classify (ATRTDB.delay dep) = ATRTDB.LATE
       /\ fst (ATRTDB.status_cell dep)
          = (ATRTDB.COLOR_RED ++ Py.str_int delay_mins ++ "m LATE"
               ++ ATRTDB.COLOR_RESET)%string)
    /\ (delay_mins < -2 ->
          ATRTDB.classify (ATRTDB.delay dep) = ATRTDB.EARLY
          /\ fst (ATRTDB.status_cell dep)
             = (ATRTDB.COLOR_YELLOW ++ Py.str_int (- delay_mins) ++ "m EARLY"
                  ++ ATRTDB.COLOR_RESET)%string)
    /\ (-2 <= delay_mins <= 2 ->
          ATRTDB.classify (ATRTDB.delay dep) = ATRTDB.ON_TIME
          /\ fst (ATRTDB.status_cell dep)
             = (ATRTDB.COLOR_GREEN ++ "ON TIME" ++ ATRTDB.COLOR_RESET)%string)
    /\ (forall dep',
          ATRTDB.delay dep' = ATRTDB.delay dep ->
          ATRTDB.status_cell dep' = ATRTDB.status_cell dep)
    /\ ATRTDB.classify 181 = ATRTDB.LATE
    /\ ATRTDB.classify (-181) = ATRTDB.EARLY
    /\ ATRTDB.classify 90 = ATRTDB.ON_TIME
    /\ ATRTDB.classify (-90) = ATRTDB.ON_TIME.
Proof.
  intros dep delay_mins. subst delay_mins.
  assert (Hpure : forall dep',
            ATRTDB.delay dep' = ATRTDB.delay dep ->
            ATRTDB.status_cell dep' = ATRTDB.status_cell dep).
  { intros dep' E. unfold ATRTDB.status_cell. rewrite E. reflexivity. }
  split; [|split; [|split; [|split; [exact Hpure|repeat split; reflexivity]]]];
    unfold ATRTDB.status_cell, Py.floordiv;
    destruct (classify_cases (ATRTDB.delay dep)) as [[H E] | [[H E] | [H E]]];
    rewrite E; intro G; try lia; split; reflexivity.
Qed.

Lemma delay_classification_witness :
  ATRTDB.delay Sample.entry_e2e / 60 > 2
  /\ ATRTDB.classify (ATRTDB.delay Sample.entry_e2e) = ATRTDB.LATE
  /\ fst (ATRTDB.status_cell Sample.entry_e2e)
     = (ATRTDB.COLOR_RED
          ++ Py.str_int (ATRTDB.delay Sample.entry_e2e / 60) ++ "m LATE"
          ++ ATRTDB.COLOR_RESET)%string.
Proof.
  split; [reflexivity|].
  apply (proj1 (delay_classification Sample.entry_e2e)).
  reflexivity.
Defined.

(** C10: with the floor division, the ON_TIME band is not symmetric in
    seconds: exactly the delays from -120 to 179 are ON_TIME, LATE starts at
    180 and EARLY at -121; 150 is ON_TIME and -150 is EARLY. *)
Theorem classification_band_in_seconds :
  forall (delay : Z),
    (ATRTDB.classify delay = ATRTDB.ON_TIME <-> -120 <= delay <= 179)
    /\ (ATRTDB.classify delay = ATRTDB.LATE <-> 180 <= delay)
    /\ (ATRTDB.classify delay = ATRTDB.EARLY <-> delay <= -121)
    /\ ATRTDB.classify 150 = ATRTDB.ON_TIME
    /\ ATRTDB.classify (-150) = ATRTDB.EARLY
    /\ ATRTDB.classify 179 = ATRTDB.ON_TIME
    /\ ATRTDB.classify 180 = ATRTDB.LATE
    /\ ATRTDB.classify (-120) = ATRTDB.ON_TIME
    /\ ATRTDB.classify (-121) = ATRTDB.EARLY.
Proof.
  intro delay.
  assert (Hlate : 2 < delay / 60 <-> 180 <= delay).
  { Z.to_euclidean_division_equations. lia. }
  assert (Hearly : delay / 60 < -2 <-> delay <= -121).
  { Z.to_euclidean_division_equations. lia. }
  destruct (classify_cases delay) as [[H ->] | [[H ->] | [H ->]]];
    (split; [|split; [|split; [|repeat split; reflexivity]]]);
    split; intro G; try reflexivity; try discriminate; lia.
Qed.

Lemma classification_band_in_seconds_witness :
  -120 <= 150 <= 179 /\ ATRTDB.classify 150 = ATRTDB.ON_TIME.
Proof.
  split; [lia|].
  apply (proj2 (proj1 (classification_band_in_seconds 150))). lia.
Defined.

(* ====================================================================== *)
(** ** Ranking *)
(* ====================================================================== *)

Lemma ascending_firstn {A : Type} (key : A -> Z) (n : nat) (l : list A) :
  Spec.ascending key l -> Spec.ascending key (firstn n l).
Proof.
  unfold Spec.ascending. revert l.
  induction n as [|n IH]; intros l Hs; simpl.
  - constructor.
  - destruct l as [|x l]; [constructor|].
    inversion Hs as [|? ? Hl Hx]; subst.
    constructor.
    + apply IH, Hl.
    + rewrite Forall_forall in *. intros y Hy. apply Hx.
      rewrite <- (firstn_skipn n l). apply in_or_app. left. exact Hy.
Qed.

Lemma with_key_firstn {A : Type} (key : A -> Z) (k : Z) (n : nat)
    (l : list A) :
  Spec.with_key key k l
  = Spec.with_key key k (firstn n l) ++ Spec.with_key key k (skipn n l).
Proof.
  unfold Spec.with_key. rewrite <- filter_app, firstn_skipn. reflexivity.
Qed.

(** An element of a filtered list comes from a place of the list that the
    filter splits in the same way. *)
Lemma filter_split {A : Type} (f : A -> bool) (s p q : list A) (a : A) :
  filter f s = p ++ a :: q ->
  exists s1 s2, s = s1 ++ a :: s2 /\ filter f s1 = p /\ filter f s2 = q.
Proof.
  revert p. induction s as [|x s IH]; intros p H; simpl in H.
  - destruct p; discriminate.
  - destruct (f x) eqn:Hx.
    + destruct p as [|y p]; simpl in H; injection H as <- H.
      * exists [], s. repeat split; assumption.
      * apply IH in H. destruct H as [s1 [s2 [-> [<- <-]]]].
        exists (x :: s1), s2. simpl. rewrite Hx. repeat split.
    + apply IH in H. destruct H as [s1 [s2 [-> [<- <-]]]].
      exists (x :: s1), s2. simpl. rewrite Hx. repeat split.
Qed.

(** Stability, pair by pair: of two elements with one key, the one that
    comes first in the input comes first in the output. *)
Lemma sort_by_keeps_pairs {A : Type} (key : A -> Z) (a b : A)
    (l1 l2 l3 : list A) :
  key a = key b ->
  exists m1 m2 m3,
    Py.sort_by key (l1 ++ a :: l2 ++ b :: l3) = m1 ++ a :: m2 ++ b :: m3.
Proof.
  intro Hab.
  assert (H := sort_by_stable key (key a) (l1 ++ a :: l2 ++ b :: l3)).
  unfold Spec.with_key in H.
  rewrite (filter_app _ l1) in H. simpl in H. rewrite Z.eqb_refl in H.
  rewrite (filter_app _ l2) in H. simpl in H.
  rewrite <- Hab, Z.eqb_refl in H.
  apply filter_split in H. destruct H as [m1 [s2 [Hs [_ H2]]]].
  apply filter_split in H2. destruct H2 as [m2 [m3 [-> _]]].
  exists m1, m2, m3. exact Hs.
Qed.

Lemma get_departures_length (API_KEY : string) (location : ATRTDB.Location)
    (w : Env.World) :
  (List.length (ATRTDB.returned (ATRTDB.get_departures API_KEY location w))
   <= ATRTDB.MAX_DEPARTURES)%nat.
Proof.
  destruct (ATRTDB.SIMULATION_MODE API_KEY) eqn:Hmode.
  - unfold ATRTDB.get_departures, ATRTDB.returned. rewrite Hmode.
    cbn [snd]. rewrite mock_loop_length. simpl. lia.
  - rewrite (live_board_empty _ _ _ Hmode). simpl. lia.
Qed.

Lemma sort_and_limit_full (entries : list ATRTDB.Departure) :
  ATRTDB.sort_and_limit entries (List.length entries)
  = Py.sort_by ATRTDB.time entries.
Proof.
  unfold ATRTDB.sort_and_limit, Py.slice_to.
  rewrite <- (sort_by_length ATRTDB.time entries). apply firstn_all.
Qed.

(** C5: the ranked list is never longer than the bound, and ranking with
    the bound [maxCount] gives the first [maxCount] entries of the full
    ascending sort, which is the ranking with the bound [len(entries)]. *)
Theorem ranked_output_bounded_prefix :
  forall (entries : list ATRTDB.Departure) (maxCount : nat),
    (List.length (ATRTDB.sort_and_limit entries maxCount) <= maxCount)%nat
    /\ ATRTDB.sort_and_limit entries maxCount
       = firstn maxCount
           (ATRTDB.sort_and_limit entries (List.length entries))
    /\ ATRTDB.sort_and_limit entries (List.length entries)
       = Py.sort_by ATRTDB.time entries
    /\ Spec.ascending ATRTDB.time
         (ATRTDB.sort_and_limit entries (List.length entries))
    /\ Permutation entries
         (ATRTDB.sort_and_limit entries (List.length entries))
    /\ (forall API_KEY location w,
          (List.length
             (ATRTDB.returned (ATRTDB.get_departures API_KEY location w))
           <= ATRTDB.MAX_DEPARTURES)%nat).
Proof.
  intros entries maxCount.
  assert (Hfull := sort_and_limit_full entries).
  split; [|split; [|split; [|split; [|split]]]].
  - unfold ATRTDB.sort_and_limit, Py.slice_to. apply firstn_le_length.
  - rewrite Hfull. reflexivity.
  - exact Hfull.
  - rewrite Hfull. apply sort_by_ascending.
  - rewrite Hfull. apply sort_by_perm.
  - intros API_KEY location w. apply get_departures_length.
Qed.

(** Three entries, the first and the last with the same departure instant. *)
Example ties_keep_emission_order :
  let e (r : string) (t : Z) :=
    {| ATRTDB.route := r; ATRTDB.headsign := "N/A"; ATRTDB.time := t;
       ATRTDB.mins_until := 1; ATRTDB.delay := 0; ATRTDB.stop_id := "A" |} in
  ATRTDB.sort_and_limit [e "b" 20; e "c" 10; e "a" 20; e "d" 10] 3
  = [e "c" 10; e "d" 10; e "b" 20].
Proof. reflexivity. Qed.

(** C6: the ranking of the code orders the entries by ascending departure
    instant and by nothing else, and it is stable.  Ranked without a cut
    (the bound being their number), the entries are rearranged into
    ascending order, those of one departure instant keeping their emission
    order, so that of two such entries the one emitted first is ranked
    first; the ranking is the only list with these properties, hence the
    same at every invocation.  With a bound [n] the ranking is the first
    [n] entries of that list: it has [min n (len entries)] entries, is
    ascending, keeps of every instant the entries emitted first, and
    ranking it again changes nothing. *)
Theorem ranking_is_stable_sort :
  forall (entries : list ATRTDB.Departure) (n : nat),
    let ranked := ATRTDB.sort_and_limit entries (List.length entries) in
    Spec.ascending ATRTDB.time ranked
    /\ Permutation entries ranked
    /\ (forall t,
          Spec.with_key ATRTDB.time t ranked
          = Spec.with_key ATRTDB.time t entries)
    /\ (forall s,
          Spec.ascending ATRTDB.time s ->
          (forall t, Spec.with_key ATRTDB.time t s
                     = Spec.with_key ATRTDB.time t entries) ->
          ranked = s)
    /\ (forall a b l1 l2 l3,
          entries = l1 ++ a :: l2 ++ b :: l3 ->
          ATRTDB.time a = ATRTDB.time b ->
          exists m1 m2 m3, ranked = m1 ++ a :: m2 ++ b :: m3)
    /\ ATRTDB.sort_and_limit entries n = firstn n ranked
    /\ List.length (ATRTDB.sort_and_limit entries n)
       = Nat.min n (List.length entries)
    /\ Spec.ascending ATRTDB.time (ATRTDB.sort_and_limit entries n)
    /\ (forall t, exists later,
          Spec.with_key ATRTDB.time t entries
          = Spec.with_key ATRTDB.time t (ATRTDB.sort_and_limit entries n)
              ++ later)
    /\ ATRTDB.sort_and_limit (ATRTDB.sort_and_limit entries n) n
       = ATRTDB.sort_and_limit entries n.
Proof.
  intros entries n ranked. subst ranked.
  rewrite sort_and_limit_full.
  assert (Hasc : Spec.ascending ATRTDB.time (ATRTDB.sort_and_limit entries n)).
  { unfold ATRTDB.sort_and_limit, Py.slice_to.
    apply ascending_firstn, sort_by_ascending. }
  split; [apply sort_by_ascending|].
  split; [apply sort_by_perm|].
  split; [intro t; apply sort_by_stable|].
  split; [intros s Hs Hc; symmetry; apply stable_sort_unique; assumption|].
  split; [intros a b l1 l2 l3 -> Hab; apply sort_by_keeps_pairs, Hab|].
  split; [reflexivity|].
  split.
  { unfold ATRTDB.sort_and_limit, Py.slice_to.
    rewrite length_firstn, sort_by_length. reflexivity. }
  split; [exact Hasc|]. split.
  - intro t.
    exists (Spec.with_key ATRTDB.time t
              (skipn n (Py.sort_by ATRTDB.time entries))).
    rewrite <- (sort_by_stable ATRTDB.time t entries).
    unfold ATRTDB.sort_and_limit, Py.slice_to. apply with_key_firstn.
  - unfold ATRTDB.sort_and_limit at 1.
    rewrite (sort_by_sorted_id _ _ Hasc).
    unfold ATRTDB.sort_and_limit, Py.slice_to.
    rewrite firstn_firstn, Nat.min_id. reflexivity.
Qed.

Lemma ranking_is_stable_sort_witness :
  Spec.ascending ATRTDB.time [Sample.tie "b"; Sample.tie "a"]
  /\ (forall t,
        Spec.with_key ATRTDB.time t [Sample.tie "b"; Sample.tie "a"]
        = Spec.with_key ATRTDB.time t [Sample.tie "b"; Sample.tie "a"])
  /\ ATRTDB.sort_and_limit [Sample.tie "b"; Sample.tie "a"] 2
     = [Sample.tie "b"; Sample.tie "a"].
Proof.
  assert (Hs : Spec.ascending ATRTDB.time [Sample.tie "b"; Sample.tie "a"]).
  { repeat constructor; simpl; lia. }
  split; [exact Hs|]. split; [reflexivity|].
  apply (proj1 (proj2 (proj2 (proj2
           (ranking_is_stable_sort [Sample.tie "b"; Sample.tie "a"] 2))))).
  - exact Hs.
  - reflexivity.
Defined.

(* ====================================================================== *)
(** ** The stop and route filter *)
(* ====================================================================== *)

(** On a reply that decodes and whose times convert, [get_departures]
    prints the error of the headsign read when an accepted upcoming event
    is in the feed, and prints nothing otherwise. *)
Lemma get_departures_due (API_KEY : string) (location : ATRTDB.Location)
    (w : Env.World) (resp : Env.Response) (feed : Gtfs.FeedMessage) :
  ATRTDB.SIMULATION_MODE API_KEY = false ->
  Env.requests_get w = Py.Return resp ->
  Env.status_code resp = 200 ->
  Env.content resp = Gtfs.Decodes feed ->
  Spec.converts w feed ->
  (Spec.due location w (Env.now w) feed
   /\ ATRTDB.get_departures API_KEY location w
      = ([Spec.error_line location Gtfs.no_trip_headsign], []))
  \/ (~ Spec.due location w (Env.now w) feed
      /\ ATRTDB.get_departures API_KEY location w = ([], [])).
Proof.
  intros Hmode Hget Hs Hc Hconv.
  rewrite (get_departures_decoded _ _ _ _ _ Hmode Hget Hs Hc).
  destruct (extraction_outcome location w (Env.now w) feed Hconv)
    as [[Hdue ->] | [Hno ->]].
  - left. split; [exact Hdue | reflexivity].
  - right. split; [exact Hno | reflexivity].
Qed.

Lemma no_stops_returns (location : ATRTDB.Location) (w : Env.World)
    (now : Py.datetime) (feed : Gtfs.FeedMessage) :
  ATRTDB.stop_ids location = [] ->
  Py.for_each (Gtfs.entity feed) (ATRTDB.entity_step location w now) []
  = Py.Return [].
Proof.
  intro Hstops.
  destruct (Py.for_each (Gtfs.entity feed)
              (ATRTDB.entity_step location w now) []) as [deps|e] eqn:Hrun.
  - apply extraction_Return in Hrun. subst deps. reflexivity.
  - apply for_each_raise_from in Hrun.
    destruct Hrun as [ent [s' [_ Hstep]]].
    apply entity_step_Raise in Hstep.
    destruct Hstep as [tu [stu [ev [_ [_ [_ [[_ Hstop] _]]]]]]].
    rewrite Hstops in Hstop. destruct Hstop.
Qed.

(** C3: the filter of lines 146 to 152 accepts an event exactly when the
    allowlist of the location is empty or has a prefix of the route of the
    trip, and the stop of the event is one of the resolved stops.  Stop by
    stop: an upcoming event at a resolved stop goes on to the read of the
    headsign (which raises), and one at another stop leaves the list as it
    is.  Trip by trip: an allowed route hands all the events of the trip
    to the stop test, and a non-empty allowlist without a matching prefix
    rejects them all.  End to end, on a feed whose times convert:
    [get_departures] prints the error of the headsign read exactly when
    the feed holds an upcoming event that the filter accepts, and prints
    nothing exactly when it holds none; with no resolved stop every event
    is rejected and nothing is printed.  With the stops A and B and the
    allowlist ["64-"]: 64-X at A is accepted, 65-X at A and 64-X at C are
    rejected. *)
Theorem filter_accepts_route_and_stop :
  forall (location : ATRTDB.Location) (w : Env.World),
    (forall trip route_id stu ev dep_time deps,
       Spec.upcoming w (Env.now w) stu ev dep_time ->
       (ATRTDB.stop_time_step location w (Env.now w) trip route_id stu deps
          = Py.Raise Gtfs.no_trip_headsign
        <-> In (Gtfs.stop_id stu) (ATRTDB.stop_ids location))
       /\ (ATRTDB.stop_time_step location w (Env.now w) trip route_id stu deps
             = Py.Return deps
           <-> ~ In (Gtfs.stop_id stu) (ATRTDB.stop_ids location)))
    /\ (forall ent tu deps,
          Gtfs.trip_update ent = Some tu ->
          ((ATRTDB.route_prefixes location = []
            \/ exists p, In p (ATRTDB.route_prefixes location)
                         /\ Py.startswith (Gtfs.route_id (Gtfs.trip tu)) p
                            = true) ->
           ATRTDB.entity_step location w (Env.now w) ent deps
           = Py.for_each (Gtfs.stop_time_update tu)
               (ATRTDB.stop_time_step location w (Env.now w) (Gtfs.trip tu)
                  (Gtfs.route_id (Gtfs.trip tu))) deps)
          /\ (ATRTDB.route_prefixes location <> [] ->
              (forall p, In p (ATRTDB.route_prefixes location) ->
                         Py.startswith (Gtfs.route_id (Gtfs.trip tu)) p
                         = false) ->
              ATRTDB.entity_step location w (Env.now w) ent deps
              = Py.Return deps))
    /\ (forall API_KEY resp feed,
          ATRTDB.SIMULATION_MODE API_KEY = false ->
          Env.requests_get w = Py.Return resp ->
          Env.status_code resp = 200 ->
          Env.content resp = Gtfs.Decodes feed ->
          (Spec.converts w feed ->
           (ATRTDB.get_departures API_KEY location w
              = ([Spec.error_line location Gtfs.no_trip_headsign], [])
            <-> exists ent tu stu ev dep_time,
                  In ent (Gtfs.entity feed)
                  /\ Gtfs.trip_update ent = Some tu
                  /\ In stu (Gtfs.stop_time_update tu)
                  /\ Spec.upcoming w (Env.now w) stu ev dep_time
                  /\ (ATRTDB.route_prefixes location = []
                      \/ exists p,
                           In p (ATRTDB.route_prefixes location)
                           /\ Py.startswith (Gtfs.route_id (Gtfs.trip tu)) p
                              = true)
                  /\ In (Gtfs.stop_id stu) (ATRTDB.stop_ids location))
           /\ (ATRTDB.get_departures API_KEY location w = ([], [])
               <-> ~ exists ent tu stu ev dep_time,
                       In ent (Gtfs.entity feed)
                       /\ Gtfs.trip_update ent = Some tu
                       /\ In stu (Gtfs.stop_time_update tu)
                       /\ Spec.upcoming w (Env.now w) stu ev dep_time
                       /\ (ATRTDB.route_prefixes location = []
                           \/ exists p,
                                In p (ATRTDB.route_prefixes location)
                                /\ Py.startswith
                                     (Gtfs.route_id (Gtfs.trip tu)) p
                                   = true)
                       /\ In (Gtfs.stop_id stu) (ATRTDB.stop_ids location)))
          /\ (ATRTDB.stop_ids location = [] ->
              ATRTDB.get_departures API_KEY location w = ([], [])))
    /\ ATRTDB.get_departures "k" Sample.loc64
         (Sample.world
            (Sample.ok (Sample.feed_of
               [Sample.trip_of "64-X" [Sample.at_stop "A" 1600 None]]))
            Sample.now0)
       = ([Spec.error_line Sample.loc64 Gtfs.no_trip_headsign], [])
    /\ ATRTDB.get_departures "k" Sample.loc64
         (Sample.world
            (Sample.ok (Sample.feed_of
               [Sample.trip_of "65-X" [Sample.at_stop "A" 1600 None]]))
            Sample.now0)
       = ([], [])
    /\ ATRTDB.get_departures "k" Sample.loc64
         (Sample.world
            (Sample.ok (Sample.feed_of
               [Sample.trip_of "64-X" [Sample.at_stop "C" 1600 None]]))
            Sample.now0)
       = ([], []).
Proof.
  intros location w.
  split; [|split; [|split; [|repeat split; reflexivity]]].
  - intros trip route_id stu ev dep_time deps Hup. split; split.
    + intro H. apply stop_time_step_Raise in H.
      destruct H as [ev' [_ [Hstop _]]]. exact Hstop.
    + intro Hstop.
      apply (stop_time_step_upcoming _ _ _ _ _ _ ev dep_time); assumption.
    + intros H Hstop.
      rewrite (stop_time_step_upcoming _ _ _ _ _ _ ev dep_time) in H
        by assumption.
      discriminate.
    + apply stop_time_step_rejects.
  - intros ent tu deps Htu. split.
    + intro Hr. apply entity_step_allowed; assumption.
    + intros Hne Hnone. apply (entity_step_skips _ _ _ _ tu); [exact Htu|].
      intros [Hnil | [p [Hp Hpre]]].
      * contradiction.
      * apply Hnone in Hp. unfold Py.startswith in Hp. congruence.
  - intros API_KEY resp feed Hmode Hget Hs Hc. split.
    + intro Hconv.
      change (exists ent tu stu ev dep_time,
                In ent (Gtfs.entity feed)
                /\ Gtfs.trip_update ent = Some tu
                /\ In stu (Gtfs.stop_time_update tu)
                /\ Spec.upcoming w (Env.now w) stu ev dep_time
                /\ (ATRTDB.route_prefixes location = []
                    \/ exists p,
                         In p (ATRTDB.route_prefixes location)
                         /\ Py.startswith (Gtfs.route_id (Gtfs.trip tu)) p
                            = true)
                /\ In (Gtfs.stop_id stu) (ATRTDB.stop_ids location))
        with (Spec.due location w (Env.now w) feed).
      destruct (get_departures_due API_KEY location w resp feed
                  Hmode Hget Hs Hc Hconv) as [[Hdue ->] | [Hno ->]].
      * split; split; intro H; try assumption; try reflexivity;
          try discriminate. contradiction.
      * split; split; intro H; try assumption; try reflexivity;
          try discriminate. contradiction.
    + intro Hstops.
      rewrite (get_departures_decoded _ _ _ _ _ Hmode Hget Hs Hc).
      rewrite (no_stops_returns location w (Env.now w) feed Hstops).
      reflexivity.
Qed.

Lemma filter_accepts_route_and_stop_witness :
  Spec.upcoming Sample.world_e2e (Env.now Sample.world_e2e)
    (Sample.at_stop "A" 1600 (Some 200)) (Sample.event 1600 (Some 200))
    ((1600 + 43200) * 1000000)
  /\ In "A" (ATRTDB.stop_ids Sample.loc64)
  /\ ATRTDB.stop_time_step Sample.loc64 Sample.world_e2e
       (Env.now Sample.world_e2e) Sample.trip64 "64-X"
       (Sample.at_stop "A" 1600 (Some 200)) []
     = Py.Raise Gtfs.no_trip_headsign.
Proof.
  assert (Hup : Spec.upcoming Sample.world_e2e (Env.now Sample.world_e2e)
                  (Sample.at_stop "A" 1600 (Some 200))
                  (Sample.event 1600 (Some 200)) ((1600 + 43200) * 1000000)).
  { split; [reflexivity|]. split; reflexivity. }
  assert (Hin : In "A" (ATRTDB.stop_ids Sample.loc64)).
  { left. reflexivity. }
  split; [exact Hup|]. split; [exact Hin|].
  apply (proj2 (proj1 (proj1 (filter_accepts_route_and_stop Sample.loc64
                                Sample.world_e2e)
                         Sample.trip64 "64-X"
                         (Sample.at_stop "A" 1600 (Some 200))
                         (Sample.event 1600 (Some 200))
                         ((1600 + 43200) * 1000000) [] Hup))).
  exact Hin.
Defined.

(* ====================================================================== *)
(** ** Decoding errors *)
(* ====================================================================== *)

(** The scripts do not catch a decoding error: it leaves the function. *)
Lemma scripts_raise_on_malformed (stop_ids : list string) (w : Env.World)
    (resp : Env.Response) (msg : string) :
  Env.requests_get w = Py.Return resp ->
  Env.status_code resp = 200 ->
  Env.content resp = Gtfs.Malformed msg ->
  RTDB_Britomart.get_departures stop_ids w = Py.Raise (Py.DecodeError msg)
  /\ RTDB_downtown.get_departures stop_ids w = Py.Raise (Py.DecodeError msg).
Proof.
  intros Hget Hs Hc.
  unfold RTDB_Britomart.get_departures, RTDB_downtown.get_departures.
  rewrite Hget. simpl. rewrite Hs, Hc. split; reflexivity.
Qed.

(** The list that [get_departures] returns is the same for a reply that
    does not decode, for an empty feed and for a feed in which no trip
    matches: the caller sees three empty lists. *)
Lemma decode_failure_not_distinguished :
  ATRTDB.returned
    (ATRTDB.get_departures "k" Sample.loc64
       (Sample.world Sample.garbled Sample.now0)) = []
  /\ ATRTDB.returned
       (ATRTDB.get_departures "k" Sample.loc64
          (Sample.world (Sample.ok (Sample.feed_of [])) Sample.now0)) = []
  /\ ATRTDB.returned
       (ATRTDB.get_departures "k" Sample.loc64
          (Sample.world
             (Sample.ok (Sample.feed_of
                [Sample.trip_of "65-X" [Sample.at_stop "A" 1600 None]]))
             Sample.now0)) = [].
Proof. repeat split; reflexivity. Qed.

(** C4, as the code has it: on a reply that does not decode, the master
    board's [get_departures] raises nothing and returns the empty list,
    after printing one line that names the location and the error; the
    returned list is the one of a feed without entities. *)
Theorem decode_failure_returns_empty :
  forall (API_KEY : string) (location : ATRTDB.Location) (w : Env.World)
         (resp : Env.Response) (msg : string),
    ATRTDB.SIMULATION_MODE API_KEY = false ->
    Env.requests_get w = Py.Return resp ->
    Env.status_code resp = 200 ->
    Env.content resp = Gtfs.Malformed msg ->
    ATRTDB.get_departures API_KEY location w
      = ([("❌ Error fetching departures for " ++ ATRTDB.name location
            ++ ": " ++ msg)%string], [])
    /\ ATRTDB.returned (ATRTDB.get_departures API_KEY location w)
       = ATRTDB.returned
           (ATRTDB.get_departures API_KEY location
              {| Env.requests_get :=
                   Py.Return {| Env.status_code := 200;
                                Env.content :=
                                  Gtfs.Decodes {| Gtfs.entity := [] |} |};
                 Env.now := Env.now w;
                 Env.fromtimestamp := Env.fromtimestamp w;
                 Env.random_raw := Env.random_raw w |}).
Proof.
  intros API_KEY location w resp msg Hmode Hget Hs Hc.
  unfold ATRTDB.get_departures, ATRTDB.returned. rewrite Hmode.
  unfold ATRTDB.fetch_departures. rewrite Hget. simpl.
  rewrite Hs, Hc. simpl. split; reflexivity.
Qed.

Lemma decode_failure_returns_empty_witness :
  ATRTDB.SIMULATION_MODE "k" = false
  /\ Env.requests_get (Sample.world Sample.garbled Sample.now0)
     = Sample.garbled
  /\ ATRTDB.get_departures "k" Sample.loc64
       (Sample.world Sample.garbled Sample.now0)
     = (["❌ Error fetching departures for Test: Error parsing message"], []).
Proof.
  split; [reflexivity|]. split; [reflexivity|].
  apply (proj1 (decode_failure_returns_empty "k" Sample.loc64
                  (Sample.world Sample.garbled Sample.now0)
                  {| Env.status_code := 200;
                     Env.content := Gtfs.Malformed "Error parsing message" |}
                  "Error parsing message"
                  eq_refl eq_refl eq_refl eq_refl)).
Defined.

(* ====================================================================== *)
(** ** The master board and the per-location scripts *)
(* ====================================================================== *)







(** The entity step of the bus script, which has no route filter, is the
    one of the master board on the trips that pass the route filter of the
    location; the master board skips the others. *)



(** The loop of RTDB_downtown never appends either. *)
Lemma downtown_entity_Return (stop_ids : list string) (w : Env.World)
    (now : Py.datetime) (ent : Gtfs.FeedEntity)
    (deps deps' : list RTDB_downtown.Departure) :
  RTDB_downtown.entity_step stop_ids w now ent deps = Py.Return deps' ->
  deps' = deps.
Proof.
  unfold RTDB_downtown.entity_step.
  destruct (Gtfs.trip_update ent) as [tu|].
  2:{ intro H. injection H as <-. reflexivity. }
  cbv zeta.
  assert (Hstep : forall stu s s',
            In stu (Gtfs.stop_time_update tu) ->
            RTDB_downtown.stop_time_step stop_ids w now (Gtfs.trip tu) (Gtfs.route_id (Gtfs.trip tu)) stu s
              = Py.Return s' ->
            s' = s).
  { intros stu s s' _. unfold RTDB_downtown.stop_time_step.
    destruct (Py.contains (Gtfs.stop_id stu) stop_ids && Gtfs.has_departure stu).
    2:{ intro H. injection H as <-. reflexivity. }
    destruct (Env.fromtimestamp w (Gtfs.get_time (Gtfs.get_departure stu)))
      as [dep_time|e]; [|discriminate].
    cbn [Py.bind]. destruct (Py.dt_gt dep_time now); [discriminate|].
    intro H. injection H as <-. reflexivity. }
  destruct (Py.any (fun prefix => Py.startswith
                                    (Gtfs.route_id (Gtfs.trip tu)) prefix)
                   RTDB_downtown.FERRY_ROUTE_PREFIXES).
  - apply for_each_unchanged. exact Hstep.
  - intro H. injection H as <-. reflexivity.
Qed.

Lemma downtown_no_rows (stop_ids : list string) (w : Env.World)
    (r : list string * list RTDB_downtown.Departure) :
  RTDB_downtown.get_departures stop_ids w = Py.Return r -> snd r = [].
Proof.
  unfold RTDB_downtown.get_departures. intro H.
  apply bind_Return in H. destruct H as [resp [_ H]].
  destruct (negb (Env.status_code resp =? 200)).
  - injection H as <-. reflexivity.
  - apply bind_Return in H. destruct H as [feed [_ H]].
    apply bind_Return in H. destruct H as [deps [Hloop H]].
    injection H as <-.
    apply (for_each_unchanged _ _
             (fun ent s s' _ => downtown_entity_Return stop_ids w (Env.now w)
                                  ent s s')) in Hloop.
    subst deps. reflexivity.
Qed.

(** The loop of RTDB_Britomart never appends either. *)
Lemma britomart_entity_Return (stop_ids : list string) (w : Env.World)
    (now : Py.datetime) (ent : Gtfs.FeedEntity)
    (deps deps' : list RTDB_Britomart.Departure) :
  RTDB_Britomart.entity_step stop_ids w now ent deps = Py.Return deps' ->
  deps' = deps.
Proof.
  unfold RTDB_Britomart.entity_step.
  destruct (Gtfs.trip_update ent) as [tu|].
  2:{ intro H. injection H as <-. reflexivity. }
  cbv zeta.
  assert (Hstep : forall stu s s',
            In stu (Gtfs.stop_time_update tu) ->
            RTDB_Britomart.stop_time_step stop_ids w now (Gtfs.trip tu) (Gtfs.route_id (Gtfs.trip tu)) stu s
              = Py.Return s' ->
            s' = s).
  { intros stu s s' _. unfold RTDB_Britomart.stop_time_step.
    destruct (Py.contains (Gtfs.stop_id stu) stop_ids && Gtfs.has_departure stu).
    2:{ intro H. injection H as <-. reflexivity. }
    destruct (Env.fromtimestamp w (Gtfs.get_time (Gtfs.get_departure stu)))
      as [dep_time|e]; [|discriminate].
    cbn [Py.bind]. destruct (Py.dt_gt dep_time now); [discriminate|].
    intro H. injection H as <-. reflexivity. }
  apply for_each_unchanged. exact Hstep.
Qed.

Lemma britomart_no_rows (stop_ids : list string) (w : Env.World)
    (r : list string * list RTDB_Britomart.Departure) :
  RTDB_Britomart.get_departures stop_ids w = Py.Return r -> snd r = [].
Proof.
  unfold RTDB_Britomart.get_departures. intro H.
  apply bind_Return in H. destruct H as [resp [_ H]].
  destruct (negb (Env.status_code resp =? 200)).
  - injection H as <-. reflexivity.
  - apply bind_Return in H. destruct H as [feed [_ H]].
    apply bind_Return in H. destruct H as [deps [Hloop H]].
    injection H as <-.
    apply (for_each_unchanged _ _
             (fun ent s s' _ => britomart_entity_Return stop_ids w (Env.now w)
                                  ent s s')) in Hloop.
    subst deps. reflexivity.
Qed.

(** The loop of RTDB_Waitemata never appends either. *)
Lemma waitemata_entity_Return (stop_id : Dyn.value) (w : Env.World)
    (now : Py.datetime) (ent : Gtfs.FeedEntity)
    (deps deps' : list RTDB_Waitemata.Departure) :
  RTDB_Waitemata.entity_step stop_id w now ent deps = Py.Return deps' ->
  deps' = deps.
Proof.
  unfold RTDB_Waitemata.entity_step.
  destruct (Gtfs.trip_update ent) as [tu|].
  2:{ intro H. injection H as <-. reflexivity. }
  cbv zeta.
  assert (Hstep : forall stu s s',
            In stu (Gtfs.stop_time_update tu) ->
            RTDB_Waitemata.stop_time_step stop_id w now (Gtfs.trip tu) stu s
              = Py.Return s' ->
            s' = s).
  { intros stu s s' _. unfold RTDB_Waitemata.stop_time_step.
    destruct (Dyn.str_eq (Gtfs.stop_id stu) stop_id && Gtfs.has_departure stu).
    2:{ intro H. injection H as <-. reflexivity. }
    destruct (Env.fromtimestamp w (Gtfs.get_time (Gtfs.get_departure stu)))
      as [dep_time|e]; [|discriminate].
    cbn [Py.bind]. destruct (Py.dt_gt dep_time now); [discriminate|].
    intro H. injection H as <-. reflexivity. }
  apply for_each_unchanged. exact Hstep.
Qed.

Lemma waitemata_no_rows (stop_id : Dyn.value) (w : Env.World)
    (r : list string * list RTDB_Waitemata.Departure) :
  RTDB_Waitemata.get_departures stop_id w = Py.Return r -> snd r = [].
Proof.
  unfold RTDB_Waitemata.get_departures. intro H.
  apply bind_Return in H. destruct H as [resp [_ H]].
  destruct (negb (Env.status_code resp =? 200)).
  - injection H as <-. reflexivity.
  - apply bind_Return in H. destruct H as [feed [_ H]].
    apply bind_Return in H. destruct H as [deps [Hloop H]].
    injection H as <-.
    apply (for_each_unchanged _ _
             (fun ent s s' _ => waitemata_entity_Return stop_id w (Env.now w)
                                  ent s s')) in Hloop.
    subst deps. reflexivity.
Qed.






(* ====================================================================== *)
(** ** Failures of the fetch *)
(* ====================================================================== *)

(** X1: outside the simulation, [get_departures] prints at most one line,
    and it prints none exactly when the reply has status 200, decodes and
    the loop over the feed returns; whenever a line is printed the returned
    list is empty, so that a board with departures comes without an error
    line. *)
Theorem error_line_iff_fetch_fails :
  forall (API_KEY : string) (location : ATRTDB.Location) (w : Env.World),
    ATRTDB.SIMULATION_MODE API_KEY = false ->
    (List.length
       (ATRTDB.printed (ATRTDB.get_departures API_KEY location w)) <= 1)%nat
    /\ (ATRTDB.printed (ATRTDB.get_departures API_KEY location w) = []
        <-> exists resp feed deps,
              Env.requests_get w = Py.Return resp
              /\ Env.status_code resp = 200
              /\ Env.content resp = Gtfs.Decodes feed
              /\ Py.for_each (Gtfs.entity feed)
                   (ATRTDB.entity_step location w (Env.now w)) []
                 = Py.Return deps)
    /\ (ATRTDB.printed (ATRTDB.get_departures API_KEY location w) <> [] ->
        ATRTDB.returned (ATRTDB.get_departures API_KEY location w) = []).
Proof.
  intros API_KEY location w Hmode.
  unfold ATRTDB.get_departures, ATRTDB.printed, ATRTDB.returned.
  rewrite Hmode.
  destruct (fetch_departures_cases location w)
    as [[e He] | [[resp [Hget [Hs He]]] | [resp [feed [deps H]]]]].
  - rewrite He. cbn [fst snd]. split; [simpl; lia|]. split; [|reflexivity].
    split; [discriminate|].
    intros [resp [feed [deps [Hget [Hs [Hc Hl]]]]]].
    unfold ATRTDB.fetch_departures in He. rewrite Hget in He.
    cbn [Py.bind] in He. rewrite Hs in He.
    change (negb (200 =? 200)) with false in He. cbv iota in He.
    rewrite Hc in He. cbn [Gtfs.ParseFromString Py.bind] in He.
    rewrite Hl in He. discriminate.
  - rewrite He. cbn [fst snd]. split; [simpl; lia|]. split; [|reflexivity].
    split; [discriminate|].
    intros [resp' [feed [deps [Hget' [Hs' _]]]]].
    rewrite Hget in Hget'. injection Hget' as <-. contradiction.
  - destruct H as [Hget [Hs [Hc [Hl He]]]].
    rewrite He. cbn [fst snd]. split; [simpl; lia|]. split.
    + split; [|reflexivity]. intros _. exists resp, feed, deps.
      repeat split; assumption.
    + intro Habs. contradiction.
Qed.

Lemma error_line_iff_fetch_fails_witness :
  ATRTDB.SIMULATION_MODE "k" = false
  /\ ATRTDB.printed
       (ATRTDB.get_departures "k" Sample.loc64
          (Sample.world Sample.garbled Sample.now0)) <> []
  /\ ATRTDB.returned
       (ATRTDB.get_departures "k" Sample.loc64
          (Sample.world Sample.garbled Sample.now0)) = [].
Proof.
  assert (Hp : ATRTDB.printed
                 (ATRTDB.get_departures "k" Sample.loc64
                    (Sample.world Sample.garbled Sample.now0)) <> []).
  { discriminate. }
  split; [reflexivity|]. split; [exact Hp|].
  apply (proj2 (proj2 (error_line_iff_fetch_fails "k" Sample.loc64
                         (Sample.world Sample.garbled Sample.now0)
                         eq_refl))).
  exact Hp.
Defined.

(** X2: one timestamp that the platform cannot convert voids the board: if
    the decoded feed holds an event at a resolved stop, on a trip that the
    route filter lets through, whose departure time makes
    [datetime.fromtimestamp] raise, then [get_departures] returns the empty
    list and prints the error line, whatever other departures are due. *)
Theorem unconvertible_timestamp_voids_board :
  forall (API_KEY : string) (location : ATRTDB.Location) (w : Env.World)
         (resp : Env.Response) (feed : Gtfs.FeedMessage)
         (ent : Gtfs.FeedEntity) (tu : Gtfs.TripUpdate)
         (stu : Gtfs.StopTimeUpdate) (ev : Gtfs.StopTimeEvent) (e : Py.exn),
    ATRTDB.SIMULATION_MODE API_KEY = false ->
    Env.requests_get w = Py.Return resp ->
    Env.status_code resp = 200 ->
    Env.content resp = Gtfs.Decodes feed ->
    In ent (Gtfs.entity feed) ->
    Gtfs.trip_update ent = Some tu ->
    Spec.accepts location (Gtfs.trip tu) stu ->
    In stu (Gtfs.stop_time_update tu) ->
    Gtfs.departure stu = Some ev ->
    Env.fromtimestamp w (Gtfs.get_time ev) = Py.Raise e ->
    exists e',
      ATRTDB.get_departures API_KEY location w
      = ([("❌ Error fetching departures for " ++ ATRTDB.name location
             ++ ": " ++ Py.str_exn e')%string], []).
Proof.
  intros API_KEY location w resp feed ent tu stu ev e
         Hmode Hget Hs Hc Hent Htu [Hroute Hstop] Hstu Hev Hts.
  assert (Hstep : forall deps, exists e',
            ATRTDB.stop_time_step location w (Env.now w) (Gtfs.trip tu)
              (Gtfs.route_id (Gtfs.trip tu)) stu deps = Py.Raise e').
  { intro deps. exists e. unfold ATRTDB.stop_time_step.
    apply contains_In in Hstop. rewrite Hstop.
    unfold Gtfs.has_departure, Gtfs.get_departure. rewrite Hev.
    cbn [andb]. rewrite Hts. reflexivity. }
  assert (Hentity : forall deps, exists e',
            ATRTDB.entity_step location w (Env.now w) ent deps
            = Py.Raise e').
  { intro deps. unfold ATRTDB.entity_step. rewrite Htu. cbv zeta.
    apply route_guard in Hroute. rewrite Hroute.
    apply (for_each_raises _ stu); assumption. }
  destruct (for_each_raises _ ent (Gtfs.entity feed) Hent Hentity [])
    as [e' He'].
  exists e'. unfold ATRTDB.get_departures. rewrite Hmode.
  unfold ATRTDB.fetch_departures. rewrite Hget. cbn [Py.bind].
  rewrite Hs. change (negb (200 =? 200)) with false. cbv iota.
  rewrite Hc. cbn [Gtfs.ParseFromString Py.bind]. rewrite He'. reflexivity.
Qed.

Lemma unconvertible_timestamp_voids_board_witness :
  Env.fromtimestamp Cases.world_far
    (Gtfs.get_time (Sample.event 253402257600 None))
    = Py.Raise (Py.ValueError "year 10000 is out of range")
  /\ exists e',
       ATRTDB.get_departures "k" Sample.loc64 Cases.world_far
       = ([("❌ Error fetching departures for "
              ++ ATRTDB.name Sample.loc64 ++ ": " ++ Py.str_exn e')%string],
          []).
Proof.
  split; [reflexivity|].
  apply (unconvertible_timestamp_voids_board "k" Sample.loc64 Cases.world_far
           {| Env.status_code := 200;
              Env.content := Gtfs.Decodes Cases.feed_far |}
           Cases.feed_far
           (Sample.trip_of "64-X"
              [Sample.at_stop "A" 900 None;
               Sample.at_stop "B" 253402257600 None])
           {| Gtfs.trip := {| Gtfs.route_id := "64-X" |};
              Gtfs.stop_time_update :=
                [Sample.at_stop "A" 900 None;
                 Sample.at_stop "B" 253402257600 None] |}
           (Sample.at_stop "B" 253402257600 None)
           (Sample.event 253402257600 None)
           (Py.ValueError "year 10000 is out of range")).
  - reflexivity.
  - reflexivity.
  - reflexivity.
  - reflexivity.
  - left. reflexivity.
  - reflexivity.
  - split.
    + right. exists "64-". split; [left; reflexivity | reflexivity].
    + right. left. reflexivity.
  - right. left. reflexivity.
  - reflexivity.
  - reflexivity.
Defined.

(* ====================================================================== *)
(** ** What the ranking keeps *)
(* ====================================================================== *)

Lemma ascending_app_le {A : Type} (key : A -> Z) (l1 l2 : list A) :
  Spec.ascending key (l1 ++ l2) ->
  forall a b, In a l1 -> In b l2 -> key a <= key b.
Proof.
  unfold Spec.ascending. induction l1 as [|x l1 IH]; intros Hs a b Ha Hb.
  - destruct Ha.
  - simpl in Hs. inversion Hs as [|? ? Hl Hx]; subst.
    destruct Ha as [<- | Ha].
    + rewrite Forall_forall in Hx. apply Hx, in_or_app. right. exact Hb.
    + exact (IH Hl a b Ha Hb).
Qed.

(** X3: the board shows the earliest departures: the ranking keeps
    [min n (len deps)] entries; with the entries that it leaves out (the
    sorted candidates past the bound) they are a rearrangement of the
    candidates, and no entry that is left out leaves before one that is
    kept. *)
Theorem board_shows_earliest :
  forall (deps : list ATRTDB.Departure) (n : nat),
    Permutation deps
      (ATRTDB.sort_and_limit deps n
         ++ skipn n (Py.sort_by ATRTDB.time deps))
    /\ List.length (ATRTDB.sort_and_limit deps n)
       = Nat.min n (List.length deps)
    /\ List.length (skipn n (Py.sort_by ATRTDB.time deps))
       = (List.length deps - n)%nat
    /\ (forall kept late,
          In kept (ATRTDB.sort_and_limit deps n) ->
          In late (skipn n (Py.sort_by ATRTDB.time deps)) ->
          ATRTDB.time kept <= ATRTDB.time late).
Proof.
  intros deps n. unfold ATRTDB.sort_and_limit, Py.slice_to.
  split; [|split; [|split]].
  - rewrite firstn_skipn. apply sort_by_perm.
  - rewrite length_firstn, sort_by_length. reflexivity.
  - rewrite length_skipn, sort_by_length. reflexivity.
  - intros kept late. apply ascending_app_le.
    rewrite firstn_skipn. apply sort_by_ascending.
Qed.

Lemma board_shows_earliest_witness :
  In (Cases.dep "b" 10)
     (ATRTDB.sort_and_limit
        [Cases.dep "a" 30; Cases.dep "b" 10; Cases.dep "c" 20] 2)
  /\ In (Cases.dep "a" 30)
        (skipn 2 (Py.sort_by ATRTDB.time
                    [Cases.dep "a" 30; Cases.dep "b" 10; Cases.dep "c" 20]))
  /\ ATRTDB.time (Cases.dep "b" 10) <= ATRTDB.time (Cases.dep "a" 30).
Proof.
  split; [left; reflexivity|]. split; [left; reflexivity|].
  apply (proj2 (proj2 (proj2
           (board_shows_earliest
              [Cases.dep "a" 30; Cases.dep "b" 10; Cases.dep "c" 20] 2)))
           (Cases.dep "b" 10) (Cases.dep "a" 30)
           (or_introl eq_refl) (or_introl eq_refl)).
Defined.

Lemma with_key_perm {A : Type} (key : A -> Z) (k : Z) (l l' : list A) :
  Permutation l l' ->
  Permutation (Spec.with_key key k l) (Spec.with_key key k l').
Proof.
  unfold Spec.with_key. intro H.
  induction H as [|x l l' H IH|x y l|l l' l'' H1 IH1 H2 IH2]; simpl.
  - apply perm_nil.
  - destruct (key x =? k); [apply perm_skip|]; exact IH.
  - destruct (key x =? k); destruct (key y =? k);
      try apply Permutation_refl. apply perm_swap.
  - eapply perm_trans; eassumption.
Qed.

Lemma with_key_short {A : Type} (key : A -> Z) (k : Z) (l : list A) :
  NoDup (map key l) -> (List.length (Spec.with_key key k l) <= 1)%nat.
Proof.
  unfold Spec.with_key. induction l as [|x l IH]; intro Hnd; simpl.
  - lia.
  - inversion Hnd as [|? ? Hx Hl]; subst.
    destruct (key x =? k) eqn:E.
    + apply Z.eqb_eq in E. simpl.
      assert (Hnone : filter (fun a => key a =? k) l = []).
      { destruct (filter (fun a => key a =? k) l) as [|y r] eqn:Hf;
          [reflexivity|].
        assert (Hy : In y (filter (fun a => key a =? k) l)).
        { rewrite Hf. left. reflexivity. }
        apply filter_In in Hy. destruct Hy as [Hy Hk].
        apply Z.eqb_eq in Hk. exfalso. apply Hx.
        rewrite E, <- Hk. apply in_map, Hy. }
      rewrite Hnone. simpl. lia.
    + apply IH, Hl.
Qed.

Lemma perm_short_eq {A : Type} (l l' : list A) :
  Permutation l l' -> (List.length l <= 1)%nat -> l = l'.
Proof.
  intros Hp Hlen. destruct l as [|a [|b r]].
  - apply Permutation_nil in Hp. symmetry. exact Hp.
  - apply Permutation_length_1_inv in Hp. symmetry. exact Hp.
  - simpl in Hlen. lia.
Qed.

(** X4: when no two candidates leave at the same instant, the board does
    not depend on the order in which the feed lists them: rearranged
    candidates rank to the same list. *)
Theorem ranking_ignores_emission_order :
  forall (deps deps' : list ATRTDB.Departure) (n : nat),
    Permutation deps deps' ->
    NoDup (map ATRTDB.time deps) ->
    ATRTDB.sort_and_limit deps n = ATRTDB.sort_and_limit deps' n.
Proof.
  intros deps deps' n Hp Hnd. unfold ATRTDB.sort_and_limit. f_equal.
  apply stable_sort_unique.
  - apply sort_by_ascending.
  - intro k. rewrite sort_by_stable.
    apply perm_short_eq.
    + apply with_key_perm, Hp.
    + apply with_key_short, Hnd.
Qed.

Lemma ranking_ignores_emission_order_witness :
  Permutation [Cases.dep "a" 30; Cases.dep "b" 10; Cases.dep "c" 20]
    [Cases.dep "c" 20; Cases.dep "a" 30; Cases.dep "b" 10]
  /\ NoDup (map ATRTDB.time
              [Cases.dep "a" 30; Cases.dep "b" 10; Cases.dep "c" 20])
  /\ ATRTDB.sort_and_limit
       [Cases.dep "a" 30; Cases.dep "b" 10; Cases.dep "c" 20] 2
     = ATRTDB.sort_and_limit
         [Cases.dep "c" 20; Cases.dep "a" 30; Cases.dep "b" 10] 2.
Proof.
  assert (Hp : Permutation
                 [Cases.dep "a" 30; Cases.dep "b" 10; Cases.dep "c" 20]
                 [Cases.dep "c" 20; Cases.dep "a" 30; Cases.dep "b" 10]).
  { apply Permutation_sym.
    apply (Permutation_cons_app [Cases.dep "a" 30; Cases.dep "b" 10] []).
    apply Permutation_refl. }
  assert (Hnd : NoDup (map ATRTDB.time
                  [Cases.dep "a" 30; Cases.dep "b" 10; Cases.dep "c" 20])).
  { simpl. repeat constructor; simpl; intuition discriminate. }
  split; [exact Hp|]. split; [exact Hnd|].
  apply (ranking_ignores_emission_order _ _ 2 Hp Hnd).
Defined.

(* ====================================================================== *)
(** ** Boards outside the simulation *)
(* ====================================================================== *)

(** X5: outside the simulation no [get_departures] of the repository
    returns a departure: the list of the master board is empty whatever
    the reply, the clock and the resolved stops, and a script that returns
    returns no row.  An event that would make an entry ends the loop at the
    read of the headsign instead. *)
Theorem live_boards_are_empty :
  forall (API_KEY : string) (location : ATRTDB.Location) (w : Env.World),
    ATRTDB.SIMULATION_MODE API_KEY = false ->
    ATRTDB.returned (ATRTDB.get_departures API_KEY location w) = []
    /\ (forall stop_ids r,
          RTDB_downtown.get_departures stop_ids w = Py.Return r ->
          snd r = [])
    /\ (forall stop_ids r,
          RTDB_Britomart.get_departures stop_ids w = Py.Return r ->
          snd r = [])
    /\ (forall stop_id r,
          RTDB_Waitemata.get_departures stop_id w = Py.Return r ->
          snd r = [])
    /\ (forall trip route_id stu ev dep_time deps,
          In (Gtfs.stop_id stu) (ATRTDB.stop_ids location) ->
          Spec.upcoming w (Env.now w) stu ev dep_time ->
          ATRTDB.stop_time_step location w (Env.now w) trip route_id stu deps
          = Py.Raise Gtfs.no_trip_headsign).
Proof.
  intros API_KEY location w Hmode.
  split; [apply live_board_empty, Hmode|].
  split; [intros stop_ids r; apply downtown_no_rows|].
  split; [intros stop_ids r; apply britomart_no_rows|].
  split; [intros stop_id r; apply waitemata_no_rows|].
  intros trip route_id stu ev dep_time deps.
  apply stop_time_step_upcoming.
Qed.

Lemma live_boards_are_empty_witness :
  ATRTDB.SIMULATION_MODE "k" = false
  /\ ATRTDB.returned
       (ATRTDB.get_departures "k" Sample.loc64 Sample.world_e2e) = [].
Proof.
  split; [reflexivity|].
  apply (proj1 (live_boards_are_empty "k" Sample.loc64 Sample.world_e2e
                  eq_refl)).
Defined.

(* ====================================================================== *)
(** ** The simulation *)
(* ====================================================================== *)

Lemma choice_In (seq : list string) (raw : nat) :
  seq <> [] -> In (Py.choice seq raw) seq.
Proof.
  intro Hne. unfold Py.choice. apply nth_In.
  apply Nat.mod_upper_bound. destruct seq; [contradiction | discriminate].
Qed.

Lemma not_early_from (delay : Z) :
  -120 <= delay -> ATRTDB.classify delay <> ATRTDB.EARLY.
Proof.
  intro H.
  destruct (classify_cases delay) as [[_ ->] | [[G _] | [_ ->]]];
    try discriminate.
  exfalso. revert G. Z.to_euclidean_division_equations. lia.
Qed.

Lemma mock_departure_invariant (location : ATRTDB.Location)
    (now : Py.datetime) (g : nat -> nat) (k : nat) :
  Mock.invariant location now (fst (ATRTDB.mock_departure location now g k)).
Proof.
  assert (Hr : forall raw, 1 <= Py.randint 1 60 raw <= 60).
  { intro raw. apply randint_bounds. lia. }
  assert (Hd : forall raw, -120 <= Py.randint (-120) 300 raw <= 300).
  { intro raw. apply randint_bounds. lia. }
  assert (Hh : forall raw,
            In (Py.choice ATRTDB.mock_headsigns raw) ATRTDB.mock_headsigns).
  { intro raw. apply choice_In. discriminate. }
  unfold Mock.invariant, ATRTDB.mock_departure.
  destruct (ATRTDB.route_prefixes location) as [|p ps] eqn:Hp;
    cbn [Py.truthy fst ATRTDB.time ATRTDB.mins_until ATRTDB.delay
         ATRTDB.stop_id ATRTDB.headsign ATRTDB.route];
    unfold Py.dt_add, Py.timedelta_minutes.
  - assert (H1 := Hr (g k)). assert (H2 := Hr (g (S (S k)))).
    assert (H3 := Hd (g (S (S (S k))))).
    repeat split; try lia; try apply Hh; try apply not_early_from;
      try lia.
    intro Habs. contradiction.
  - assert (H1 := Hr (g k)). assert (H2 := Hr (g (S (S (S k))))).
    assert (H3 := Hd (g (S (S (S (S k)))))).
    repeat split; try lia; try apply Hh; try apply not_early_from;
      try lia.
    + discriminate.
    + intros _. apply choice_In. discriminate.
Qed.

(** X6: with the placeholder key the board is simulated: [get_departures]
    returns exactly [MAX_DEPARTURES] entries, each leaving within the hour
    after [now], with 1 to 60 minutes, a delay from -120 to 300 seconds
    (hence never EARLY), the stop "mock", one of the five mock headsigns
    and a route taken from the allowlist of the location ("MOCK" when it is
    empty); the reply of the feed and the time conversion play no part. *)
Theorem simulated_board :
  forall (API_KEY : string) (location : ATRTDB.Location) (w : Env.World),
    ATRTDB.SIMULATION_MODE API_KEY = true ->
    List.length (ATRTDB.returned (ATRTDB.get_departures API_KEY location w))
    = ATRTDB.MAX_DEPARTURES
    /\ Forall (Mock.invariant location (Env.now w))
         (ATRTDB.returned (ATRTDB.get_departures API_KEY location w))
    /\ (forall w',
          Env.now w' = Env.now w ->
          Env.random_raw w' = Env.random_raw w ->
          ATRTDB.get_departures API_KEY location w'
          = ATRTDB.get_departures API_KEY location w).
Proof.
  intros API_KEY location w Hmode.
  unfold ATRTDB.get_departures, ATRTDB.returned. rewrite Hmode. cbn [snd].
  split; [|split].
  - rewrite mock_loop_length. reflexivity.
  - apply mock_loop_Forall; [|constructor].
    intro k. apply mock_departure_invariant.
  - intros w' Hnow Hraw. rewrite Hnow, Hraw. reflexivity.
Qed.

Lemma simulated_board_witness :
  ATRTDB.SIMULATION_MODE "YOUR_KEY_HERE" = true
  /\ List.length
       (ATRTDB.returned
          (ATRTDB.get_departures "YOUR_KEY_HERE" ATRTDB.Downtown
             Sample.world_e2e))
     = ATRTDB.MAX_DEPARTURES.
Proof.
  split; [reflexivity|].
  apply (proj1 (simulated_board "YOUR_KEY_HERE" ATRTDB.Downtown
                  Sample.world_e2e eq_refl)).
Defined.

(* ====================================================================== *)
(** ** The minutes of a status label *)
(* ====================================================================== *)

(** The text of an integer determines the integer. *)
Lemma str_int_inj (a b : Z) : Py.str_int a = Py.str_int b -> a = b.
Proof.
  unfold Py.str_int. intro H.
  assert (Hnn : forall n, Z.to_int n <> Decimal.Pos Decimal.Nil
                          /\ Z.to_int n <> Decimal.Neg Decimal.Nil).
  { intro n. destruct n as [|p|p]; simpl; split; try discriminate;
      intro E; injection E as E;
      exact (DecimalPos.Unsigned.to_uint_nonnil p E). }
  apply DecimalZ.to_int_inj.
  assert (Ha := NilZero.isi (Z.to_int a) (proj1 (Hnn a)) (proj2 (Hnn a))).
  assert (Hb := NilZero.isi (Z.to_int b) (proj1 (Hnn b)) (proj2 (Hnn b))).
  rewrite H in Ha. rewrite Ha in Hb. injection Hb as Hb. exact Hb.
Qed.

Lemma list_ascii_app (a b : string) :
  list_ascii_of_string (a ++ b)
  = (list_ascii_of_string a ++ list_ascii_of_string b)%list.
Proof. induction a as [|c a IH]; simpl; [|rewrite IH]; reflexivity. Qed.

Lemma string_app_inv_tail (a b c : string) :
  (a ++ c = b ++ c)%string -> a = b.
Proof.
  intro H. apply (f_equal list_ascii_of_string) in H.
  rewrite !list_ascii_app in H. apply app_inv_tail in H.
  rewrite <- (string_of_list_ascii_of_string a).
  rewrite <- (string_of_list_ascii_of_string b).
  rewrite H. reflexivity.
Qed.

(** X7: the minutes of a status label round a late delay down and an early
    delay up: for N >= 3, the status reads "Nm LATE" exactly for the
    delays from 60 N to 60 N + 59 seconds, and "Nm EARLY" exactly for the
    delays from -60 N to -60 N + 59 seconds. *)
Theorem status_minutes_rounding :
  forall (dep : ATRTDB.Departure) (N : Z),
    3 <= N ->
    (ATRTDB.status_cell dep
     = ((ATRTDB.COLOR_RED ++ Py.str_int N ++ "m LATE"
           ++ ATRTDB.COLOR_RESET)%string, "⚠️")
     <-> 60 * N <= ATRTDB.delay dep <= 60 * N + 59)
    /\ (ATRTDB.status_cell dep
        = ((ATRTDB.COLOR_YELLOW ++ Py.str_int N ++ "m EARLY"
              ++ ATRTDB.COLOR_RESET)%string, "⚡")
        <-> - (60 * N) <= ATRTDB.delay dep <= - (60 * N) + 59).
Proof.
  intros dep N HN. unfold ATRTDB.status_cell, Py.floordiv.
  assert (Hdm := Z.div_mod (ATRTDB.delay dep) 60 ltac:(lia)).
  assert (Hmb := Z.mod_pos_bound (ATRTDB.delay dep) 60 ltac:(lia)).
  split; split.
  - destruct (classify_cases (ATRTDB.delay dep))
      as [[G ->] | [[G ->] | [G ->]]]; intro H.
    + injection H as H.
      apply string_app_inv_tail, str_int_inj in H. lia.
    + injection H as _ H. discriminate.
    + injection H as _ H. discriminate.
  - intro H.
    assert (Hq : ATRTDB.delay dep / 60 = N).
    { symmetry. apply (Z.div_unique _ 60 N (ATRTDB.delay dep - 60 * N)); lia. }
    destruct (classify_cases (ATRTDB.delay dep))
      as [[_ ->] | [[G _] | [G _]]]; try lia.
    rewrite Hq. reflexivity.
  - destruct (classify_cases (ATRTDB.delay dep))
      as [[G ->] | [[G ->] | [G ->]]]; intro H.
    + injection H as _ H. discriminate.
    + injection H as H.
      apply string_app_inv_tail, str_int_inj in H. lia.
    + injection H as _ H. discriminate.
  - intro H.
    assert (Hq : ATRTDB.delay dep / 60 = - N).
    { symmetry.
      apply (Z.div_unique _ 60 (- N) (ATRTDB.delay dep + 60 * N)); lia. }
    destruct (classify_cases (ATRTDB.delay dep))
      as [[G _] | [[_ ->] | [G _]]]; try lia.
    rewrite Hq, Z.opp_involutive. reflexivity.
Qed.

Lemma status_minutes_rounding_witness :
  3 <= 3
  /\ - (60 * 3) <= ATRTDB.delay (Cases.late_by (-121)) <= - (60 * 3) + 59
  /\ ATRTDB.status_cell (Cases.late_by (-121))
     = ((ATRTDB.COLOR_YELLOW ++ Py.str_int 3 ++ "m EARLY"
           ++ ATRTDB.COLOR_RESET)%string, "⚡").
Proof.
  assert (H3 : 3 <= 3) by lia.
  assert (Hd : - (60 * 3) <= ATRTDB.delay (Cases.late_by (-121))
               <= - (60 * 3) + 59).
  { simpl. lia. }
  split; [exact H3|]. split; [exact Hd|].
  apply (proj2 (proj2 (status_minutes_rounding (Cases.late_by (-121)) 3 H3))).
  exact Hd.
Defined.

(** X8: the status column of the three scripts has no tolerance band and is
    not symmetric: a delay from 0 to 59 seconds is "On time", a delay from
    60 N to 60 N + 59 seconds is N minutes late, and a delay from -60 N to
    -60 N + 59 seconds is N minutes early (N >= 1), so that one second
    early reads as one minute early. *)
Theorem script_status_bands :
  forall (delay N : Z) (b : RTDB_Britomart.Departure)
         (f : RTDB_downtown.Departure) (t : RTDB_Waitemata.Departure),
    RTDB_Britomart.delay b = delay ->
    RTDB_downtown.delay f = delay ->
    RTDB_Waitemata.delay t = delay ->
    1 <= N ->
    (0 <= delay <= 59 ->
     RTDB_Britomart.status b = "On time"
     /\ RTDB_downtown.status f = "On time"
     /\ RTDB_Waitemata.status t = "On time")
    /\ (60 * N <= delay <= 60 * N + 59 ->
        RTDB_Britomart.status b = (Py.str_int N ++ "m late")%string
        /\ RTDB_downtown.status f = (Py.str_int N ++ "m late")%string
        /\ RTDB_Waitemata.status t = (Py.str_int N ++ " min late")%string)
    /\ (- (60 * N) <= delay <= - (60 * N) + 59 ->
        RTDB_Britomart.status b = (Py.str_int N ++ "m early")%string
        /\ RTDB_downtown.status f = (Py.str_int N ++ "m early")%string
        /\ RTDB_Waitemata.status t = (Py.str_int N ++ " min early")%string).
Proof.
  intros delay N b f t Hb Hf Ht HN.
  unfold RTDB_Britomart.status, RTDB_downtown.status, RTDB_Waitemata.status,
    Py.floordiv.
  rewrite Hb, Hf, Ht. cbv zeta.
  split; [|split]; intro H.
  - assert (Hq : delay / 60 = 0).
    { symmetry. apply (Z.div_unique _ 60 0 delay); lia. }
    rewrite Hq. repeat split; reflexivity.
  - assert (Hq : delay / 60 = N).
    { symmetry. apply (Z.div_unique _ 60 N (delay - 60 * N)); lia. }
    rewrite Hq.
    assert (Hpos : (N >? 0) = true) by (apply Z.gtb_lt; lia).
    rewrite Hpos. repeat split; reflexivity.
  - assert (Hq : delay / 60 = - N).
    { symmetry. apply (Z.div_unique _ 60 (- N) (delay + 60 * N)); lia. }
    rewrite Hq.
    assert (Hpos : (- N >? 0) = false).
    { destruct (- N >? 0) eqn:E; [|reflexivity].
      apply Z.gtb_lt in E. lia. }
    assert (Hneg : (- N <? 0) = true) by (apply Z.ltb_lt; lia).
    rewrite Hpos, Hneg, Z.opp_involutive. repeat split; reflexivity.
Qed.

Lemma script_status_bands_witness :
  1 <= 1
  /\ - (60 * 1) <= -1 <= - (60 * 1) + 59
  /\ RTDB_Britomart.status (Cases.bus_row (-1))
     = (Py.str_int 1 ++ "m early")%string.
Proof.
  assert (H1 : 1 <= 1) by lia.
  assert (Hd : - (60 * 1) <= -1 <= - (60 * 1) + 59) by lia.
  split; [exact H1|]. split; [exact Hd|].
  apply (proj2 (proj2 (script_status_bands (-1) 1 (Cases.bus_row (-1))
                         (Cases.ferry_row (-1)) (Cases.train_row (-1))
                         eq_refl eq_refl eq_refl H1))).
  exact Hd.
Defined.

(* ====================================================================== *)
(** ** The stop lookups *)
(* ====================================================================== *)

Lemma dyn_for_each_err {A S : Type} (body : A -> S -> Dyn.M S) (x0 : A)
    (xs : list A) :
  In x0 xs ->
  (forall s, exists out e, body x0 s = (out, Dyn.Err e)) ->
  forall s, exists out e, Dyn.for_each xs body s = (out, Dyn.Err e).
Proof.
  intros Hin Hx0. induction xs as [|x xs IH]; intro s; [destruct Hin|].
  simpl. destruct (body x s) as [out1 [s1|e1]] eqn:Hx; unfold Dyn.bind.
  - destruct Hin as [-> | Hin].
    + destruct (Hx0 s) as [out [e He]]. congruence.
    + destruct (IH Hin s1) as [out2 [e2 H2]]. rewrite H2.
      exists (out1 ++ out2), e2. reflexivity.
  - exists out1, e1. reflexivity.
Qed.

(** Two loops whose bodies agree on what they return, whatever they
    print, agree on what they return. *)
Lemma dyn_for_each_snd {A S : Type} (b1 b2 : A -> S -> Dyn.M S)
    (xs : list A) :
  (forall x s, snd (b1 x s) = snd (b2 x s)) ->
  forall s, snd (Dyn.for_each xs b1 s) = snd (Dyn.for_each xs b2 s).
Proof.
  intro Hb. induction xs as [|x xs IH]; intro s; simpl; [reflexivity|].
  specialize (Hb x s).
  destruct (b1 x s) as [o1 [s1|e1]]; destruct (b2 x s) as [o2 [s2|e2]];
    simpl in Hb; try discriminate; unfold Dyn.bind.
  - injection Hb as <-. specialize (IH s1).
    destruct (Dyn.for_each xs b1 s1) as [o3 r3];
      destruct (Dyn.for_each xs b2 s1) as [o4 r4]. exact IH.
  - exact Hb.
Qed.

Lemma item_step_unsound (item : Dyn.value) (stop_ids : list Dyn.value) :
  Doc.sound item = false ->
  exists out e, Lookup.item_step item stop_ids = (out, Dyn.Err e).
Proof.
  unfold Doc.sound, Lookup.item_step.
  destruct item as [| | | | |l|kvs];
    try (intros _; eexists; eexists; reflexivity).
  cbn [Dyn.get Dyn.lift Dyn.bind]. fold (Doc.attributes kvs).
  destruct (Doc.attributes kvs) as [| | | | |l|akvs];
    try (intros _; eexists; eexists; reflexivity).
  cbn [Dyn.get Dyn.lift Dyn.bind]. fold (Doc.is_platform akvs).
  destruct (Doc.is_platform akvs); [|discriminate].
  cbn [Dyn.getitem].
  destruct (Dyn.lookup "id" kvs) as [id|]; [discriminate|].
  intros _. eexists. eexists. reflexivity.
Qed.

(** On a reply that lists [items], the lookup runs the loop over them. *)
Lemma lookup_on_list (location : ATRTDB.Location) (d : Dyn.Directory)
    (resp : Dyn.Response) (items : list Dyn.value) :
  Dyn.requests_get d Lookup.GTFS_BASE (ATRTDB.search_term location)
    = Dyn.Ok resp ->
  Doc.lists resp items ->
  Lookup.lookup_stop_ids location d
  = Dyn.for_each items Lookup.item_step [].
Proof.
  intros Hget [Hs [top [Hj Hd]]].
  unfold Lookup.lookup_stop_ids. rewrite Hget.
  cbn [Dyn.lift Dyn.bind]. rewrite Hs.
  change (negb (200 =? 200)) with false. cbv iota.
  rewrite Hj. cbn [Dyn.lift Dyn.bind Dyn.contains]. rewrite Hd.
  cbn [Dyn.bind Dyn.getitem]. rewrite Hd. cbn [Dyn.bind Dyn.iter].
  destruct (Dyn.for_each items Lookup.item_step []) as [out r].
  reflexivity.
Qed.



(** X10: one unsound item voids the lookup: if the listed items hold one
    that is no object, or whose attributes are no object, or a platform
    without id, then [find_stop_ids] returns the empty list, its last line
    being the error line, whatever platforms the other items are. *)
Theorem unsound_item_voids_lookup :
  forall (API_KEY : string) (location : ATRTDB.Location) (d : Dyn.Directory)
         (resp : Dyn.Response) (items : list Dyn.value) (item : Dyn.value),
    ATRTDB.SIMULATION_MODE API_KEY = false ->
    Dyn.requests_get d Lookup.GTFS_BASE (ATRTDB.search_term location)
      = Dyn.Ok resp ->
    Doc.lists resp items ->
    In item items ->
    Doc.sound item = false ->
    snd (Lookup.find_stop_ids API_KEY location d) = []
    /\ exists out e,
         fst (Lookup.find_stop_ids API_KEY location d)
         = out ++ [Dyn.Failed ("❌ Error finding stops for "
                                 ++ ATRTDB.name location ++ ": ")%string e].
Proof.
  intros API_KEY location d resp items item Hmode Hget Hlists Hin Hbad.
  unfold Lookup.find_stop_ids. rewrite Hmode.
  rewrite (lookup_on_list location d resp items Hget Hlists).
  destruct (dyn_for_each_err Lookup.item_step item items Hin
              (fun s => item_step_unsound item s Hbad) [])
    as [out [e Hrun]].
  rewrite Hrun. cbn [fst snd]. split; [reflexivity|].
  exists out, e. reflexivity.
Qed.

Lemma unsound_item_voids_lookup_witness :
  In (Dyn.VDict [("attributes", Dyn.VDict [("location_type", Dyn.VInt 0)])])
     Cases.station_broken
  /\ Doc.sound
       (Dyn.VDict [("attributes", Dyn.VDict [("location_type", Dyn.VInt 0)])])
     = false
  /\ snd (Lookup.find_stop_ids "k" ATRTDB.Waitemata
            (Cases.directory_of Cases.station_broken)) = [].
Proof.
  split; [right; left; reflexivity|]. split; [reflexivity|].
  apply (proj1 (unsound_item_voids_lookup "k" ATRTDB.Waitemata
                  (Cases.directory_of Cases.station_broken)
                  (Cases.reply_of Cases.station_broken) Cases.station_broken
                  (Dyn.VDict [("attributes",
                               Dyn.VDict [("location_type", Dyn.VInt 0)])])
                  eq_refl eq_refl
                  (conj eq_refl
                     (ex_intro _ [("data", Dyn.VList Cases.station_broken)]
                        (conj eq_refl eq_refl)))
                  (or_intror (or_introl eq_refl)) eq_refl)).
Defined.

Lemma snd_bind {A B : Type} (c : Dyn.M A) (k : A -> Dyn.M B) :
  snd (Dyn.bind c k)
  = match snd c with
    | Dyn.Ok a => snd (k a)
    | Dyn.Err e => Dyn.Err e
    end.
Proof.
  destruct c as [out [a|e]]; simpl; [|reflexivity].
  destruct (k a); reflexivity.
Qed.

Lemma item_steps_agree (item : Dyn.value) (stop_ids : list Dyn.value) :
  snd (Lookup.item_step item stop_ids)
  = snd (ScriptLookup.item_step item stop_ids).
Proof.
  unfold Lookup.item_step, ScriptLookup.item_step.
  rewrite !snd_bind.
  destruct (snd (Dyn.lift (Dyn.get item "attributes" (Dyn.VDict []))))
    as [attrs|e]; [|reflexivity].
  rewrite !snd_bind.
  destruct (snd (Dyn.lift (Dyn.get attrs "location_type" Dyn.VNone)))
    as [lt|e]; [|reflexivity].
  destruct (Dyn.eq_zero lt); [|reflexivity].
  rewrite !snd_bind.
  destruct (snd (Dyn.lift (Dyn.getitem item "id"))) as [id|e];
    [|reflexivity].
  rewrite !snd_bind.
  destruct (snd (Dyn.lift (Dyn.get attrs "stop_name" Dyn.VNone)))
    as [nm|e]; [|reflexivity].
  rewrite !snd_bind.
  destruct (snd (Dyn.lift (Dyn.getitem item "id"))) as [id'|e];
    reflexivity.
Qed.

(** X11: the stop lookup of the bus and ferry scripts and the one of the
    master board read a reply alike: when both endpoints give the same
    reply to the search, the master board (outside the simulation) returns
    the list that the script returns, and the empty list where the script
    raises. *)
Theorem script_lookup_agrees :
  forall (API_KEY : string) (location : ATRTDB.Location) (d : Dyn.Directory)
         (none_found : string),
    ATRTDB.SIMULATION_MODE API_KEY = false ->
    Dyn.requests_get d ScriptLookup.GTFS_BASE (ATRTDB.search_term location)
      = Dyn.requests_get d Lookup.GTFS_BASE (ATRTDB.search_term location) ->
    match snd (ScriptLookup.find_stop_ids none_found
                 (ATRTDB.search_term location) d) with
    | Dyn.Ok stop_ids =>
        snd (Lookup.find_stop_ids API_KEY location d) = stop_ids
    | Dyn.Err _ => snd (Lookup.find_stop_ids API_KEY location d) = []
    end.
Proof.
  intros API_KEY location d none_found Hmode Hsame.
  assert (Hmaster : snd (Lookup.find_stop_ids API_KEY location d)
            = match snd (Lookup.lookup_stop_ids location d) with
              | Dyn.Ok l => l
              | Dyn.Err _ => []
              end).
  { unfold Lookup.find_stop_ids. rewrite Hmode.
    destruct (Lookup.lookup_stop_ids location d) as [out [l|e]];
      reflexivity. }
  rewrite Hmaster. clear Hmaster.
  unfold ScriptLookup.find_stop_ids, Lookup.lookup_stop_ids.
  rewrite Hsame, !snd_bind.
  destruct (snd (Dyn.lift (Dyn.requests_get d Lookup.GTFS_BASE
                             (ATRTDB.search_term location))))
    as [resp|e]; [|reflexivity].
  destruct (negb (Dyn.status_code resp =? 200)); [reflexivity|].
  rewrite !snd_bind.
  destruct (snd (Dyn.lift (Dyn.json resp))) as [data|e]; [|reflexivity].
  rewrite !snd_bind.
  destruct (snd (Dyn.lift (Dyn.contains "data" data))) as [has|e];
    [|reflexivity].
  rewrite !snd_bind.
  destruct has.
  - rewrite !snd_bind.
    destruct (snd (Dyn.lift (Dyn.getitem data "data"))) as [items|e];
      [|reflexivity].
    rewrite !snd_bind.
    destruct (snd (Dyn.lift (Dyn.iter items))) as [xs|e]; [|reflexivity].
    rewrite <- (dyn_for_each_snd Lookup.item_step ScriptLookup.item_step xs
                  item_steps_agree []).
    destruct (snd (Dyn.for_each xs Lookup.item_step [])) as [l|e];
      [|reflexivity].
    rewrite snd_bind. destruct l; reflexivity.
  - cbn [Dyn.ret snd]. rewrite snd_bind. reflexivity.
Qed.

Lemma script_lookup_agrees_witness :
  ATRTDB.SIMULATION_MODE "k" = false
  /\ snd (ScriptLookup.find_bus_stop_ids (ATRTDB.search_term ATRTDB.Britomart)
            (Cases.directory_of Cases.station))
     = Dyn.Ok [Dyn.VStr "9100"; Dyn.VStr "9101"]
  /\ match snd (ScriptLookup.find_bus_stop_ids
                  (ATRTDB.search_term ATRTDB.Britomart)
                  (Cases.directory_of Cases.station)) with
     | Dyn.Ok stop_ids =>
         snd (Lookup.find_stop_ids "k" ATRTDB.Britomart
                (Cases.directory_of Cases.station)) = stop_ids
     | Dyn.Err _ =>
         snd (Lookup.find_stop_ids "k" ATRTDB.Britomart
                (Cases.directory_of Cases.station)) = []
     end.
Proof.
  split; [reflexivity|]. split; [reflexivity|].
  apply (script_lookup_agrees "k" ATRTDB.Britomart
           (Cases.directory_of Cases.station)
           "No stops found—try 'Lower Albert' or check portal."
           eq_refl eq_refl).
Defined.

(** X12: the train script follows the first match of the search whatever
    its location type: on a reply that lists items of which the first is an
    object with an id (and attributes that are an object, if any),
    [find_stop_id_by_name] returns that id; on a reply that lists nothing
    it returns [None]. *)
Theorem train_lookup_takes_first_match :
  forall (name : string) (d : Dyn.Directory) (resp : Dyn.Response)
         (items : list Dyn.value),
    Dyn.requests_get d RTDB_Waitemata.GTFS_BASE name = Dyn.Ok resp ->
    Doc.lists resp items ->
    (items = [] ->
     snd (RTDB_Waitemata.find_stop_id_by_name name d) = Dyn.Ok Dyn.VNone)
    /\ (forall kvs akvs rest id,
          items = Dyn.VDict kvs :: rest ->
          Dyn.lookup "id" kvs = Some id ->
          Doc.attributes kvs = Dyn.VDict akvs ->
          snd (RTDB_Waitemata.find_stop_id_by_name name d) = Dyn.Ok id).
Proof.
  intros name d resp items Hget [Hs [top [Hj Hd]]].
  unfold RTDB_Waitemata.find_stop_id_by_name.
  rewrite Hget. cbn [Dyn.lift Dyn.bind]. rewrite Hs.
  change (negb (200 =? 200)) with false. cbv iota.
  rewrite Hj. cbn [Dyn.lift Dyn.bind Dyn.contains]. rewrite Hd.
  cbn [Dyn.bind Dyn.getitem]. rewrite Hd.
  split.
  - intros ->. reflexivity.
  - intros kvs akvs rest id -> Hid Hattrs.
    cbn [Dyn.ret Dyn.bind Dyn.truthy app Dyn.getitem0 Dyn.getitem Dyn.get].
    rewrite Hid. fold (Doc.attributes kvs). rewrite Hattrs.
    reflexivity.
Qed.

Lemma train_lookup_takes_first_match_witness :
  Cases.station
    = Dyn.VDict
        [("id", Dyn.VStr "133");
         ("attributes",
          Dyn.VDict [("stop_name", Dyn.VStr "Waitemata Station");
                     ("location_type", Dyn.VInt 1)])]
      :: tl Cases.station
  /\ snd (RTDB_Waitemata.find_stop_id_by_name "Waitemata"
            (Cases.directory_of Cases.station))
     = Dyn.Ok (Dyn.VStr "133")
  /\ ~ In (Dyn.VStr "133") (Doc.platform_ids Cases.station).
Proof.
  split; [reflexivity|]. split.
  - apply (proj2 (train_lookup_takes_first_match "Waitemata"
                    (Cases.directory_of Cases.station)
                    (Cases.reply_of Cases.station) Cases.station
                    eq_refl
                    (conj eq_refl
                       (ex_intro _ [("data", Dyn.VList Cases.station)]
                          (conj eq_refl eq_refl))))
             _ [("stop_name", Dyn.VStr "Waitemata Station");
                ("location_type", Dyn.VInt 1)]
             (tl Cases.station) (Dyn.VStr "133")
             eq_refl eq_refl eq_refl).
  - simpl. intros [H | [H | []]]; discriminate.
Defined.

(* ====================================================================== *)
(** ** The train script and the master board *)
(* ====================================================================== *)



(* ====================================================================== *)
(** ** The rendering of a row *)
(* ====================================================================== *)

Lemma len_app (a b : string) :
  PyStr.len (a ++ b) = (PyStr.len a + PyStr.len b)%nat.
Proof.
  induction a as [|c a IH]; simpl.
  - reflexivity.
  - destruct (PyStr.is_continuation c); rewrite IH; reflexivity.
Qed.

Lemma len_spaces (n : nat) : PyStr.len (PyStr.times " " n) = n.
Proof.
  induction n as [|n IH]; simpl.
  - reflexivity.
  - rewrite IH. reflexivity.
Qed.

Lemma len_take (n : nat) (s : string) :
  PyStr.len (PyStr.take n s) = Nat.min n (PyStr.len s).
Proof.
  revert n. induction s as [|c s IH]; intro n; simpl.
  - rewrite Nat.min_0_r. reflexivity.
  - destruct (PyStr.is_continuation c) eqn:E.
    + simpl. rewrite E. apply IH.
    + destruct n as [|n]; simpl.
      * reflexivity.
      * rewrite E, IH. reflexivity.
Qed.

Lemma len_ljust (n : nat) (s : string) :
  PyStr.len (PyStr.ljust n s) = Nat.max n (PyStr.len s).
Proof. unfold PyStr.ljust. rewrite len_app, len_spaces. lia. Qed.

Lemma len_rjust (n : nat) (s : string) :
  PyStr.len (PyStr.rjust n s) = Nat.max n (PyStr.len s).
Proof. unfold PyStr.rjust. rewrite len_app, len_spaces. lia. Qed.

Lemma digit_plain (n : Z) : PyStr.is_continuation (Board.digit n) = false.
Proof.
  unfold Board.digit.
  destruct n as [|p|p]; try reflexivity.
  do 4 (destruct p as [p|p|]; try reflexivity).
Qed.

Lemma len_two_digits (n : Z) : PyStr.len (Board.two_digits n) = 2%nat.
Proof.
  unfold Board.two_digits. simpl. rewrite !digit_plain. reflexivity.
Qed.

Lemma len_strftime_HM (d : Py.datetime) :
  PyStr.len (Board.strftime_HM d) = 5%nat.
Proof.
  unfold Board.strftime_HM. rewrite !len_app, !len_two_digits. reflexivity.
Qed.

Lemma len_strftime_HMS (d : Py.datetime) :
  PyStr.len (Board.strftime_HMS d) = 8%nat.
Proof.
  unfold Board.strftime_HMS. rewrite !len_app, !len_two_digits. reflexivity.
Qed.

(** The text of an integer does not start with the letter N. *)
Lemma str_int_head (n : Z) :
  exists c rest, Py.str_int n = String c rest /\ c <> "N"%char.
Proof.
  unfold Py.str_int.
  destruct (Z.to_int n) as [u|u]; destruct u; simpl;
    eexists; eexists; (split; [reflexivity | discriminate]).
Qed.

Lemma mins_str_NOW (mins : Z) : Board.mins_str mins = "NOW" <-> mins = 0.
Proof.
  unfold Board.mins_str. split.
  - destruct (mins =? 0) eqn:E; [intros _; apply Z.eqb_eq, E|].
    destruct (mins <? 60).
    + destruct (str_int_head mins) as [c [rest [-> Hc]]]. simpl.
      intro H. injection H as H _. contradiction.
    + destruct (str_int_head (mins // 60)) as [c [rest [-> Hc]]]. simpl.
      intro H. injection H as H _. contradiction.
  - intros ->. reflexivity.
Qed.

(** X14: the "In" column reads NOW exactly for 0 minutes; for the minutes
    that lines 160 to 162 compute this is exactly when the departure is
    less than a minute after [now], whatever the two instants, and a
    simulated entry never reads NOW; from 60 minutes on the column shows
    the hours and the remaining minutes. *)
Theorem minutes_column :
  forall (API_KEY : string) (location : ATRTDB.Location) (w : Env.World),
    (forall mins, Board.mins_str mins = "NOW" <-> mins = 0)
    /\ (forall dep_time now,
          Board.mins_str (ATRTDB.minutes_until dep_time now) = "NOW"
          <-> dep_time - now < 60000000)
    /\ (ATRTDB.SIMULATION_MODE API_KEY = true ->
        Forall (fun e => Board.mins_str (ATRTDB.mins_until e) <> "NOW")
          (ATRTDB.returned (ATRTDB.get_departures API_KEY location w)))
    /\ (forall mins,
          60 <= mins ->
          exists h m,
            Board.mins_str mins
            = (Py.str_int h ++ "h" ++ Py.str_int m ++ "m")%string
            /\ mins = 60 * h + m /\ 1 <= h /\ 0 <= m < 60).
Proof.
  intros API_KEY location w.
  split; [exact mins_str_NOW|]. split; [|split].
  - intros dep_time now. rewrite mins_str_NOW. apply minutes_until_zero.
  - intro Hmode. unfold ATRTDB.get_departures, ATRTDB.returned.
    rewrite Hmode. cbn [snd]. apply mock_loop_Forall; [|constructor].
    intro k. rewrite mins_str_NOW.
    assert (H := mock_departure_fields location (Env.now w)
                   (Env.random_raw w) k).
    simpl in H. lia.
  - intros mins Hm. exists (mins / 60), (mins mod 60).
    unfold Board.mins_str, Py.floordiv.
    assert (E0 : (mins =? 0) = false) by (apply Z.eqb_neq; lia).
    assert (E1 : (mins <? 60) = false) by (apply Z.ltb_ge; lia).
    rewrite E0, E1. split; [reflexivity|].
    Z.to_euclidean_division_equations. lia.
Qed.

Lemma minutes_column_witness :
  ATRTDB.SIMULATION_MODE "YOUR_KEY_HERE" = true
  /\ Forall (fun e => Board.mins_str (ATRTDB.mins_until e) <> "NOW")
       (ATRTDB.returned
          (ATRTDB.get_departures "YOUR_KEY_HERE" Sample.loc64
             Sample.world_e2e))
  /\ (Board.mins_str
        (ATRTDB.minutes_until (Sample.now0 + 59999999) Sample.now0) = "NOW"
      <-> Sample.now0 + 59999999 - Sample.now0 < 60000000).
Proof.
  split; [reflexivity|]. split.
  - apply (proj1 (proj2 (proj2 (minutes_column "YOUR_KEY_HERE" Sample.loc64
                                  Sample.world_e2e)))).
    reflexivity.
  - apply (proj1 (proj2 (minutes_column "YOUR_KEY_HERE" Sample.loc64
                           Sample.world_e2e))).
Defined.

Lemma string_app_assoc (a b c : string) :
  ((a ++ b) ++ c = a ++ (b ++ c))%string.
Proof.
  induction a as [|x a IH]; simpl; [|rewrite IH]; reflexivity.
Qed.

(** The minutes column keeps to its five characters below ten hours. *)
Lemma mins_str_fits (mins : Z) :
  0 <= mins < 600 -> (PyStr.len (Board.mins_str mins) <= 5)%nat.
Proof.
  intro H.
  assert (Hall : forallb
                   (fun n =>
                      (PyStr.len (Board.mins_str (Z.of_nat n)) <=? 5)%nat)
                   (seq 0 600) = true).
  { vm_compute. reflexivity. }
  rewrite forallb_forall in Hall.
  specialize (Hall (Z.to_nat mins)).
  rewrite Z2Nat.id in Hall by lia.
  apply Nat.leb_le, Hall, in_seq. lia.
Qed.

(** X15: the columns of a row line up: whatever the route, the headsign and
    the departure instant of an entry, its row starts with 45 characters
    (the route cut and padded to 7, the headsign cut and padded to 22, the
    time padded to 8, and the separators); the minutes column that follows
    has its 5 characters when the entry is less than 600 minutes away. *)
Theorem row_columns_line_up :
  forall (dep : ATRTDB.Departure),
    let left :=
      ("║ " ++ PyStr.ljust 7 (PyStr.take 7 (ATRTDB.route dep)) ++ "│ "
         ++ PyStr.ljust 22 (PyStr.take 22 (ATRTDB.headsign dep)) ++ "│ "
         ++ PyStr.ljust 8 (Board.strftime_HM (ATRTDB.time dep))
         ++ "│ ")%string
    in
    PyStr.len (PyStr.ljust 7 (PyStr.take 7 (ATRTDB.route dep))) = 7%nat
    /\ PyStr.len (PyStr.ljust 22 (PyStr.take 22 (ATRTDB.headsign dep)))
       = 22%nat
    /\ PyStr.len left = 45%nat
    /\ (exists right, Board.row dep = (left ++ right)%string)
    /\ (0 <= ATRTDB.mins_until dep < 600 ->
        PyStr.len (PyStr.ljust 5 (Board.mins_str (ATRTDB.mins_until dep)))
        = 5%nat).
Proof.
  intros dep left. subst left.
  assert (H7 : PyStr.len (PyStr.ljust 7 (PyStr.take 7 (ATRTDB.route dep)))
               = 7%nat).
  { rewrite len_ljust, len_take. lia. }
  assert (H22 : PyStr.len
                  (PyStr.ljust 22 (PyStr.take 22 (ATRTDB.headsign dep)))
                = 22%nat).
  { rewrite len_ljust, len_take. lia. }
  split; [exact H7|]. split; [exact H22|]. split; [|split].
  - rewrite !len_app, H7, H22, len_ljust, len_strftime_HM. reflexivity.
  - eexists. unfold Board.row. cbv zeta.
    rewrite !string_app_assoc. reflexivity.
  - intro Hm. rewrite len_ljust.
    assert (H := mins_str_fits _ Hm). lia.
Qed.

Lemma row_columns_line_up_witness :
  0 <= ATRTDB.mins_until Sample.entry_e2e < 600
  /\ PyStr.len
       (PyStr.ljust 5 (Board.mins_str (ATRTDB.mins_until Sample.entry_e2e)))
     = 5%nat.
Proof.
  assert (Hm : 0 <= ATRTDB.mins_until Sample.entry_e2e < 600).
  { simpl. lia. }
  split; [exact Hm|].
  apply (proj2 (proj2 (proj2 (proj2
           (row_columns_line_up Sample.entry_e2e))))).
  exact Hm.
Defined.

(** X16: the line of the location name is 30 characters wider than the
    name padded to 50: it has the 80 characters of the frame exactly when
    the name has at most 50, as the names of the three locations have. *)
Theorem location_line_width :
  forall (location : ATRTDB.Location) (now : Py.datetime),
    PyStr.len (Board.location_line location now)
    = (30 + Nat.max 50 (PyStr.len (ATRTDB.name location)))%nat
    /\ (PyStr.len (Board.location_line location now) = 80%nat
        <-> (PyStr.len (ATRTDB.name location) <= 50)%nat)
    /\ PyStr.len ("╔" ++ PyStr.times "═" 78 ++ "╗") = 80%nat
    /\ Forall (fun l => PyStr.len (Board.location_line l now) = 80%nat)
         ATRTDB.LOCATIONS.
Proof.
  intros location now.
  assert (Hw : forall l,
            PyStr.len (Board.location_line l now)
            = (30 + Nat.max 50 (PyStr.len (ATRTDB.name l)))%nat).
  { intro l. unfold Board.location_line.
    rewrite !len_app, len_ljust, len_rjust, len_strftime_HMS.
    simpl. lia. }
  split; [apply Hw|]. split; [rewrite Hw; lia|].
  split; [reflexivity|].
  repeat constructor; rewrite Hw; reflexivity.
Qed.

Lemma string_app_empty (s : string) : (s ++ EmptyString = s)%string.
Proof. induction s as [|c s IH]; simpl; [|rewrite IH]; reflexivity. Qed.

Lemma len_str_int_pos (n : Z) : (1 <= PyStr.len (Py.str_int n))%nat.
Proof.
  unfold Py.str_int.
  destruct (Z.to_int n) as [u|u]; destruct u; simpl; lia.
Qed.

(** X17: the width 10 of the status field never pads: with its colour
    codes the status text has at least 16 characters, so the field is the
    text itself and the right border of a row follows the text at once. *)
Theorem status_field_never_padded :
  forall (dep : ATRTDB.Departure),
    (16 <= PyStr.len (fst (ATRTDB.status_cell dep)))%nat
    /\ PyStr.ljust 10 (fst (ATRTDB.status_cell dep))
       = fst (ATRTDB.status_cell dep).
Proof.
  intro dep.
  assert (H : (16 <= PyStr.len (fst (ATRTDB.status_cell dep)))%nat).
  { unfold ATRTDB.status_cell.
    assert (H1 := len_str_int_pos (ATRTDB.delay dep // 60)).
    assert (H2 := len_str_int_pos (- (ATRTDB.delay dep // 60))).
    destruct (ATRTDB.classify (ATRTDB.delay dep)); cbn [fst];
      rewrite !len_app;
      change (PyStr.len ATRTDB.COLOR_RED) with 5%nat;
      change (PyStr.len ATRTDB.COLOR_YELLOW) with 5%nat;
      change (PyStr.len ATRTDB.COLOR_GREEN) with 5%nat;
      change (PyStr.len ATRTDB.COLOR_RESET) with 4%nat;
      change (PyStr.len "m LATE") with 6%nat;
      change (PyStr.len "m EARLY") with 7%nat;
      change (PyStr.len "ON TIME") with 7%nat; lia. }
  split; [exact H|].
  unfold PyStr.ljust.
  replace (10 - PyStr.len (fst (ATRTDB.status_cell dep)))%nat with 0%nat
    by lia.
  apply string_app_empty.
Qed.
